(** * Steam catalogue: normalisation pipeline and analytics

    A shallow embedding of [steam_streamlit_app.py]: the field parsers of
    [clean_data], the column resolution and fallback logic around them,
    and the analytics that read the normalised frame
    ([plot_rating_price_correlation] with the band classification of
    [main], [plot_tags_bar], [find_high_value_games]).

    Python values are modelled as follows.
    - A [str] is the list of its Unicode code points.
    - A [float] is an exact rational, with NaN kept apart; rounding to
      binary64 is not modelled, order comparisons are exact.
    - An exception is a value of [exn]; a computation that may raise
      returns a [result].
    - A DataFrame is an index plus an ordered list of named columns and
      lives in a heap of frames, so that [df.copy()] and the column
      assignments of [clean_data] are visible as allocation and writes.
      Cells are values: a list in a cell is never changed in place by
      the source, so sharing between a frame and its copy is not
      modelled.

    Library functions whose results are not computed here are
    parameters: [float.__repr__], [list.__repr__], [pandas.to_datetime]
    and the type check of an assignment through [df.loc] (record
    [pylib]), [Series.corr], and [DataFrame.sort_values] under the
    contract of a sort by descending key. Of the page, the two sliders
    of the sidebar and the data of the five tabs are modelled; charts
    and fonts are left out. *)

From Stdlib Require Import ZArith NArith QArith String Ascii List.
From Stdlib Require Import Permutation Sorted Lia Bool.
From stdpp Require Import base list.
Import ListNotations.

Local Open Scope N_scope.

(** ** Python strings *)

Module Py.

Definition char := N.
Definition str := list char.

(** An ASCII literal as a Python string. *)
Definition lit (s : string) : str :=
  List.map N_of_ascii (list_ascii_of_string s).

Fixpoint str_eqb (a b : str) : bool :=
  match a, b with
  | [], [] => true
  | c :: a', d :: b' => (c =? d) && str_eqb a' b'
  | _, _ => false
  end.

Fixpoint startswith (p s : str) : bool :=
  match p, s with
  | [], _ => true
  | _ :: _, [] => false
  | c :: p', d :: s' => (c =? d) && startswith p' s'
  end.

(** [sub in s] *)
Fixpoint contains (sub s : str) : bool :=
  startswith sub s ||
  match s with
  | [] => false
  | _ :: s' => contains sub s'
  end.

(** [s.lower()].  Only the ASCII letters are folded; no other character
    lower-cases to one of the ASCII letters that the synonym tests of
    [clean_data] look for. *)
Definition lower_char (c : char) : char :=
  if (65 <=? c) && (c <=? 90) then c + 32 else c.
Definition lower (s : str) : str := List.map lower_char s.

(** [s.replace(c, empty)] for a one-character [c]. *)
Definition remove_char (c : char) (s : str) : str :=
  List.filter (fun d => negb (d =? c)) s.

(** [s.split(c)] for a one-character separator. *)
Fixpoint split (sep : char) (s : str) : list str :=
  match s with
  | [] => [[]]
  | c :: s' =>
      if c =? sep then [] :: split sep s'
      else match split sep s' with
           | p :: ps => (c :: p) :: ps
           | [] => [[c]]
           end
  end.

(** [sep.join(l)] *)
Fixpoint join (sep : str) (l : list str) : str :=
  match l with
  | [] => []
  | [s] => s
  | s :: l' => s ++ sep ++ join sep l'
  end.

(** [str.isspace] on one code point (CPython's [_PyUnicode_IsWhitespace]). *)
Definition isspace (c : char) : bool :=
  ((9 <=? c) && (c <=? 13)) || ((28 <=? c) && (c <=? 32)) ||
  (c =? 133) || (c =? 160) || (c =? 5760) ||
  ((8192 <=? c) && (c <=? 8202)) || (c =? 8232) || (c =? 8233) ||
  (c =? 8239) || (c =? 8287) || (c =? 12288).

Fixpoint lstrip (s : str) : str :=
  match s with
  | c :: s' => if isspace c then lstrip s' else s
  | [] => []
  end.
Definition rstrip (s : str) : str := rev (lstrip (rev s)).
Definition strip (s : str) : str := rstrip (lstrip s).

(** The character class [\d] of [re] on [str]: the decimal digits of
    Unicode (category Nd), which are also the digits [int] and [float]
    read.  They come in runs of ten, each from a zero up to a nine; the
    table lists the zero of every run (Unicode 14.0, the character
    database of CPython 3.11): ASCII at 48, Arabic-Indic at 1632, the
    full-width digits at 65296, and so on. *)
Definition decimal_zeros : list N :=
  [48; 1632; 1776; 1984; 2406; 2534; 2662; 2790; 2918; 3046; 3174; 3302;
   3430; 3558; 3664; 3792; 3872; 4160; 4240; 6112; 6160; 6470; 6608; 6784;
   6800; 6992; 7088; 7232; 7248; 42528; 43216; 43264; 43472; 43504; 43600;
   44016; 65296; 66720; 68912; 69734; 69872; 69942; 70096; 70384; 70736;
   70864; 71248; 71360; 71472; 71904; 72016; 72784; 73040; 73120; 92768;
   92864; 93008; 120782; 120792; 120802; 120812; 120822; 123200; 123632;
   125264; 130032].

(** The zero of the run a digit belongs to. *)
Definition zero_of (c : char) : option N :=
  List.find (fun z => (z <=? c) && (c <? z + 10)) decimal_zeros.

Definition isdigit (c : char) : bool :=
  match zero_of c with
  | Some _ => true
  | None => false
  end.

(** The value of a digit, 0 to 9. *)
Definition digit_val (c : char) : N :=
  match zero_of c with
  | Some z => c - z
  | None => 0
  end.

(** The digits 0 to 9 of ASCII. *)
Definition is_ascii_digit (c : char) : bool := (48 <=? c) && (c <=? 57).

(** The longest prefix of digits and what follows it. *)
Fixpoint span_digits (s : str) : str * str :=
  match s with
  | c :: s' =>
      if isdigit c then let (ds, r) := span_digits s' in (c :: ds, r)
      else ([], s)
  | [] => ([], [])
  end.

(** [int(ds)] for a string of digits. *)
Definition int_of_digits (ds : str) : N :=
  fold_left (fun acc c => 10 * acc + digit_val c) ds 0.

(** Decimal representation of a natural number, [str(n)]. *)
Fixpoint digits_fuel (fuel : nat) (n : N) (acc : str) : str :=
  match fuel with
  | O => acc
  | S f =>
      let acc' := (48 + n mod 10) :: acc in
      if n / 10 =? 0 then acc' else digits_fuel f (n / 10) acc'
  end.
Definition str_of_N (n : N) : str := digits_fuel (S (N.to_nat (N.log2 n))) n [].

Definition str_of_Z (z : Z) : str :=
  match z with
  | Zneg p => 45 :: str_of_N (Npos p)
  | _ => str_of_N (Z.to_N z)
  end.

End Py.

(** Column names and markers of the source, by code point. *)
Module Names.
Import Py.
Definition unknown : str := [26410; 30693].                 (* 未知 *)
Definition free : str := [20813; 36153].                    (* 免费 *)
Definition original_price : str := [21407; 20215].          (* 原价 *)
Definition discount_price : str := [25240; 25187; 20215].   (* 折扣价 *)
Definition price : str := [20215; 26684].                   (* 价格 *)
Definition detailed_rating : str := [35814; 32454; 22909; 35780; 29575]. (* 详细好评率 *)
Definition basic_rating : str := [22522; 26412; 22909; 35780; 29575].    (* 基本好评率 *)
Definition rating : str := [22909; 35780; 29575].           (* 好评率 *)
Definition rating_word : str := [22909; 35780].             (* 好评 *)
Definition detailed_tags : str := [35814; 32454; 26631; 31614]. (* 详细标签 *)
Definition basic_tags : str := [22522; 26412; 26631; 31614].    (* 基本标签 *)
Definition tag_list : str := [26631; 31614; 21015; 34920].  (* 标签列表 *)
Definition tag_word : str := [26631; 31614].                (* 标签 *)
Definition detailed_date : str := [35814; 32454; 21457; 24067; 26085; 26399]. (* 详细发布日期 *)
Definition basic_date : str := [22522; 26412; 21457; 24067; 26102; 38388].    (* 基本发布时间 *)
Definition release_time : str := [21457; 24067; 26102; 38388]. (* 发布时间 *)
Definition release_word : str := [21457; 24067].            (* 发布 *)
Definition date_word : str := [26085; 26399].               (* 日期 *)
Definition release_year : str := [21457; 24067; 24180; 20221]. (* 发布年份 *)
Definition game_name : str := [28216; 25103; 21517; 31216]. (* 游戏名称 *)
End Names.

(** ** Python values, exceptions *)

Inductive exn :=
  ValueError | TypeError | AttributeError | KeyError | StreamlitInvalidMinMaxError.

Inductive result (A : Type) :=
| Ok (a : A)
| Err (e : exn).
Arguments Ok {A} a.
Arguments Err {A} e.

#[global] Instance result_ret : MRet result := @Ok.
#[global] Instance result_bind : MBind result := fun A B k r =>
  match r with
  | Ok a => k a
  | Err e => Err e
  end.

(** [pandas.Timestamp], at the precision of a calendar date. *)
Record timestamp := { ts_year : Z; ts_month : Z; ts_day : Z }.

(** One cell of a frame. [Null] stands for every value [pd.isna] accepts
    ([None], [np.nan], [NaT]). *)
Inductive cell :=
| Null
| Bool (b : bool)
| Int (z : Z)
| Float (q : Q)
| Str (s : Py.str)
| PyList (l : list Py.str)
| Timestamp (t : timestamp).

(** The raw cell values of the data model: null, numbers and strings, as
    [pd.read_csv] yields them. *)
Definition raw_cell (c : cell) : bool :=
  match c with
  | Null | Bool _ | Int _ | Float _ | Str _ => true
  | PyList _ | Timestamp _ => false
  end.

(** Library functions whose results are taken as given:
    [float.__repr__], [list.__repr__], [pandas.to_datetime] ([None] when
    it raises), and the type check of an assignment through
    [df.loc[mask, col]]. A column has a type, and pandas refuses cells
    that its type does not hold: [loc_accepts column mask values] tells
    whether the column, given by its cells, takes [values] in the rows of
    [mask]; when it does not, the assignment raises [TypeError]. *)
Record pylib := {
  float_repr : Q -> Py.str;
  list_repr : list Py.str -> Py.str;
  to_datetime : cell -> option timestamp;
  loc_accepts : list cell -> list bool -> list cell -> bool
}.

Section Parsers.
Import Py.
Variable L : pylib.

(** [s] padded with zeros on the left up to [width] characters. *)
Definition pad (width : nat) (s : str) : str :=
  repeat 48 (width - length s)%nat ++ s.

(** [str(v)] *)
Definition py_str (v : cell) : str :=
  match v with
  | Null => lit "nan"
  | Bool true => lit "True"
  | Bool false => lit "False"
  | Int z => str_of_Z z
  | Float q => float_repr L q
  | Str s => s
  | PyList l => list_repr L l
  | Timestamp t =>
      pad 4 (str_of_Z (ts_year t)) ++ lit "-" ++ pad 2 (str_of_Z (ts_month t)) ++
      lit "-" ++ pad 2 (str_of_Z (ts_day t)) ++ lit " 00:00:00"
  end.

(** [v == s] for a string [s]: only a string can be equal to it. *)
Definition eq_str (v : cell) (s : str) : bool :=
  match v with
  | Str t => str_eqb t s
  | _ => false
  end.

(** The truth value of [pd.isna(v)] as read by [if]. On a list [pd.isna]
    answers with an array, whose truth value is an error unless it has
    exactly one element (NumPy from 2.2 on refuses the empty array too). *)
Definition isna (v : cell) : result bool :=
  match v with
  | Null => Ok true
  | PyList [_] => Ok false
  | PyList _ => Err ValueError
  | _ => Ok false
  end.

(** [re.search(r'\d+\.?\d*', s)]: integer and fraction digits of the
    first match, and whether the point was matched. *)
Fixpoint search_number (s : str) : option (str * bool * str) :=
  match s with
  | [] => None
  | c :: s' =>
      if isdigit c then
        let (ds, r) := span_digits s in
        match r with
        | d :: r' => if d =? 46 then Some (ds, true, fst (span_digits r'))
                     else Some (ds, false, [])
        | [] => Some (ds, false, [])
        end
      else search_number s'
  end.

(** [float(m.group())] *)
Definition float_of_match (m : str * bool * str) : Q :=
  let '(ds, _, fs) := m in
  Qred ((Z.of_N (int_of_digits ds) # 1) +
        (Z.of_N (int_of_digits fs) # Pos.of_nat (Nat.pow 10 (length fs)))).

(** [re.search(r'(\d+)%', s)]: group 1 of the first match. [run] is the
    digit run being read, most recent digit first. *)
Fixpoint search_percent_from (run s : str) : option str :=
  match s with
  | [] => None
  | c :: s' =>
      if isdigit c then search_percent_from (c :: run) s'
      else if (c =? 37) && negb (str_eqb run []) then Some (rev run)
      else search_percent_from [] s'
  end.
Definition search_percent (s : str) : option str := search_percent_from [] s.

(** [re.match(r'\d{4}-\d{1,2}-\d{1,2}', s)] succeeds. *)
Definition match_ymd (s : str) : bool :=
  match s with
  | a :: b :: c :: d :: h :: r =>
      isdigit a && isdigit b && isdigit c && isdigit d && (h =? 45) &&
      match r with
      | m1 :: h2 :: d1 :: _ =>
          isdigit m1 &&
          (((h2 =? 45) && isdigit d1) ||
           (isdigit h2 && match r with
                          | _ :: _ :: h3 :: d2 :: _ => (h3 =? 45) && isdigit d2
                          | _ => false
                          end))
      | _ => false
      end
  | _ => false
  end.

(** [re.search(r'(\d{4})', s)]: group 1 of the first match. *)
Fixpoint search_year (s : str) : option str :=
  match s with
  | [] => None
  | a :: s' =>
      match s' with
      | b :: c :: d :: _ =>
          if isdigit a && isdigit b && isdigit c && isdigit d
          then Some [a; b; c; d] else search_year s'
      | _ => None
      end
  end.

Definition clean_price (price : cell) : result cell :=
  na ← isna price;
  if na || eq_str price Names.unknown || eq_str price Names.free
  then Ok (Float 0)
  else match search_number (py_str price) with
       | Some m => Ok (Float (float_of_match m))
       | None => Ok (Float 0)
       end.

Definition clean_rating (rating : cell) : result cell :=
  na ← isna rating;
  if na || eq_str rating Names.unknown then Ok Null
  else
    let percent :=
      match rating with
      | Str s => if contains (lit "%") s then search_percent s else None
      | _ => None
      end in
    match percent with
    | Some ds => Ok (Float (Z.of_N (int_of_digits ds) # 1))
    | None =>
        match rating with
        | Bool b => Ok (Float (if b then 1 else 0))
        | Int z => Ok (Float (z # 1))
        | Float q => Ok (Float q)
        | _ => Ok Null
        end
    end.

(** The four [replace] calls of [clean_tags]: both bracket characters
    (91, 93), the single quote (39) and the double quote (34) go. *)
Definition without_delimiters (s : str) : str :=
  remove_char 34 (remove_char 39 (remove_char 93 (remove_char 91 s))).

Definition clean_tags (tags : cell) : result cell :=
  na ← isna tags;
  if na || eq_str tags Names.unknown || eq_str tags (lit "[]")
  then Ok (PyList [])
  else match tags with
       | Str s =>
           let s' := without_delimiters s in
           match s' with
           | _ :: _ => Ok (PyList (List.map strip (split 44 s')))
           | [] => Ok (PyList [])
           end
       | _ => Ok (PyList [])
       end.

Definition to_cell (t : option timestamp) : cell :=
  match t with
  | Some t => Timestamp t
  | None => Null
  end.

Definition clean_date (date : cell) : result cell :=
  na ← isna date;
  if na || eq_str date Names.unknown then Ok Null
  else if match_ymd (py_str date) then Ok (to_cell (to_datetime L date))
  else match search_year (py_str date) with
       | Some y => Ok (to_cell (to_datetime L (Str y)))
       | None => Ok Null
       end.

End Parsers.

(** ** Frames, the heap of frames, and the effects of [clean_data] *)

Definition Series := list cell.

(** A [pandas.DataFrame]: the row labels and the columns in declaration
    order.  Every column is as long as the index; rows are aligned by
    position, which is alignment by label for the unique labels that
    [pd.read_csv] assigns. *)
Record DataFrame := {
  index : list nat;
  columns : list (Py.str * Series)
}.

Definition nrows (d : DataFrame) : nat := length (index d).
Definition column_names (d : DataFrame) : list Py.str := List.map fst (columns d).

Fixpoint get_column (cs : list (Py.str * Series)) (name : Py.str) : option Series :=
  match cs with
  | [] => None
  | (n, s) :: cs' => if Py.str_eqb n name then Some s else get_column cs' name
  end.

(** [df[name] = s]: an existing column is replaced where it stands, a
    new one is appended. *)
Fixpoint set_column (cs : list (Py.str * Series)) (name : Py.str) (s : Series)
  : list (Py.str * Series) :=
  match cs with
  | [] => [(name, s)]
  | (n, s0) :: cs' =>
      if Py.str_eqb n name then (n, s) :: cs' else (n, s0) :: set_column cs' name s
  end.

(** The four target fields, as named in the warnings of [clean_data]. *)
Inductive field := Price | Rating | Tags | ReleaseDate.

(** The state the program runs in: the frames that exist, by reference,
    and the warnings shown so far ([st.warning]), oldest first. *)
Record world := {
  heap : list DataFrame;
  notices : list field
}.

(** A reference to a frame is its place in the heap. *)
Abbreviation ref := nat (only parsing).

Inductive outcome (A : Type) :=
| Done (a : A) (w : world)
| Raised (e : exn) (w : world).
Arguments Done {A} a w.
Arguments Raised {A} e w.

Definition world_of {A} (o : outcome A) : world :=
  match o with
  | Done _ w => w
  | Raised _ w => w
  end.

Definition M (A : Type) : Type := world -> outcome A.

#[global] Instance M_ret : MRet M := fun A a w => Done a w.
#[global] Instance M_bind : MBind M := fun A B k m w =>
  match m w with
  | Done a w' => k a w'
  | Raised e w' => Raised e w'
  end.

Definition lift {A} (r : result A) : M A := fun w =>
  match r with
  | Ok a => Done a w
  | Err e => Raised e w
  end.

Definition raise {A} (e : exn) : M A := fun w => Raised e w.

Definition read (r : ref) : M DataFrame := fun w =>
  match heap w !! r with
  | Some d => Done d w
  | None => Raised KeyError w
  end.

Definition write (r : ref) (d : DataFrame) : M unit := fun w =>
  Done tt {| heap := <[r := d]> (heap w); notices := notices w |}.

(** [df.copy()]: a new frame with the same contents. *)
Definition copy (r : ref) : M ref := fun w =>
  match heap w !! r with
  | Some d => Done (length (heap w))
                {| heap := heap w ++ [d]; notices := notices w |}
  | None => Raised KeyError w
  end.

(** [st.warning(...)] *)
Definition warning (f : field) : M unit := fun w =>
  Done tt {| heap := heap w; notices := notices w ++ [f] |}.

(** [name in df.columns] *)
Definition has_column (df : ref) (name : Py.str) : M bool :=
  d ← read df;
  mret (existsb (fun n => Py.str_eqb n name) (column_names d)).

(** [[col for col in df.columns if p(col)]] *)
Definition columns_where (df : ref) (p : Py.str -> bool) : M (list Py.str) :=
  d ← read df;
  mret (List.filter p (column_names d)).

(** [df[name]] *)
Definition getitem (df : ref) (name : Py.str) : M Series :=
  d ← read df;
  match get_column (columns d) name with
  | Some s => mret s
  | None => raise KeyError
  end.

(** [df[name] = s] *)
Definition setitem (df : ref) (name : Py.str) (s : Series) : M unit :=
  d ← read df;
  write df {| index := index d; columns := set_column (columns d) name s |}.

(** [df[name] = v] for a scalar [v], and [df.apply(lambda x: v, axis=1)]:
    one [v] per row. *)
Definition broadcast (df : ref) (v : cell) : M Series :=
  d ← read df;
  mret (repeat v (nrows d)).

(** [s.apply(f)]: [f] on every cell in row order; the first exception
    ends it. *)
Fixpoint apply (f : cell -> result cell) (s : Series) : result Series :=
  match s with
  | [] => Ok []
  | c :: s' => v ← f c; vs ← apply f s'; Ok (v :: vs)
  end.

Definition is_null (c : cell) : bool :=
  match c with
  | Null => true
  | _ => false
  end.

(** [s.isna()] *)
Definition Series_isna (s : Series) : list bool := List.map is_null s.

(** [a.fillna(b)] for a series [b]: the missing cells of [a] take the
    cell of [b] in the same row. *)
Fixpoint fillna (a b : Series) : Series :=
  match a, b with
  | c :: a', d :: b' => (if is_null c then d else c) :: fillna a' b'
  | _, _ => a
  end.

(** [s[mask]]: the rows where the mask holds. *)
Fixpoint select {A} (mask : list bool) (s : list A) : list A :=
  match mask, s with
  | true :: m, c :: s' => c :: select m s'
  | false :: m, _ :: s' => select m s'
  | _, _ => []
  end.

(** [df.loc[mask, col] = values], with [values] holding one cell for each
    row of the mask, in row order: the other rows keep their cell. *)
Fixpoint loc_assign (mask : list bool) (old values : Series) : Series :=
  match mask, old with
  | true :: m, c :: old' =>
      match values with
      | v :: vs => v :: loc_assign m old' vs
      | [] => c :: loc_assign m old' []
      end
  | false :: m, c :: old' => c :: loc_assign m old' values
  | _, _ => old
  end.

(** [len(x) == 0] *)
Definition len_is_zero (x : cell) : result cell :=
  match x with
  | PyList l => Ok (Bool (Nat.eqb (length l) 0))
  | Str s => Ok (Bool (Nat.eqb (length s) 0))
  | _ => Err TypeError
  end.

Definition truth (c : cell) : bool :=
  match c with
  | Bool b => b
  | _ => false
  end.

Definition is_timestamp (c : cell) : bool :=
  match c with
  | Timestamp _ => true
  | _ => false
  end.

(** Whether a column has a datetime type. The type of a column is taken
    from its cells: datetime when at least one cell is a [Timestamp] and
    the others are missing. A column without any timestamp (all missing,
    or without rows) has a float or object type. *)
Definition datetimelike (s : Series) : bool :=
  existsb is_timestamp s && forallb (fun c => is_timestamp c || is_null c) s.

(** The year of one cell: an integer, or a float when the column has
    missing dates, which are NaN. *)
Definition year_cell (missing : bool) (c : cell) : cell :=
  match c with
  | Timestamp t => if missing then Float (ts_year t # 1) else Int (ts_year t)
  | _ => Null
  end.

(** [s.dt.year]. The accessor exists only on a column of datetime type
    and raises [AttributeError] on any other. *)
Definition dt_year (s : Series) : result Series :=
  if datetimelike s then Ok (List.map (year_cell (existsb is_null s)) s)
  else Err AttributeError.

(** ** [clean_data] *)

Section CleanData.
Import Py.
Variable L : pylib.

(** An [if] without [else]. *)
Definition when (b : bool) (m : M unit) : M unit :=
  if b then m else mret tt.

(** [df[dst] = df[src].apply(f)] *)
Definition assign_parsed (df : ref) (dst src : str) (f : cell -> result cell) : M unit :=
  s ← getitem df src;
  s' ← lift (apply f s);
  setitem df dst s'.

(** The synonym tests of the four column scans. *)
Definition price_synonym (col : str) : bool :=
  contains Names.price col || contains (lit "price") (lower col).
Definition rating_synonym (col : str) : bool :=
  contains Names.rating_word col || contains (lit "rating") (lower col).
Definition tag_synonym (col : str) : bool :=
  contains Names.tag_word col || contains (lit "tag") (lower col).
Definition date_synonym (col : str) : bool :=
  contains Names.release_word col || contains Names.date_word col ||
  contains (lit "date") (lower col) || contains (lit "release") (lower col).

(** Step 1: the price columns and [价格]. *)
Definition clean_price_columns (df : ref) : M unit :=
  has_original ← has_column df Names.original_price;
  when has_original
    (assign_parsed df Names.original_price Names.original_price (clean_price L));;
  has_discount ← has_column df Names.discount_price;
  when has_discount
    (assign_parsed df Names.discount_price Names.discount_price (clean_price L));;
  has_discount ← has_column df Names.discount_price;
  has_original ← has_column df Names.original_price;
  if has_discount && has_original then
    d ← getitem df Names.discount_price;
    o ← getitem df Names.original_price;
    setitem df Names.price (fillna d o)
  else if has_discount then
    d ← getitem df Names.discount_price;
    setitem df Names.price d
  else if has_original then
    o ← getitem df Names.original_price;
    setitem df Names.price o
  else
    price_columns ← columns_where df price_synonym;
    match price_columns : list str with
    | c :: _ => assign_parsed df Names.price c (clean_price L)
    | [] =>
        s ← broadcast df (Float 0);
        setitem df Names.price s;;
        warning Price
    end.

(** [df.loc[mask, dst] = df.loc[mask, basic].apply(f)] where [mask] is
    computed from the cells of [dst] by [missing]: first the right-hand
    side, then the mask of the target, then the assignment, which raises
    [TypeError] and writes nothing when the column does not take the
    values. *)
Definition fill_from_basic (df : ref) (dst basic : str)
    (missing : Series -> M (list bool)) (f : cell -> result cell) : M unit :=
  cur ← getitem df dst;
  mask ← missing cur;
  b ← getitem df basic;
  values ← lift (apply f (select mask b));
  cur ← getitem df dst;
  mask ← missing cur;
  if loc_accepts L cur mask values
  then setitem df dst (loc_assign mask cur values)
  else raise TypeError.

(** Steps 2 to 4 share one shape: the detailed column, then the basic
    one filling the rows left missing or, without a basic column, the
    first column whose name matches a synonym, or else the default. *)
Definition resolve_field (df : ref) (dst detailed basic : str)
    (synonym : str -> bool) (missing : Series -> M (list bool))
    (f : cell -> result cell) (default : cell) (fld : field) : M unit :=
  has_detailed ← has_column df detailed;
  when has_detailed (assign_parsed df dst detailed f);;
  has_basic ← has_column df basic;
  has_dst ← has_column df dst;
  if has_basic && has_dst then fill_from_basic df dst basic missing f
  else if has_basic then assign_parsed df dst basic f
  else
    candidates ← columns_where df synonym;
    match candidates : list str with
    | c :: _ => assign_parsed df dst c f
    | [] =>
        s ← broadcast df default;
        setitem df dst s;;
        warning fld
    end.

(** [s.isna()] as the mask of the rows to fill. *)
Definition isna_mask (s : Series) : M (list bool) := mret (Series_isna s).

(** [s.apply(lambda x: len(x) == 0)] *)
Definition empty_mask (s : Series) : M (list bool) :=
  m ← lift (apply len_is_zero s);
  mret (List.map truth m).

(** Step 2: the rating, [好评率]. *)
Definition clean_rating_columns (df : ref) : M unit :=
  resolve_field df Names.rating Names.detailed_rating Names.basic_rating
    rating_synonym isna_mask clean_rating Null Rating.

(** Step 3: the tags, [标签列表]. *)
Definition clean_tags_columns (df : ref) : M unit :=
  resolve_field df Names.tag_list Names.detailed_tags Names.basic_tags
    tag_synonym empty_mask clean_tags (PyList []) Tags.

(** Step 4: the release date, [发布时间]. *)
Definition clean_date_columns (df : ref) : M unit :=
  resolve_field df Names.release_time Names.detailed_date Names.basic_date
    date_synonym isna_mask (clean_date L) Null ReleaseDate.

(** The year column, [df['发布年份'] = df['发布时间'].dt.year]. *)
Definition add_release_year (df : ref) : M unit :=
  has_time ← has_column df Names.release_time;
  when has_time
    (s ← getitem df Names.release_time;
     y ← lift (dt_year s);
     setitem df Names.release_year y).

(** [clean_data(df)]: the copy, the four fields, the year; the result
    is the reference of the copy. *)
Definition clean_data (df0 : ref) : M ref :=
  df ← copy df0;
  clean_price_columns df;;
  clean_rating_columns df;;
  clean_tags_columns df;;
  clean_date_columns df;;
  add_release_year df;;
  mret df.

End CleanData.

(** ** A fragment of the library functions, for running the model

    The general theorems are stated for every [pylib]. To run
    [clean_data] on concrete frames the library functions are given on
    the inputs where their result is not in doubt; outside that fragment
    the answers of [fragment] say nothing about Python. *)

Module Fragment.
Import Py.

Fixpoint fraction_digits (fuel : nat) (num : N) (den : N) : str :=
  match fuel with
  | O => []
  | S f =>
      if num =? 0 then []
      else (48 + (10 * num) / den) :: fraction_digits f ((10 * num) mod den) den
  end.

(** [repr] of a non-negative float with a short positional decimal
    expansion: [0.0], [49.99], [199.0]. *)
Definition positional_repr (q : Q) : str :=
  let n := Z.to_N (Qnum q) in
  let d := Npos (Qden q) in
  str_of_N (n / d) ++ 46 ::
  match fraction_digits 17 (n mod d) d with
  | [] => [48]
  | ds => ds
  end.

(** [repr] of a list of strings free of quotes, backslashes and
    unprintable characters: [['Action', 'Indie']]. *)
Definition plain_list_repr (l : list str) : str :=
  91 :: join (lit ", ") (List.map (fun s => 39 :: s ++ [39]) l) ++ [93].

Definition two_digits (a b : char) : Z := Z.of_N (10 * digit_val a + digit_val b).

(** [pandas.to_datetime] on a timestamp, on a zero-padded ISO date
    [YYYY-MM-DD] with a month in 1..12 and a day in 1..28, and on a year
    [YYYY] between 1678 and 2261, written in ASCII digits. *)
Definition iso_to_datetime (v : cell) : option timestamp :=
  match v with
  | Timestamp t => Some t
  | Str [y1; y2; y3; y4] =>
      let y := Z.of_N (int_of_digits [y1; y2; y3; y4]) in
      if forallb is_ascii_digit [y1; y2; y3; y4] && (1678 <=? y)%Z && (y <=? 2261)%Z
      then Some {| ts_year := y; ts_month := 1; ts_day := 1 |}
      else None
  | Str [y1; y2; y3; y4; h1; m1; m2; h2; d1; d2] =>
      let y := Z.of_N (int_of_digits [y1; y2; y3; y4]) in
      let m := two_digits m1 m2 in
      let d := two_digits d1 d2 in
      if forallb is_ascii_digit [y1; y2; y3; y4; m1; m2; d1; d2] && (h1 =? 45) && (h2 =? 45) &&
         (1678 <=? y)%Z && (y <=? 2261)%Z && (1 <=? m)%Z && (m <=? 12)%Z &&
         (1 <=? d)%Z && (d <=? 28)%Z
      then Some {| ts_year := y; ts_month := m; ts_day := d |}
      else None
  | _ => None
  end.

(** The type of a column of floats, of timestamps, of strings or of
    lists, as its cells show it: floats (also when every cell is
    missing), timestamps, strings, or objects for lists and for mixed
    cells. A missing cell fits each of them. Columns of integers or of
    booleans are outside the fragment. *)
Inductive dtype := Float64 | Datetime64 | StrType | ObjectType.

Definition is_number (c : cell) : bool :=
  match c with
  | Float _ | Int _ | Null => true
  | _ => false
  end.

Definition is_str (c : cell) : bool :=
  match c with
  | Str _ | Null => true
  | _ => false
  end.

Definition dtype_of (s : Series) : dtype :=
  if forallb is_number s then Float64
  else if forallb (fun c => is_timestamp c || is_null c) s then Datetime64
  else if forallb is_str s then StrType
  else ObjectType.

Definition dtype_eqb (a b : dtype) : bool :=
  match a, b with
  | Float64, Float64 | Datetime64, Datetime64 | StrType, StrType
  | ObjectType, ObjectType => true
  | _, _ => false
  end.

(** [df.loc[mask, col] = values] for at least one row and values of one
    type: an object column takes every cell, another column the values
    of its own type. With a column of floats this refuses timestamps
    and strings, with a column of strings or of timestamps it refuses
    floats, NaN included. A mask without any row is outside the
    fragment: no cell is written, and the answer given is that the
    assignment passes. *)
Definition same_type_accepts (column : Series) (mask : list bool) (values : Series) : bool :=
  match values with
  | [] => true
  | _ =>
      match dtype_of column with
      | ObjectType => true
      | t => dtype_eqb t (dtype_of values)
      end
  end.

Definition fragment : pylib :=
  {| float_repr := positional_repr;
     list_repr := plain_list_repr;
     to_datetime := iso_to_datetime;
     loc_accepts := same_type_accepts |}.

End Fragment.

(** ** Analytics over the normalised frame *)

Local Close Scope N_scope.

(** A float of a numeric column: a number or NaN. *)
Inductive pyfloat :=
| NaN
| Fin (q : Q).

(** One row of the normalised frame, as the analytics read it: its label
    in the index and its cells in the columns [价格], [好评率] and
    [标签列表]. *)
Record game := {
  label : nat;
  price : pyfloat;
  rating : pyfloat;
  tags : list Py.str
}.

Definition notna (x : pyfloat) : bool :=
  match x with
  | NaN => false
  | Fin _ => true
  end.

Definition Qlt_bool (a b : Q) : bool := negb (Qle_bool b a).

(** [x > t], [x >= t], [x <= t] on floats: false on NaN. *)
Definition gt (x : pyfloat) (t : Q) : bool :=
  match x with
  | NaN => false
  | Fin q => Qlt_bool t q
  end.
Definition ge (x : pyfloat) (t : Q) : bool :=
  match x with
  | NaN => false
  | Fin q => Qle_bool t q
  end.
Definition le (x : pyfloat) (t : Q) : bool :=
  match x with
  | NaN => false
  | Fin q => Qle_bool q t
  end.

(** The number in a float that is known not to be NaN. *)
Definition number (x : pyfloat) : Q :=
  match x with
  | NaN => 0%Q
  | Fin q => q
  end.

(** [df.dropna(subset=['价格', '好评率'])] followed by
    [valid_data[valid_data['价格'] > 0]]. *)
Definition dropna (df : list game) : list game :=
  List.filter (fun g => notna (price g) && notna (rating g)) df.
Definition valid_data (df : list game) : list game :=
  List.filter (fun g => gt (price g) 0) (dropna df).

(** The six bands of [main]. *)
Inductive band :=
| StrongPositive | ModeratePositive | WeakPositive
| WeakNegative | ModerateNegative | StrongNegative.

(** The chain of comparisons on [corr] in [main]. *)
Definition correlation_band (corr : pyfloat) : band :=
  if gt corr (5 # 10) then StrongPositive
  else if gt corr (3 # 10) then ModeratePositive
  else if gt corr 0 then WeakPositive
  else if gt corr (- (3 # 10))%Q then WeakNegative
  else if gt corr (- (5 # 10))%Q then ModerateNegative
  else StrongNegative.

Section Correlation.
(** [Series.corr] of pandas (Pearson), taken as given. *)
Variable corr : list Q -> list Q -> pyfloat.

(** [None] is the pair [(None, 0)] of the source: no figure. *)
Definition plot_rating_price_correlation (df : list game) : option pyfloat :=
  match valid_data df with
  | [] => None
  | v => Some (corr (List.map (fun g => number (price g)) v)
                    (List.map (fun g => number (rating g)) v))
  end.

(** What [main] writes under the figure, if there is one. *)
Definition correlation_report (df : list game) : option band :=
  match plot_rating_price_correlation df with
  | Some c => Some (correlation_band c)
  | None => None
  end.
End Correlation.

(** *** Tag frequency *)

Definition nonempty (s : Py.str) : bool :=
  match s with
  | [] => false
  | _ => true
  end.

(** [[tag for tags in df['标签列表'] for tag in tags if tag]] *)
Definition all_tags (df : list game) : list Py.str :=
  flat_map (fun g => List.filter nonempty (tags g)) df.

(** [collections.Counter]: the counts, in the order in which the keys
    were first inserted. *)
Fixpoint counter_add (t : Py.str) (c : list (Py.str * nat)) : list (Py.str * nat) :=
  match c with
  | [] => [(t, 1%nat)]
  | (u, n) :: c' =>
      if Py.str_eqb u t then (u, S n) :: c' else (u, n) :: counter_add t c'
  end.
Definition Counter (l : list Py.str) : list (Py.str * nat) :=
  fold_left (fun c t => counter_add t c) l [].

(** [Counter.most_common(n)] is [heapq.nlargest(n, items, key=count)],
    that is [sorted(items, key=count, reverse=True)[:n]]: a stable sort
    by descending count. *)
Fixpoint insert_by_count (x : Py.str * nat) (l : list (Py.str * nat))
  : list (Py.str * nat) :=
  match l with
  | [] => [x]
  | y :: l' =>
      if (snd x <? snd y)%nat then y :: insert_by_count x l' else x :: l
  end.
Definition sorted_by_count (c : list (Py.str * nat)) : list (Py.str * nat) :=
  fold_right insert_by_count [] c.
Definition most_common (n : nat) (c : list (Py.str * nat)) : list (Py.str * nat) :=
  firstn n (sorted_by_count c).

(** [None] when there is no tag; otherwise [top_tags], the data of the
    bar chart. *)
Definition plot_tags_bar (df : list game) : option (list (Py.str * nat)) :=
  match all_tags df with
  | [] => None
  | ts => Some (most_common 20 (Counter ts))
  end.

(** *** High-value games *)

Definition Qsum (l : list Q) : Q := fold_right Qplus 0%Q l.
(** [Series.mean()], taken exactly: the rounding of the sum and of the
    quotient to binary64 is left out. *)
Definition mean (l : list Q) : Q := (Qsum l / (Z.of_nat (length l) # 1))%Q.

Section HighValue.
(** [DataFrame.sort_values(by='好评率', ascending=False)] with the default
    [kind='quicksort'], taken as given. *)
Variable sort_values_desc : list game -> list game.

(** [None] is the pair [(None, None)] of the source. *)
Definition find_high_value_games (df : list game) (mean_price : option Q)
  : option (list game) :=
  match valid_data df with
  | [] => None
  | v =>
      let mean_price :=
        match mean_price with
        | Some m => m
        | None => mean (List.map (fun g => number (price g)) v)
        end in
      let rating_threshold := 85 # 1 in
      let price_threshold := mean_price in
      let high_value_games :=
        List.filter (fun g => ge (rating g) rating_threshold &&
                              le (price g) price_threshold) v in
      Some (sort_values_desc high_value_games)
  end.
End HighValue.

(** *** Sorting contracts for [sort_values] *)

Definition rating_key (g : game) : Q := number (rating g).

Definition descending (l : list game) : Prop :=
  StronglySorted (fun a b => (rating_key b <= rating_key a)%Q) l.

(** What pandas promises of [sort_values(ascending=False)] whatever the
    sorting algorithm: the same rows, by descending key. *)
Definition sorts_descending (srt : list game -> list game) : Prop :=
  forall l, Permutation (srt l) l /\ descending (srt l).

(** Two sorts that meet the contract: insertion of each row before, or
    after, the rows of equal rating already placed. *)
Fixpoint insert_desc (after_ties : bool) (x : game) (l : list game) : list game :=
  match l with
  | [] => [x]
  | y :: l' =>
      if (if after_ties then Qle_bool (rating_key x) (rating_key y)
          else Qlt_bool (rating_key x) (rating_key y))
      then y :: insert_desc after_ties x l'
      else x :: l
  end.
Definition insertion_sort_desc (after_ties : bool) (l : list game) : list game :=
  fold_right (insert_desc after_ties) [] l.

(** ** Reasoning about effects *)

(** The frames below [n] are those of [h0], and the heap holds at least
    [n] frames. *)
Definition keeps (n : nat) (h0 : list DataFrame) (w : world) : Prop :=
  (n <= length (heap w))%nat /\
  forall r, (r < n)%nat -> heap w !! r = h0 !! r.

(** The index of the frame at [df] is [ix]. *)
Definition has_index (ix : list nat) (df : ref) (w : world) : Prop :=
  exists d, heap w !! df = Some d /\ index d = ix.

(** The frame at [df] has the index [ix] and only columns named in
    [base]. *)
Definition shaped (ix : list nat) (base : list Py.str) (df : ref) (w : world) : Prop :=
  exists d, heap w !! df = Some d /\ index d = ix /\
            forall n, In n (column_names d) -> In n base.

(** An invariant of the world that a computation keeps, however it
    ends. *)
Definition stable {A} (I : world -> Prop) (m : M A) : Prop :=
  forall w, I w -> I (world_of (m w)).

(** What an invariant has to allow for [clean_data] to keep it while it
    works on the frame [df]: a column of [df] set under a name that is
    [allowed] or already there, and a warning. *)
Record frame_inv (df : ref) (allowed : Py.str -> Prop) (I : world -> Prop) : Prop := {
  inv_setitem : forall w d name s,
    I w -> heap w !! df = Some d ->
    allowed name \/ In name (column_names d) ->
    I {| heap := <[df := {| index := index d;
                            columns := set_column (columns d) name s |}]> (heap w);
         notices := notices w |};
  inv_warning : forall w f,
    I w -> I {| heap := heap w; notices := notices w ++ [f] |}
}.

(** *** Auxiliary notions for the tag ranking *)

(** How often [t] occurs in [l], and where it occurs first. *)
Definition occurrences (t : Py.str) (l : list Py.str) : nat :=
  length (List.filter (fun u => Py.str_eqb u t) l).
Fixpoint first_index (t : Py.str) (l : list Py.str) : nat :=
  match l with
  | [] => 0
  | u :: l' => if Py.str_eqb u t then 0 else S (first_index t l')
  end.

(** [a] was first seen before [b] while flattening [l]. *)
Definition seen_before (l : list Py.str) (a b : Py.str * nat) : Prop :=
  (first_index (fst a) l < first_index (fst b) l)%nat.

(** Ranking by descending count, ties settled by [tie]. *)
Definition by_count_then (tie : Py.str * nat -> Py.str * nat -> Prop)
    (a b : Py.str * nat) : Prop :=
  (snd b < snd a)%nat \/ (snd a = snd b /\ tie a b).

(** [a] ranks before [b]: a higher count, or the same count and first
    seen earlier in [l]. *)
Definition ranks_before (l : list Py.str) : Py.str * nat -> Py.str * nat -> Prop :=
  by_count_then (seen_before l).

(** [counter_add] on a key that is present bumps its count. *)
Definition bump (t : Py.str) (kv : Py.str * nat) : Py.str * nat :=
  if Py.str_eqb (fst kv) t then (fst kv, S (snd kv)) else kv.

(** What [Counter l] holds: one entry per distinct element, with its
    number of occurrences, in the order of first occurrence. *)
Record counts_of (l : list Py.str) (c : list (Py.str * nat)) : Prop := {
  keys_nodup : List.NoDup (List.map fst c);
  keys_counted : forall t n, In (t, n) c -> In t l /\ n = occurrences t l;
  keys_complete : forall t, In t l -> In t (List.map fst c);
  keys_ordered : StronglySorted (seen_before l) c
}.

(** ** The row-wise fallback of the specification *)

(** The empty list of tags, the missing value of the tag field. *)
Definition is_empty_list (c : cell) : bool :=
  match c with
  | PyList [] => true
  | _ => false
  end.

(** The fallback in the words of the specification: row by row, a value
    that is missing after parsing the detailed cell is replaced by the
    parse of the basic cell of the same row. *)
Definition fallback_row (missing : cell -> bool) (f : cell -> result cell)
    (parsed basic : cell) : result cell :=
  if missing parsed then f basic else Ok parsed.

Fixpoint row_wise_fallback (missing : cell -> bool) (f : cell -> result cell)
    (parsed basic : Series) : result Series :=
  match parsed, basic with
  | p :: ps, b :: bs =>
      v ← fallback_row missing f p b;
      vs ← row_wise_fallback missing f ps bs;
      Ok (v :: vs)
  | _, _ => Ok []
  end.

(** ** From the normalised frame to the rows the analytics read *)

(** A cell of a numeric column as a float. *)
Definition as_float (c : cell) : option pyfloat :=
  match c with
  | Null => Some NaN
  | Float q => Some (Fin q)
  | Int z => Some (Fin (z # 1))
  | _ => None
  end.

Definition as_tags (c : cell) : option (list Py.str) :=
  match c with
  | PyList l => Some l
  | _ => None
  end.

Fixpoint zip_games (ix : list nat) (ps rs ts : Series) : option (list game) :=
  match ix, ps, rs, ts with
  | [], [], [], [] => Some []
  | i :: ix', p :: ps', r :: rs', t :: ts' =>
      match as_float p, as_float r, as_tags t, zip_games ix' ps' rs' ts' with
      | Some p, Some r, Some t, Some gs =>
          Some ({| label := i; price := p; rating := r; tags := t |} :: gs)
      | _, _, _, _ => None
      end
  | _, _, _, _ => None
  end.

(** The rows of a normalised frame: label, [价格], [好评率], [标签列表]. *)
Definition games_of (d : DataFrame) : option (list game) :=
  match get_column (columns d) Names.price,
        get_column (columns d) Names.rating,
        get_column (columns d) Names.tag_list with
  | Some ps, Some rs, Some ts => zip_games (index d) ps rs ts
  | _, _, _ => None
  end.

(** Normalisation of the frame at reference 0 of a fresh world, followed
    by an analytic on the rows of the result; [None] when [clean_data]
    raises. *)
Definition normalise_then {A} (L : pylib) (d : DataFrame)
    (analytic : list game -> A) : option A :=
  match clean_data L 0 {| heap := [d]; notices := [] |} with
  | Done df w =>
      match heap w !! df with
      | Some d' =>
          match games_of d' with
          | Some gs => Some (analytic gs)
          | None => None
          end
      | None => None
      end
  | Raised _ _ => None
  end.

(** ** Example record sets *)

(** The example of the specification: three records and a mean price of
    25 passed by the caller. *)
Definition three_games : list game :=
  [{| label := 0; price := Fin 10; rating := Fin 90; tags := [] |};
   {| label := 1; price := Fin 60; rating := Fin 86; tags := [] |};
   {| label := 2; price := Fin 5; rating := Fin 80; tags := [] |}].

(** A world that holds one frame, at reference 0. *)
Definition start (d : DataFrame) : world := {| heap := [d]; notices := [] |}.

Definition yen (s : string) : cell := Str (165%N :: Py.lit s).

(** Two games, each with a price, a rating and tags, and no usable
    date. *)
Definition frame_unknown_dates : DataFrame :=
  {| index := [0; 1];
     columns :=
       [(Names.game_name, [Str (Py.lit "A"); Str (Py.lit "B")]);
        (Names.original_price, [yen "49.99"; Str Names.free]);
        (Names.detailed_rating, [Str (Py.lit "92%"); Str Names.unknown]);
        (Names.detailed_tags, [Str (Py.lit "['Action', 'Indie']"); Str (Py.lit "[]")]);
        (Names.detailed_date, [Str Names.unknown; Null])] |}.

(** The same games without a date column at all. *)
Definition frame_without_dates : DataFrame :=
  {| index := [0; 1];
     columns :=
       [(Names.game_name, [Str (Py.lit "A"); Str (Py.lit "B")]);
        (Names.original_price, [yen "49.99"; Str Names.free]);
        (Names.detailed_rating, [Str (Py.lit "92%"); Str Names.unknown]);
        (Names.detailed_tags, [Str (Py.lit "['Action', 'Indie']"); Str (Py.lit "[]")])] |}.

(** No record: without columns, and with the columns of a header line. *)
Definition empty_frame : DataFrame := {| index := []; columns := [] |}.
Definition header_only_frame : DataFrame :=
  {| index := [];
     columns :=
       [(Names.game_name, []); (Names.original_price, []);
        (Names.detailed_rating, []); (Names.detailed_tags, []);
        (Names.detailed_date, [])] |}.

(** One game whose discount price is unknown and whose original price is
    known. *)
Definition frame_unknown_discount : DataFrame :=
  {| index := [0];
     columns :=
       [(Names.game_name, [Str (Py.lit "A")]);
        (Names.discount_price, [Str Names.unknown]);
        (Names.original_price, [yen "49.99"]);
        (Names.detailed_date, [Str (Py.lit "2021-03-15")])] |}.

(** One game whose tags and date stand in columns that already bear the
    canonical names [标签列表] and [发布时间], as in the example data of
    [main]. *)
Definition frame_canonical_names (tags : string) : DataFrame :=
  {| index := [0];
     columns :=
       [(Names.game_name, [Str (Py.lit "A")]);
        (Names.tag_list, [Str (Py.lit tags)]);
        (Names.release_time, [Str (Py.lit "2021-03-15")])] |}.

(** One row of the example data that [main] builds and passes to
    [clean_data]: prices and rating as floats, the date as a timestamp,
    the tags as a list, under the canonical column names. *)
Definition frame_example_data : DataFrame :=
  {| index := [0];
     columns :=
       [(Names.game_name, [Str (Py.lit "A")]);
        (Names.original_price, [Float (241 # 2)]);
        (Names.discount_price, [Float 80]);
        (Names.rating, [Float (175 # 2)]);
        (Names.release_time,
         [Timestamp {| ts_year := 2015; ts_month := 1; ts_day := 1 |}]);
        (Names.tag_list, [PyList [Py.lit "2D"; Py.lit "3D"; Py.lit "roguelike"]]);
        (Names.release_year, [Int 2015])] |}.

(** Three games with prices, ratings, tags and dates; the tags of the
    second hold an empty piece between two commas. *)
Definition frame_three_games : DataFrame :=
  {| index := [0; 1; 2];
     columns :=
       [(Names.game_name, [Str (Py.lit "A"); Str (Py.lit "B"); Str (Py.lit "C")]);
        (Names.original_price, [yen "10"; yen "60"; yen "5"]);
        (Names.detailed_rating,
         [Str (Py.lit "90%"); Str (Py.lit "86%"); Str (Py.lit "80%")]);
        (Names.detailed_tags,
         [Str (Py.lit "['Action', 'Indie']"); Str (Py.lit "Indie,,RPG");
          Str (Py.lit "['RPG']")]);
        (Names.detailed_date,
         [Str (Py.lit "2021-03-15"); Str (Py.lit "2020-01-02");
          Str (Py.lit "2019-12-24")])] |}.

(** The column [name] of the frame at [df]. *)
Definition column_at (w : world) (df : ref) (name : Py.str) : option Series :=
  match heap w !! df with
  | Some d => get_column (columns d) name
  | None => None
  end.

(** ** Shapes of strings used to state what the parsers read *)

Definition all_digits (s : Py.str) : Prop := forallb Py.isdigit s = true.
Definition no_digit (s : Py.str) : Prop :=
  forallb (fun c => negb (Py.isdigit c)) s = true.

(** What may follow the digits of a number for the digit run to end
    there: nothing, or a character that is not a digit. *)
Definition ends_digits (rest : Py.str) : Prop :=
  match rest with
  | [] => True
  | c :: _ => Py.isdigit c = false
  end.

(** The match of the number pattern at a digit run [ds] followed by
    [rest]. *)
Definition search_number_result (rest ds : Py.str) : Py.str * bool * Py.str :=
  match rest with
  | c :: rest' =>
      if N.eqb c 46 then (ds, true, fst (Py.span_digits rest'))
      else (ds, false, [])
  | [] => (ds, false, [])
  end.

(** ** What [clean_data] writes and which warnings it shows *)

(** What an invariant has to allow to hold throughout a computation on
    the frame [df] that assigns only to columns named in [T] and shows
    only warnings in [F]. *)
Record write_inv (df : ref) (T : Py.str -> Prop) (F : field -> Prop)
    (I : world -> Prop) : Prop := {
  winv_setitem : forall w d name s,
    I w -> heap w !! df = Some d -> T name ->
    I {| heap := <[df := {| index := index d;
                            columns := set_column (columns d) name s |}]> (heap w);
         notices := notices w |};
  winv_warning : forall w f,
    I w -> F f -> I {| heap := heap w; notices := notices w ++ [f] |}
}.

(** The columns [clean_data] assigns to. *)
Definition written_names : list Py.str :=
  [Names.original_price; Names.discount_price; Names.price; Names.rating;
   Names.tag_list; Names.release_time; Names.release_year].

(** A computation that shows no warning; one that shows no warning or
    ends in a world that [Q] describes from the warnings shown before;
    one that shows at most one warning, for the field [fld]; and one
    whose warnings are, in this order, some of those in [l]. *)
Definition quiet {A} (m : M A) : Prop :=
  forall w, notices (world_of (m w)) = notices w.
Definition quiet_or {A} (Q : list field -> world -> Prop) (m : M A) : Prop :=
  forall w, notices (world_of (m w)) = notices w \/ Q (notices w) (world_of (m w)).
Definition warns_at_most {A} (fld : field) (m : M A) : Prop :=
  quiet_or (fun ns w' => notices w' = ns ++ [fld]) m.
Definition shows_within {A} (l : list field) (m : M A) : Prop :=
  forall w, exists e, notices (world_of (m w)) = notices w ++ e /\ sublist e l.

(** The world after a field got its default: the warning is the last
    one shown and the column [dst] of [df] holds [default] in every
    row. *)
Definition defaulted (df : ref) (dst : Py.str) (default : cell) (fld : field)
    (ns : list field) (w : world) : Prop :=
  notices w = ns ++ [fld] /\
  exists d, heap w !! df = Some d /\
            get_column (columns d) dst = Some (repeat default (nrows d)).

(** A frame as [pd.read_csv] yields it: every cell is null, a number or
    a string. *)
Definition raw_frame (d : DataFrame) : Prop :=
  Forall (fun c => forallb raw_cell (snd c) = true) (columns d).

(** A property of the world in which a computation returns. *)
Definition returns_in {A} (P : world -> Prop) (m : M A) : Prop :=
  forall w a w', m w = Done a w' -> P w'.

(** The frame at [df] has a column [name]. *)
Definition has_col (df : ref) (name : Py.str) (w : world) : Prop :=
  exists s, column_at w df name = Some s.

(** Frames for running single steps of [clean_data]. *)

(** A count of ratings stands before the detailed rating. *)
Definition frame_rating_count : DataFrame :=
  {| index := [0];
     columns :=
       [(Names.rating_word ++ [25968%N], [Int 1000]);   (* 好评数 *)
        (Names.detailed_rating, [Str (Py.lit "92%")])] |}.

(** The rating is in a column of the canonical name already, beside a
    basic rating. *)
Definition frame_raw_rating : DataFrame :=
  {| index := [0; 1];
     columns :=
       [(Names.rating, [Str (Py.lit "92%"); Null]);
        (Names.basic_rating, [Str (Py.lit "80%"); Str (Py.lit "75%")])] |}.

(** Two games with a detailed and a basic date: no detailed date can be
    read, or one can and the basic date of the other game cannot. *)
Definition frame_basic_dates : DataFrame :=
  {| index := [0; 1];
     columns :=
       [(Names.detailed_date, [Str Names.unknown; Str Names.unknown]);
        (Names.basic_date, [Str (Py.lit "2019-05-01"); Str (Py.lit "2018-01-02")])] |}.
Definition frame_one_date : DataFrame :=
  {| index := [0; 1];
     columns :=
       [(Names.detailed_date, [Str (Py.lit "2021-03-15"); Str Names.unknown]);
        (Names.basic_date, [Str (Py.lit "2021-03-15"); Str Names.unknown])] |}.

(** The same with numbers for the ratings already known. *)
Definition frame_number_rating : DataFrame :=
  {| index := [0; 1];
     columns :=
       [(Names.rating, [Float 92; Null]);
        (Names.basic_rating, [Str (Py.lit "80%"); Str (Py.lit "75%")])] |}.

(** The same for the tags, with a missing cell. *)
Definition frame_raw_tags : DataFrame :=
  {| index := [0; 1];
     columns :=
       [(Names.tag_list, [Str (Py.lit "Action"); Null]);
        (Names.basic_tags, [Str (Py.lit "Indie"); Str (Py.lit "RPG")])] |}.

(** Both price columns. *)
Definition frame_two_prices : DataFrame :=
  {| index := [0; 1];
     columns :=
       [(Names.original_price, [yen "100"; yen "60"]);
        (Names.discount_price, [yen "80"; Str Names.unknown])] |}.

(** A rating under an English name. *)
Definition frame_english : DataFrame :=
  {| index := [0];
     columns :=
       [(Py.lit "Name", [Str (Py.lit "A")]);
        (Py.lit "User Rating", [Str (Py.lit "92%")]);
        (Py.lit "rating_count", [Int 1000])] |}.

(** Only the basic rating. *)
Definition frame_basic_rating : DataFrame :=
  {| index := [0];
     columns := [(Names.basic_rating, [Str (Py.lit "80%")])] |}.

(** The cells [len] does not accept. *)
Definition unsized (c : cell) : bool :=
  match c with
  | Str _ | PyList _ => false
  | _ => true
  end.

(** ** The filter and the views of [main] *)

(** The numbers of a float column, NaN left out. *)
Fixpoint numbers (l : list pyfloat) : list Q :=
  match l with
  | [] => []
  | NaN :: l' => numbers l'
  | Fin q :: l' => q :: numbers l'
  end.

Definition Qmin_of (a b : Q) : Q := if Qle_bool a b then a else b.
Definition Qmax_of (a b : Q) : Q := if Qle_bool a b then b else a.

(** [Series.min()] and [Series.max()]: over the numbers of the column,
    NaN when there is none. *)
Definition Series_min (s : list pyfloat) : pyfloat :=
  match numbers s with
  | [] => NaN
  | q :: qs => Fin (fold_left Qmin_of qs q)
  end.
Definition Series_max (s : list pyfloat) : pyfloat :=
  match numbers s with
  | [] => NaN
  | q :: qs => Fin (fold_left Qmax_of qs q)
  end.

(** [a <= b] on floats: false when either is NaN. *)
Definition fle (a b : pyfloat) : bool :=
  match a, b with
  | Fin x, Fin y => Qle_bool x y
  | _, _ => false
  end.

(** The values the two sliders start with: the least and the greatest
    price, and the least and the greatest rating or, when no record has
    a rating, 0 and 100. *)
Definition initial_price_range (df : list game) : pyfloat * pyfloat :=
  (Series_min (List.map price df), Series_max (List.map price df)).
Definition initial_rating_range (df : list game) : pyfloat * pyfloat :=
  (match Series_min (List.map rating df) with
   | NaN => Fin 0
   | m => m
   end,
   match Series_max (List.map rating df) with
   | NaN => Fin (100 # 1)
   | m => m
   end).

(** [filtered_df]: the rows whose price and rating lie in the two
    ranges. *)
Definition filter_games (price_range rating_range : pyfloat * pyfloat)
    (df : list game) : list game :=
  List.filter (fun g => fle (fst price_range) (price g) &&
                        fle (price g) (snd price_range) &&
                        fle (fst rating_range) (rating g) &&
                        fle (rating g) (snd rating_range)) df.

(** [valid_prices] of [plot_price_distribution]: the prices that are
    not missing and above 0. *)
Definition valid_prices (df : list game) : list Q :=
  List.filter (fun p => Qlt_bool 0 p) (numbers (List.map price df)).

(** [plot_price_distribution]: [None] when there is no valid price,
    otherwise the mean price that is returned with the figure. *)
Definition plot_price_distribution (df : list game) : option Q :=
  match valid_prices df with
  | [] => None
  | v => Some (mean v)
  end.

(** A column with a number in which all numbers are the same: its
    greatest number is then not above its least. *)
Definition single_valued (s : list pyfloat) : Prop :=
  numbers s <> [] /\
  forall a b, In a (numbers s) -> In b (numbers s) -> (a == b)%Q.

(** [st.sidebar.slider(label, min_value=a, max_value=b, value=(a, b),
    step=1.0)]. Streamlit refuses bounds of which the lower is not below
    the upper with [StreamlitInvalidMinMaxError]. Otherwise the call
    returns the range the slider stands at: [(a, b)] when it is first
    shown, the choice of the user afterwards. *)
Definition slider (min_value max_value : pyfloat) (stands_at : pyfloat * pyfloat)
    : result (pyfloat * pyfloat) :=
  if fle max_value min_value then Err StreamlitInvalidMinMaxError
  else Ok stands_at.

(** What the five tabs of [main] work out from the filtered rows: the
    mean price of the first tab, the band of the second, the tag counts
    of the third and fourth, the ten rows of the fifth. *)
Record views := {
  mean_price : Q;
  correlation : option band;
  top_tags : option (list (Py.str * nat));
  top_games : option (list game)
}.

Section Main.
Variable sort_values_desc : list game -> list game.
Variable corr : list Q -> list Q -> pyfloat.

(** The tabs in the order of [main], as far as their data goes; the
    drawing of the figures is left out. The first tab unpacks the result
    of [plot_price_distribution] into two names, which is a [TypeError]
    when that result is [None]. The last tab, when the analytic has
    data, takes [head(10)] and then selects the columns [游戏名称],
    [价格] and [好评率] of it, which is a [KeyError] when the frame has
    no column [游戏名称]; [has_name] tells whether it has one. *)
Definition tabs (has_name : bool) (filtered_df : list game) : result views :=
  match plot_price_distribution filtered_df with
  | None => Err TypeError
  | Some mean_price =>
      let correlation := correlation_report corr filtered_df in
      let top_tags := plot_tags_bar filtered_df in
      match find_high_value_games sort_values_desc filtered_df (Some mean_price) with
      | Some high_value_games =>
          let top_games := firstn 10 high_value_games in
          if has_name
          then Ok {| mean_price := mean_price;
                     correlation := correlation;
                     top_tags := top_tags;
                     top_games := Some top_games |}
          else Err KeyError
      | None =>
          Ok {| mean_price := mean_price;
                correlation := correlation;
                top_tags := top_tags;
                top_games := None |}
      end
  end.

(** [main] after [clean_data]: the two sliders, bounded by the least and
    the greatest price and rating of the frame, the filter, the tabs.
    [price_range] and [rating_range] are the ranges the sliders stand
    at. The frame is one that [clean_data] has returned: it has a row
    and every price is a number, so the bounds of the price slider are
    numbers. *)
Definition main_views (has_name : bool) (price_range rating_range : pyfloat * pyfloat)
    (df : list game) : result views :=
  price_range ← slider (fst (initial_price_range df)) (snd (initial_price_range df))
                  price_range;
  rating_range ← slider (fst (initial_rating_range df)) (snd (initial_rating_range df))
                   rating_range;
  tabs has_name (filter_games price_range rating_range df).
End Main.




(** A price as [clean_data] leaves it: a float that is 0 or more. *)
Definition is_price (c : cell) : Prop := exists q, c = Float q /\ (0 <= q)%Q.

(** The column [name] of the frame at [df], if the frame has it, holds
    prices only. *)
Definition priced_if_present (df : ref) (name : Py.str) (w : world) : Prop :=
  forall s, column_at w df name = Some s -> Forall is_price s.

(** Three games with a price, tags and a date, without any rating. *)
Definition frame_without_ratings : DataFrame :=
  {| index := [0; 1; 2];
     columns :=
       [(Names.game_name, [Str (Py.lit "A"); Str (Py.lit "B"); Str (Py.lit "C")]);
        (Names.original_price, [yen "10"; yen "60"; yen "5"]);
        (Names.detailed_tags,
         [Str (Py.lit "['Action', 'Indie']"); Str (Py.lit "Indie,,RPG");
          Str (Py.lit "['RPG']")]);
        (Names.detailed_date,
         [Str (Py.lit "2021-03-15"); Str (Py.lit "2020-01-02");
          Str (Py.lit "2019-12-24")])] |}.

(** * Properties *)

(** ** Strings *)

Lemma str_eqb_eq (a b : Py.str) : Py.str_eqb a b = true <-> a = b.
Proof.
  revert b; induction a as [|c a IH]; intros [|d b]; simpl; split;
    try congruence; try reflexivity.
  - intros H. apply andb_prop in H as [Hc Hab].
    apply N.eqb_eq in Hc. apply IH in Hab. congruence.
  - intros H. injection H as -> ->. rewrite N.eqb_refl. simpl. now apply IH.
Qed.

Lemma str_eqb_neq (a b : Py.str) : Py.str_eqb a b = false <-> a <> b.
Proof.
  rewrite <- str_eqb_eq. destruct (Py.str_eqb a b); split; congruence.
Qed.

Lemma split_not_nil (sep : Py.char) (s : Py.str) : Py.split sep s <> [].
Proof.
  destruct s as [|c s]; simpl; [discriminate|].
  destruct (N.eqb c sep); [discriminate|].
  destruct (Py.split sep s); discriminate.
Qed.

Lemma join_cons_char (sep : Py.str) (c : Py.char) (p : Py.str) (ps : list Py.str) :
  Py.join sep ((c :: p) :: ps) = c :: Py.join sep (p :: ps).
Proof. destruct ps; reflexivity. Qed.

(** Splitting loses nothing: joining the pieces with the separator gives
    the string back. *)
Lemma join_split (sep : Py.char) (s : Py.str) :
  Py.join [sep] (Py.split sep s) = s.
Proof.
  induction s as [|c s IH]; simpl; [reflexivity|].
  destruct (N.eqb_spec c sep) as [->|Hne].
  - pose proof (split_not_nil sep s) as Hn.
    destruct (Py.split sep s) as [|p ps]; [contradiction|].
    simpl in *. now rewrite IH.
  - pose proof (split_not_nil sep s) as Hn.
    destruct (Py.split sep s) as [|p ps]; [contradiction|].
    rewrite join_cons_char. now rewrite IH.
Qed.

(** No piece holds the separator. *)
Lemma split_pieces_free (sep : Py.char) (s : Py.str) :
  Forall (fun p => ~ In sep p) (Py.split sep s).
Proof.
  induction s as [|c s IH]; simpl.
  - constructor; [intros []|constructor].
  - destruct (N.eqb_spec c sep) as [->|Hne].
    + constructor; [intros []|exact IH].
    + destruct (Py.split sep s) as [|p ps].
      * constructor; [|constructor]. intros [H|[]]. congruence.
      * inversion IH as [|? ? Hp Hps]; subst. constructor; [|exact Hps].
        intros [H|H]; [congruence|contradiction].
Qed.

Lemma lstrip_spec (s : Py.str) :
  exists ws, s = ws ++ Py.lstrip s /\ forallb Py.isspace ws = true /\
             match Py.lstrip s with
             | c :: _ => Py.isspace c = false
             | [] => True
             end.
Proof.
  induction s as [|c s (ws & Hs & Hws & Hhd)]; simpl.
  - exists []. auto.
  - destruct (Py.isspace c) eqn:Hc.
    + exists (c :: ws). simpl. rewrite Hc, Hws. split; [congruence|auto].
    + exists []. simpl. auto.
Qed.

(** [strip] removes a run of whitespace at each end, and what is left
    neither starts nor ends with whitespace. *)
Lemma strip_spec (s : Py.str) :
  exists before after,
    s = before ++ Py.strip s ++ after /\
    forallb Py.isspace before = true /\ forallb Py.isspace after = true /\
    match Py.strip s with
    | c :: _ => Py.isspace c = false /\ Py.isspace (List.last (Py.strip s) c) = false
    | [] => True
    end.
Proof.
  unfold Py.strip, Py.rstrip.
  destruct (lstrip_spec s) as (before & Hs & Hb & Hhd).
  set (t := Py.lstrip s) in *.
  destruct (lstrip_spec (rev t)) as (ws & Ht & Hws & Hhd').
  set (u := Py.lstrip (rev t)) in *.
  assert (Htt : t = rev u ++ rev ws).
  { rewrite <- (rev_involutive t), Ht, rev_app_distr. reflexivity. }
  exists before, (rev ws). repeat split.
  - now rewrite <- Htt.
  - exact Hb.
  - rewrite forallb_forall in *. intros x Hx. apply Hws. now apply in_rev.
  - destruct u as [|d u']; [exact I|].
    destruct (rev (d :: u')) as [|c r] eqn:Hr; [exact I|].
    split.
    + rewrite Htt in Hhd. exact Hhd.
    + rewrite <- Hr. simpl. rewrite last_last. exact Hhd'.
Qed.

(** ** The field parsers *)

(** On a raw cell [pd.isna] answers with a plain boolean. *)
Lemma isna_raw (v : cell) : raw_cell v = true -> isna v = Ok (is_null v).
Proof. destruct v; simpl; congruence. Qed.

(** No parser raises on a raw cell, and each returns a value of the type
    of its field: a float for a price, a float or the missing value for a
    rating, a list for tags, a timestamp or the missing value for a
    date. *)
Lemma parsers_total_on_raw_cells (L : pylib) (v : cell) :
  raw_cell v = true ->
  (exists q, clean_price L v = Ok (Float q)) /\
  (clean_rating v = Ok Null \/ exists q, clean_rating v = Ok (Float q)) /\
  (exists l, clean_tags v = Ok (PyList l)) /\
  (clean_date L v = Ok Null \/ exists t, clean_date L v = Ok (Timestamp t)).
Proof.
  intros Hraw.
  unfold clean_price, clean_rating, clean_tags, clean_date.
  rewrite (isna_raw v Hraw). simpl.
  repeat split.
  - destruct (is_null v || _ || _); [eauto|].
    destruct (search_number _); eauto.
  - destruct (is_null v || _); [auto|].
    destruct (match v with Str s => _ | _ => None end); [eauto|].
    destruct v; eauto; discriminate.
  - destruct (is_null v || _ || _); [eauto|].
    destruct v; eauto. destruct (without_delimiters s); eauto.
  - destruct (is_null v || _); [auto|].
    destruct (match_ymd _).
    + destruct (to_datetime L v); simpl; eauto.
    + destruct (search_year _); [|auto].
      destruct (to_datetime L _); simpl; eauto.
Qed.

(** The parsing examples of the specification. *)
Example parse_price_examples (L : pylib) :
  clean_price L (yen "49.99") = Ok (Float (4999 # 100)) /\
  clean_price L (Str (Py.lit "199")) = Ok (Float 199) /\
  clean_price L (Str (Py.lit "abc")) = Ok (Float 0) /\
  clean_price L (Str Names.free) = Ok (Float 0) /\
  clean_price L (Str Names.unknown) = Ok (Float 0) /\
  clean_price L Null = Ok (Float 0).
Proof. repeat split. Qed.

Example parse_rating_examples :
  clean_rating (Str (Py.lit "92%")) = Ok (Float 92) /\
  clean_rating (Int 77) = Ok (Float 77) /\
  clean_rating (Str Names.unknown) = Ok Null.
Proof. repeat split. Qed.

Example parse_date_examples :
  clean_date Fragment.fragment (Str (Py.lit "2021-03-15"))
    = Ok (Timestamp {| ts_year := 2021; ts_month := 3; ts_day := 15 |}) /\
  clean_date Fragment.fragment (Str (Py.lit "released in 2019"))
    = Ok (Timestamp {| ts_year := 2019; ts_month := 1; ts_day := 1 |}) /\
  clean_date Fragment.fragment (Str (Py.lit "n/a")) = Ok Null.
Proof. repeat split. Qed.

(** C7, as the code has it. For a raw cell (null, number or string) the
    tag parser returns a list: the empty list for a null cell, for the
    unknown marker, for the empty-list literal and for a number; for any
    other string, the brackets and quotes are removed and, unless nothing
    is left, the rest is cut at the commas and each piece is trimmed.
    Every piece is kept, also one that is empty after trimming. *)
Theorem clean_tags_on_raw_cells (v : cell) :
  raw_cell v = true ->
  exists l, clean_tags v = Ok (PyList l) /\
    match v with
    | Str s =>
        if Py.str_eqb s Names.unknown || Py.str_eqb s (Py.lit "[]") then l = []
        else
          (without_delimiters s = [] -> l = []) /\
          (without_delimiters s <> [] ->
           exists pieces,
             Py.join [44%N] pieces = without_delimiters s /\
             Forall (fun p => ~ In 44%N p) pieces /\
             l = List.map Py.strip pieces)
    | _ => l = []
    end.
Proof.
  intros Hraw. unfold clean_tags. rewrite (isna_raw v Hraw). simpl.
  destruct v as [| b | z | q | s | l | t]; simpl in *; try discriminate; eauto.
  destruct (Py.str_eqb s Names.unknown || Py.str_eqb s (Py.lit "[]")); [eauto|].
  destruct (without_delimiters s) as [|c r] eqn:Hs.
  - eexists; split; [reflexivity|]. split; [reflexivity|congruence].
  - eexists; split; [reflexivity|]. split; [discriminate|].
    intros _. exists (Py.split 44%N (c :: r)).
    split; [apply join_split|]. split; [apply split_pieces_free|reflexivity].
Qed.

Lemma clean_tags_on_raw_cells_witness :
  raw_cell (Str (Py.lit "['Action', 'Indie']")) = true /\
  exists l, clean_tags (Str (Py.lit "['Action', 'Indie']")) = Ok (PyList l) /\
            l = [Py.lit "Action"; Py.lit "Indie"].
Proof.
  split; [reflexivity|].
  destruct (clean_tags_on_raw_cells (Str (Py.lit "['Action', 'Indie']")) eq_refl)
    as (l & Hl & Hspec).
  exists l. split; [exact Hl|].
  vm_compute in Hl. injection Hl as <-. reflexivity.
Defined.

(** C7 as stated fails: an empty piece between two commas is returned as
    an empty string. *)
Lemma clean_tags_keeps_empty_pieces :
  clean_tags (Str (Py.lit "Action,,Indie")) =
    Ok (PyList [Py.lit "Action"; []; Py.lit "Indie"]) /\
  clean_tags (Str (Py.lit " ")) = Ok (PyList [[]]).
Proof. split; reflexivity. Qed.

(** A list cell, as a normalised frame holds them, is not a raw cell: the
    truth value of [pd.isna] on a list of two tags is an error, and a list
    of one tag is read as no tags. *)
Lemma clean_tags_on_lists :
  clean_tags (PyList [Py.lit "Action"; Py.lit "Indie"]) = Err ValueError /\
  clean_tags (PyList [Py.lit "Action"]) = Ok (PyList []).
Proof. split; reflexivity. Qed.

(** ** Correlation bands *)

Lemma Qlt_bool_iff (a b : Q) : Qlt_bool a b = true <-> (a < b)%Q.
Proof.
  unfold Qlt_bool. rewrite negb_true_iff.
  split.
  - intros H. apply Qnot_le_lt. intros Hle. apply Qle_bool_iff in Hle. congruence.
  - intros H. destruct (Qle_bool b a) eqn:E; [|reflexivity].
    apply Qle_bool_iff in E. exfalso. exact (Qlt_not_le _ _ H E).
Qed.

Lemma Qlt_bool_false_iff (a b : Q) : Qlt_bool a b = false <-> (b <= a)%Q.
Proof.
  unfold Qlt_bool. rewrite negb_false_iff. apply Qle_bool_iff.
Qed.

Lemma valid_data_spec (df : list game) (g : game) :
  In g (valid_data df) <->
  In g df /\ exists p r, price g = Fin p /\ rating g = Fin r /\ (0 < p)%Q.
Proof.
  unfold valid_data, dropna. rewrite !filter_In. split.
  - intros [[Hin Hna] Hgt].
    destruct (price g) as [|p] eqn:Hp; [discriminate|].
    destruct (rating g) as [|r] eqn:Hr; [discriminate|].
    split; [exact Hin|]. exists p, r. repeat split.
    now apply Qlt_bool_iff.
  - intros (Hin & p & r & Hp & Hr & Hpos). rewrite Hp, Hr. simpl.
    repeat split; [exact Hin|]. now apply Qlt_bool_iff.
Qed.

(** C4, as the code has it. The analytic keeps the records whose price
    and rating are both defined and whose price is positive; it answers
    no data exactly when none is left, and otherwise returns the
    coefficient pandas computes on the pairs. [main] reads the
    coefficient top down with strict comparisons, so each boundary belongs
    to the band below it: 0.5 is moderate positive, 0.3 weak positive, 0
    weak negative, -0.3 moderate negative, -0.5 strong negative; NaN falls
    through to the last band. *)
Theorem correlation_as_coded (corr : list Q -> list Q -> pyfloat) (df : list game) :
  (forall g, In g (valid_data df) <->
     In g df /\ exists p r, price g = Fin p /\ rating g = Fin r /\ (0 < p)%Q) /\
  (plot_rating_price_correlation corr df = None <-> valid_data df = []) /\
  (valid_data df <> [] ->
     plot_rating_price_correlation corr df =
       Some (corr (List.map (fun g => number (price g)) (valid_data df))
                  (List.map (fun g => number (rating g)) (valid_data df)))) /\
  (forall c : Q,
     (correlation_band (Fin c) = StrongPositive <-> (5 # 10 < c)%Q) /\
     (correlation_band (Fin c) = ModeratePositive <-> (3 # 10 < c /\ c <= 5 # 10)%Q) /\
     (correlation_band (Fin c) = WeakPositive <-> (0 < c /\ c <= 3 # 10)%Q) /\
     (correlation_band (Fin c) = WeakNegative <-> (- (3 # 10) < c /\ c <= 0)%Q) /\
     (correlation_band (Fin c) = ModerateNegative <->
        (- (5 # 10) < c /\ c <= - (3 # 10))%Q) /\
     (correlation_band (Fin c) = StrongNegative <-> (c <= - (5 # 10))%Q)) /\
  correlation_band NaN = StrongNegative.
Proof.
  split; [apply valid_data_spec|].
  split; [|split; [|split; [|reflexivity]]].
  - unfold plot_rating_price_correlation.
    destruct (valid_data df); split; congruence.
  - unfold plot_rating_price_correlation.
    destruct (valid_data df); congruence.
  - intros c. unfold correlation_band, gt.
    destruct (Qlt_bool (5 # 10) c) eqn:E1;
      [apply Qlt_bool_iff in E1 | apply Qlt_bool_false_iff in E1];
    (destruct (Qlt_bool (3 # 10) c) eqn:E2;
      [apply Qlt_bool_iff in E2 | apply Qlt_bool_false_iff in E2]);
    (destruct (Qlt_bool 0 c) eqn:E3;
      [apply Qlt_bool_iff in E3 | apply Qlt_bool_false_iff in E3]);
    (destruct (Qlt_bool (- (3 # 10)) c) eqn:E4;
      [apply Qlt_bool_iff in E4 | apply Qlt_bool_false_iff in E4]);
    (destruct (Qlt_bool (- (5 # 10)) c) eqn:E5;
      [apply Qlt_bool_iff in E5 | apply Qlt_bool_false_iff in E5]);
    repeat split; intros; try discriminate; try reflexivity; try assumption;
      try (exfalso; unfold Qlt, Qle in *; simpl in *; lia).
Qed.

Lemma correlation_as_coded_witness :
  valid_data three_games <> [] /\
  plot_rating_price_correlation (fun _ _ => Fin (3 # 10)) three_games
    = Some (Fin (3 # 10)) /\
  correlation_band (Fin (3 # 10)) = WeakPositive.
Proof.
  destruct (correlation_as_coded (fun _ _ => Fin (3 # 10)) three_games)
    as (_ & _ & Hsome & Hband & _).
  split; [discriminate|]. split.
  - apply Hsome. discriminate.
  - apply (proj1 (proj2 (proj2 (Hband (3 # 10))))). split; [reflexivity|].
    apply Qle_refl.
Defined.

(** C4 as stated fails on the negative side: -0.3 is classified as
    moderate negative and -0.5 as strong negative, the band of higher
    magnitude in both cases. *)
Lemma negative_boundaries_go_down :
  correlation_band (Fin (- (3 # 10))) = ModerateNegative /\
  correlation_band (Fin (- (3 # 10))) <> WeakNegative /\
  correlation_band (Fin (- (5 # 10))) = StrongNegative /\
  correlation_band (Fin (- (5 # 10))) <> ModerateNegative.
Proof. repeat split; try reflexivity; discriminate. Qed.

(** With a single valid record the analytic does not answer no data: it
    returns what pandas computes on one pair (NaN), which [main] then
    reports in the last band. *)
Lemma one_record_is_not_no_data (corr : list Q -> list Q -> pyfloat) :
  plot_rating_price_correlation corr
    [{| label := 0; price := Fin 10; rating := Fin 90; tags := [] |}] <> None /\
  correlation_report (fun _ _ => NaN)
    [{| label := 0; price := Fin 10; rating := Fin 90; tags := [] |}]
  = Some StrongNegative.
Proof. split; [discriminate|reflexivity]. Qed.

(** ** Tag frequency *)

Lemma occurrences_app (t : Py.str) (l k : list Py.str) :
  occurrences t (l ++ k) = (occurrences t l + occurrences t k)%nat.
Proof. unfold occurrences. now rewrite List.filter_app, length_app. Qed.

Lemma occurrences_pos (t : Py.str) (l : list Py.str) :
  In t l <-> (0 < occurrences t l)%nat.
Proof.
  unfold occurrences. induction l as [|u l IH]; simpl.
  - split; [intros []|lia].
  - destruct (Py.str_eqb u t) eqn:E; simpl.
    + apply str_eqb_eq in E. split; [lia|auto].
    + apply str_eqb_neq in E. rewrite <- IH. split; [intros [H|H]; [congruence|auto]|auto].
Qed.

Lemma first_index_lt (t : Py.str) (l : list Py.str) :
  In t l -> (first_index t l < length l)%nat.
Proof.
  induction l as [|u l IH]; simpl; [intros []|].
  destruct (Py.str_eqb u t) eqn:E; [lia|].
  apply str_eqb_neq in E. intros [H|H]; [congruence|]. specialize (IH H). lia.
Qed.

Lemma first_index_app_in (t : Py.str) (l k : list Py.str) :
  In t l -> first_index t (l ++ k) = first_index t l.
Proof.
  induction l as [|u l IH]; simpl; [intros []|].
  destruct (Py.str_eqb u t) eqn:E; [reflexivity|].
  apply str_eqb_neq in E. intros [H|H]; [congruence|]. now rewrite IH.
Qed.

Lemma first_index_app_new (t : Py.str) (l k : list Py.str) :
  ~ In t l -> first_index t (l ++ t :: k) = length l.
Proof.
  induction l as [|u l IH]; simpl; intros Hn.
  - now rewrite (proj2 (str_eqb_eq t t) eq_refl).
  - destruct (Py.str_eqb u t) eqn:E.
    + apply str_eqb_eq in E. exfalso. auto.
    + rewrite IH; auto.
Qed.

Lemma fst_bump (t : Py.str) (kv : Py.str * nat) : fst (bump t kv) = fst kv.
Proof. unfold bump. now destruct (Py.str_eqb (fst kv) t). Qed.

Lemma counter_add_known (t : Py.str) (c : list (Py.str * nat)) :
  List.NoDup (List.map fst c) -> In t (List.map fst c) ->
  counter_add t c = List.map (bump t) c.
Proof.
  induction c as [|[k m] c IH]; simpl; [intros _ []|].
  intros Hnd Hin. inversion Hnd as [|? ? Hk Hnd']; subst.
  unfold bump at 1. simpl.
  destruct (Py.str_eqb k t) eqn:E.
  - apply str_eqb_eq in E. subst k. f_equal.
    clear IH Hin Hnd Hnd'. induction c as [|[k' m'] c IHc]; simpl; [reflexivity|].
    simpl in Hk. unfold bump at 1. simpl.
    destruct (Py.str_eqb k' t) eqn:E'.
    + apply str_eqb_eq in E'. subst. exfalso. apply Hk. now left.
    + f_equal. apply IHc. intros H. apply Hk. now right.
  - apply str_eqb_neq in E. f_equal. apply IH; [exact Hnd'|].
    destruct Hin as [H|H]; [congruence|exact H].
Qed.

Lemma counter_add_new (t : Py.str) (c : list (Py.str * nat)) :
  ~ In t (List.map fst c) -> counter_add t c = c ++ [(t, 1%nat)].
Proof.
  induction c as [|[k m] c IH]; simpl; [reflexivity|].
  intros Hn. destruct (Py.str_eqb k t) eqn:E.
  - apply str_eqb_eq in E. exfalso. apply Hn. now left.
  - f_equal. apply IH. intros H. apply Hn. now right.
Qed.

Lemma Counter_snoc (l : list Py.str) (t : Py.str) :
  Counter (l ++ [t]) = counter_add t (Counter l).
Proof. unfold Counter. now rewrite fold_left_app. Qed.

Lemma StronglySorted_weaken {A} (R R' : A -> A -> Prop) (l : list A) :
  (forall a b, In a l -> In b l -> R a b -> R' a b) ->
  StronglySorted R l -> StronglySorted R' l.
Proof.
  induction l as [|x l IH]; intros HR Hs; [constructor|].
  inversion Hs as [|? ? Hl Hx]; subst. constructor.
  - apply IH; [|exact Hl]. intros a b Ha Hb. apply HR; now right.
  - rewrite List.Forall_forall in *. intros b Hb.
    apply HR; [now left|now right|]. now apply Hx.
Qed.

Lemma StronglySorted_map {A B} (f : A -> B) (R : B -> B -> Prop) (l : list A) :
  StronglySorted (fun a b => R (f a) (f b)) l -> StronglySorted R (List.map f l).
Proof.
  induction 1 as [|x l Hl IH Hx]; simpl; constructor; [exact IH|].
  rewrite List.Forall_forall in *. intros b Hb.
  apply in_map_iff in Hb as (a & <- & Ha). now apply Hx.
Qed.

Lemma StronglySorted_snoc {A} (R : A -> A -> Prop) (l : list A) (x : A) :
  StronglySorted R l -> (forall a, In a l -> R a x) -> StronglySorted R (l ++ [x]).
Proof.
  induction 1 as [|y l Hl IH Hy]; intros Hx; simpl.
  - constructor; constructor.
  - constructor.
    + apply IH. intros a Ha. apply Hx. now right.
    + rewrite List.Forall_forall in *. intros b Hb.
      apply in_app_or in Hb as [Hb|[<-|[]]]; [now apply Hy|].
      apply Hx. now left.
Qed.

Lemma counts_of_snoc (l : list Py.str) (c : list (Py.str * nat)) (t : Py.str) :
  counts_of l c -> counts_of (l ++ [t]) (counter_add t c).
Proof.
  intros [Hnd Hcnt Hall Hord].
  assert (Hkeys : forall kv, In kv c -> In (fst kv) l).
  { intros [k m] H. now apply Hcnt in H. }
  assert (Hstep : forall a b, In a c -> In b c ->
            seen_before l a b -> seen_before (l ++ [t]) a b).
  { intros a b Ha Hb. unfold seen_before.
    rewrite !first_index_app_in by now apply Hkeys. auto. }
  destruct (List.in_dec (List.list_eq_dec N.eq_dec) t l) as [Hin|Hnew].
  - rewrite counter_add_known by auto.
    assert (Hfst : List.map fst (List.map (bump t) c) = List.map fst c).
    { rewrite List.map_map. apply map_ext. intros kv. apply fst_bump. }
    split.
    + now rewrite Hfst.
    + intros u n H. apply in_map_iff in H as ([k m] & Hb & Hkm).
      destruct (Hcnt _ _ Hkm) as [Hk Hm]. unfold bump in Hb. simpl in Hb.
      rewrite occurrences_app. unfold occurrences at 2. simpl.
      destruct (Py.str_eqb k t) eqn:E; injection Hb as <- <-.
      * apply str_eqb_eq in E. subst k.
        rewrite (proj2 (str_eqb_eq t t) eq_refl). simpl.
        split; [apply in_or_app; now left|lia].
      * assert (E' : Py.str_eqb t k = false).
        { apply str_eqb_neq. apply str_eqb_neq in E. congruence. }
        rewrite E'. simpl. split; [apply in_or_app; now left|lia].
    + intros u Hu. rewrite Hfst. apply in_app_or in Hu as [Hu|[<-|[]]]; auto.
    + apply StronglySorted_map.
      eapply StronglySorted_weaken; [|exact Hord].
      intros a b Ha Hb Hab. unfold seen_before. rewrite !fst_bump.
      now apply Hstep.
  - assert (Hnk : ~ In t (List.map fst c)).
    { intros H. apply in_map_iff in H as (kv & <- & Hkv). apply Hnew. now apply Hkeys. }
    rewrite counter_add_new by exact Hnk. split.
    + rewrite List.map_app. simpl. apply List.NoDup_app; [exact Hnd| |].
      * constructor; [intros []|constructor].
      * intros x Hx [<-|[]]. contradiction.
    + intros u n H. rewrite occurrences_app. unfold occurrences at 2. simpl.
      apply in_app_or in H as [H|[H|[]]].
      * destruct (Hcnt _ _ H) as [Hu Hn].
        assert (E : Py.str_eqb t u = false).
        { apply str_eqb_neq. intros ->. contradiction. }
        rewrite E. simpl. split; [apply in_or_app; now left|lia].
      * injection H as <- <-.
        rewrite (proj2 (str_eqb_eq t t) eq_refl). simpl.
        split; [apply in_or_app; right; now left|].
        assert (occurrences t l = 0)%nat.
        { destruct (occurrences t l) eqn:E; [reflexivity|].
          exfalso. apply Hnew. apply occurrences_pos. lia. }
        lia.
    + intros u Hu. rewrite List.map_app. apply in_or_app.
      apply in_app_or in Hu as [Hu|[<-|[]]]; [left; auto|right; now left].
    + apply StronglySorted_snoc.
      * eapply StronglySorted_weaken; [|exact Hord]. exact Hstep.
      * intros a Ha. unfold seen_before. simpl.
        rewrite first_index_app_in by now apply Hkeys.
        rewrite first_index_app_new by exact Hnew.
        apply first_index_lt. now apply Hkeys.
Qed.

Lemma Counter_counts (l : list Py.str) : counts_of l (Counter l).
Proof.
  induction l as [|t l IH] using rev_ind.
  - split; simpl; [constructor|intros ? ? []|intros ? []|constructor].
  - rewrite Counter_snoc. now apply counts_of_snoc.
Qed.

Lemma insert_by_count_perm (x : Py.str * nat) (l : list (Py.str * nat)) :
  Permutation (insert_by_count x l) (x :: l).
Proof.
  induction l as [|y l IH]; simpl; [reflexivity|].
  destruct (snd x <? snd y)%nat; [|reflexivity].
  rewrite IH. apply perm_swap.
Qed.

Lemma sorted_by_count_perm (c : list (Py.str * nat)) :
  Permutation (sorted_by_count c) c.
Proof.
  induction c as [|x c IH]; simpl; [reflexivity|].
  rewrite insert_by_count_perm. now constructor.
Qed.

Section StableSort.
Variable tie : Py.str * nat -> Py.str * nat -> Prop.

(** Inserting an entry that wins every tie keeps the list ranked. *)
Lemma insert_by_count_sorted (x : Py.str * nat) (s : list (Py.str * nat)) :
  StronglySorted (by_count_then tie) s -> List.Forall (tie x) s ->
  StronglySorted (by_count_then tie) (insert_by_count x s).
Proof.
  induction 1 as [|y s Hs IH Hy]; intros Hx; simpl.
  - constructor; constructor.
  - inversion Hx as [|? ? Hxy Hxs]; subst.
    destruct (Nat.ltb_spec (snd x) (snd y)) as [Hlt|Hge].
    + constructor; [now apply IH|].
      eapply Permutation_Forall; [symmetry; apply insert_by_count_perm|].
      constructor; [left; exact Hlt|exact Hy].
    + constructor; [now constructor|].
      constructor.
      * unfold by_count_then. destruct (Nat.eq_dec (snd x) (snd y)); [right|left]; auto; lia.
      * rewrite List.Forall_forall in *. intros z Hz.
        specialize (Hy z Hz). specialize (Hxs z Hz).
        unfold by_count_then in *.
        destruct (Nat.eq_dec (snd x) (snd z)); [right; auto|left].
        destruct Hy as [Hy|[Hy _]]; lia.
Qed.

Lemma sorted_by_count_sorted (c : list (Py.str * nat)) :
  StronglySorted tie c -> StronglySorted (by_count_then tie) (sorted_by_count c).
Proof.
  induction 1 as [|x c Hc IH Hx]; simpl; [constructor|].
  apply insert_by_count_sorted; [exact IH|].
  eapply Permutation_Forall; [symmetry; apply sorted_by_count_perm|exact Hx].
Qed.
End StableSort.

Lemma all_tags_spec (df : list game) (t : Py.str) :
  In t (all_tags df) <-> t <> [] /\ exists g, In g df /\ In t (tags g).
Proof.
  unfold all_tags. rewrite in_flat_map. split.
  - intros (g & Hg & Ht). apply filter_In in Ht as [Ht Hne].
    split; [destruct t; [discriminate|discriminate]|eauto].
  - intros (Hne & g & Hg & Ht). exists g. split; [exact Hg|].
    apply filter_In. split; [exact Ht|]. destruct t; [contradiction|reflexivity].
Qed.

(** C9, as the code has it. The analytic flattens the tag sequences of
    all records in row order, leaving out the empty strings; without any
    tag left it answers no data. Otherwise it returns the first 20
    entries of the ranking of the distinct tags with their numbers of
    occurrences, by descending count and, among equal counts, in the order
    in which the tags were first seen. *)
Theorem tag_ranking_as_coded (df : list game) :
  (forall t, In t (all_tags df) <-> t <> [] /\ exists g, In g df /\ In t (tags g)) /\
  (plot_tags_bar df = None <-> all_tags df = []) /\
  (all_tags df <> [] ->
   exists top rest,
     plot_tags_bar df = Some top /\
     length top = Nat.min 20 (length (top ++ rest)) /\
     List.NoDup (List.map fst (top ++ rest)) /\
     (forall t n, In (t, n) (top ++ rest) <->
        In t (all_tags df) /\ n = occurrences t (all_tags df)) /\
     StronglySorted (ranks_before (all_tags df)) (top ++ rest)).
Proof.
  split; [apply all_tags_spec|]. split.
  - unfold plot_tags_bar. destruct (all_tags df); split; congruence.
  - intros Hne. unfold plot_tags_bar.
    set (T := all_tags df) in *.
    destruct (Counter_counts T) as [Hnd Hcnt Hall Hord].
    set (ranking := sorted_by_count (Counter T)).
    assert (Hperm : Permutation ranking (Counter T)) by apply sorted_by_count_perm.
    exists (firstn 20 ranking), (skipn 20 ranking).
    rewrite firstn_skipn. repeat split.
    + destruct T; [contradiction|reflexivity].
    + apply length_firstn.
    + eapply Permutation_NoDup; [|exact Hnd].
      apply Permutation_map. now symmetry.
    + apply (Permutation_in _ Hperm) in H. now apply Hcnt in H.
    + apply (Permutation_in _ Hperm) in H. now apply Hcnt in H.
    + intros [Ht ->]. apply (Permutation_in _ (Permutation_sym Hperm)).
      apply Hall in Ht. apply in_map_iff in Ht as ([k m] & Hk & Hkm).
      simpl in Hk. subst k. destruct (Hcnt _ _ Hkm) as [_ ->]. exact Hkm.
    + apply (sorted_by_count_sorted (seen_before T)). exact Hord.
Qed.

(** From the raw record set to the ranking: the empty piece that
    [clean_tags] keeps in the tags of the second game is left out when
    the tags are flattened. *)
Example ranking_of_three_games :
  normalise_then Fragment.fragment frame_three_games (List.map tags)
    = Some [[Py.lit "Action"; Py.lit "Indie"];
            [Py.lit "Indie"; []; Py.lit "RPG"];
            [Py.lit "RPG"]] /\
  normalise_then Fragment.fragment frame_three_games plot_tags_bar
    = Some (Some [(Py.lit "Indie", 2); (Py.lit "RPG", 2); (Py.lit "Action", 1)]).
Proof. split; vm_compute; reflexivity. Qed.

(** C9 as stated fails on a tag sequence that holds an empty string:
    the flattened sequences are not empty, yet the answer is no data;
    and an empty string next to real tags is not counted. *)
Lemma empty_tags_are_not_counted :
  flat_map tags [{| label := 0; price := NaN; rating := NaN; tags := [[]] |}] <> [] /\
  plot_tags_bar [{| label := 0; price := NaN; rating := NaN; tags := [[]] |}] = None /\
  plot_tags_bar
    [{| label := 0; price := NaN; rating := NaN;
        tags := [Py.lit "Action"; []; Py.lit "Indie"] |}]
  = Some [(Py.lit "Action", 1%nat); (Py.lit "Indie", 1%nat)].
Proof. split; [discriminate|split; reflexivity]. Qed.

(** The tie-break example of the specification. *)
Example tag_ranking_example :
  plot_tags_bar
    [{| label := 0; price := NaN; rating := NaN;
        tags := [Py.lit "A"; Py.lit "B"; Py.lit "A"] |};
     {| label := 1; price := NaN; rating := NaN;
        tags := [Py.lit "C"; Py.lit "B"; Py.lit "D"] |}]
  = Some [(Py.lit "A", 2%nat); (Py.lit "B", 2%nat);
          (Py.lit "C", 1%nat); (Py.lit "D", 1%nat)].
Proof. reflexivity. Qed.

Lemma tag_ranking_as_coded_witness :
  let df := [{| label := 0; price := NaN; rating := NaN;
                tags := [Py.lit "A"; Py.lit "B"; Py.lit "A"] |}] in
  all_tags df <> [] /\
  exists top rest,
    plot_tags_bar df = Some top /\
    length top = Nat.min 20 (length (top ++ rest)) /\
    List.NoDup (List.map fst (top ++ rest)) /\
    (forall t n, In (t, n) (top ++ rest) <->
       In t (all_tags df) /\ n = occurrences t (all_tags df)) /\
    StronglySorted (ranks_before (all_tags df)) (top ++ rest).
Proof.
  intros df. split; [discriminate|].
  apply (proj2 (proj2 (tag_ranking_as_coded df))). discriminate.
Defined.

(** ** High-value games *)

Lemma insert_desc_perm (b : bool) (x : game) (l : list game) :
  Permutation (insert_desc b x l) (x :: l).
Proof.
  induction l as [|y l IH]; simpl; [reflexivity|].
  destruct (if b then _ else _); [|reflexivity].
  rewrite IH. apply perm_swap.
Qed.

Lemma insert_desc_sorted (b : bool) (x : game) (l : list game) :
  descending l -> descending (insert_desc b x l).
Proof.
  unfold descending. induction 1 as [|y l Hl IH Hy]; simpl.
  - constructor; constructor.
  - destruct (if b then _ else _) eqn:E.
    + constructor; [exact IH|].
      eapply Permutation_Forall; [symmetry; apply insert_desc_perm|].
      constructor; [|exact Hy].
      destruct b; [now apply Qle_bool_iff|apply Qlt_le_weak; now apply Qlt_bool_iff].
    + assert (Hyx : (rating_key y <= rating_key x)%Q).
      { destruct b.
        - apply Qlt_le_weak. apply Qnot_le_lt. intros H.
          apply Qle_bool_iff in H. congruence.
        - now apply Qlt_bool_false_iff. }
      constructor; [now constructor|].
      constructor; [exact Hyx|].
      rewrite List.Forall_forall in *. intros z Hz.
      eapply Qle_trans; [apply Hy; exact Hz|exact Hyx].
Qed.

(** Both insertion sorts meet the contract of [sort_values]. *)
Lemma insertion_sort_desc_sorts (b : bool) : sorts_descending (insertion_sort_desc b).
Proof.
  intros l. unfold insertion_sort_desc. induction l as [|x l [IHp IHs]]; simpl.
  - split; [reflexivity|constructor].
  - split.
    + rewrite insert_desc_perm. now constructor.
    + now apply insert_desc_sorted.
Qed.

Section HighValueProperties.
Variable sort_values_desc : list game -> list game.
Hypothesis sort_contract : sorts_descending sort_values_desc.

(** [find_high_value_games] keeps the records with a defined rating and
    a defined, positive price and answers no data when none is left.
    Otherwise it returns exactly the kept records with a rating of at
    least 85 and a price of at most the threshold, in the order
    [sort_values] gives them: by descending rating. The threshold is the
    value passed by the caller or else the mean over the kept records,
    here the exact mean, where [Series.mean] rounds to binary64. The
    order of rows of equal rating is that of NumPy's quicksort, which is
    not stable and is not described here. *)
Theorem high_value_as_coded (df : list game) (mean_price : option Q) :
  let threshold :=
    match mean_price with
    | Some m => m
    | None => mean (List.map (fun g => number (price g)) (valid_data df))
    end in
  (find_high_value_games sort_values_desc df mean_price = None <-> valid_data df = []) /\
  (valid_data df <> [] ->
   exists out,
     find_high_value_games sort_values_desc df mean_price = Some out /\
     Permutation out
       (List.filter (fun g => ge (rating g) (85 # 1) && le (price g) threshold)
                    (valid_data df)) /\
     (forall g, In g out <->
        In g (valid_data df) /\
        (85 # 1 <= rating_key g)%Q /\ (number (price g) <= threshold)%Q) /\
     descending out).
Proof.
  intros threshold. unfold find_high_value_games. split.
  - destruct (valid_data df); split; congruence.
  - intros Hne. fold threshold.
    set (keep := fun g => ge (rating g) (85 # 1) && le (price g) threshold).
    exists (sort_values_desc (List.filter keep (valid_data df))).
    destruct (sort_contract (List.filter keep (valid_data df))) as [Hperm Hsorted].
    split; [|split; [exact Hperm|split; [|exact Hsorted]]].
    + destruct (valid_data df) eqn:E; [contradiction|].
      subst keep threshold. rewrite <- E. reflexivity.
    + intros g. split.
      * intros Hin. apply (Permutation_in _ Hperm) in Hin.
        apply filter_In in Hin as [Hv Hk]. split; [exact Hv|].
        apply valid_data_spec in Hv as (_ & p & r & Hp & Hr & _).
        unfold keep, rating_key in *. rewrite Hp, Hr in *. simpl in *.
        apply andb_prop in Hk as [H1 H2].
        split; now apply Qle_bool_iff.
      * intros (Hv & Hr85 & Hpm).
        apply (Permutation_in _ (Permutation_sym Hperm)).
        apply filter_In. split; [exact Hv|].
        apply valid_data_spec in Hv as (_ & p & r & Hp & Hr & _).
        unfold keep, rating_key in *. rewrite Hp, Hr in *. simpl in *.
        apply andb_true_intro. split; now apply Qle_bool_iff.
Qed.
End HighValueProperties.

(** From the raw record set to the high-value games, with the mean
    price (25) computed over the valid records. *)
Example high_value_of_three_games :
  normalise_then Fragment.fragment frame_three_games
    (fun gs => option_map (List.map label)
                 (find_high_value_games (insertion_sort_desc false) gs None))
    = Some (Some [0]).
Proof. vm_compute. reflexivity. Qed.

Lemma high_value_as_coded_witness :
  sorts_descending (insertion_sort_desc false) /\
  valid_data three_games <> [] /\
  exists out,
    find_high_value_games (insertion_sort_desc false) three_games (Some (25 # 1))
      = Some out /\
    out = [{| label := 0; price := Fin 10; rating := Fin 90; tags := [] |}] /\
    descending out.
Proof.
  split; [apply insertion_sort_desc_sorts|]. split; [discriminate|].
  destruct (high_value_as_coded (insertion_sort_desc false)
              (insertion_sort_desc_sorts false) three_games (Some (25 # 1)))
    as [_ H].
  destruct (H ltac:(discriminate)) as (out & Hout & _ & _ & Hdesc).
  exists out. split; [exact Hout|]. split; [|exact Hdesc].
  vm_compute in Hout. injection Hout as <-. reflexivity.
Defined.

(** ** Effects of [clean_data] on the heap *)

Lemma get_column_Some_in (cs : list (Py.str * Series)) (name : Py.str) (s : Series) :
  get_column cs name = Some s -> In name (List.map fst cs).
Proof.
  induction cs as [|[n s0] cs IH]; simpl; [discriminate|].
  destruct (Py.str_eqb n name) eqn:E.
  - apply str_eqb_eq in E. auto.
  - auto.
Qed.

Lemma set_column_names (cs : list (Py.str * Series)) (name : Py.str) (s : Series) (n : Py.str) :
  In n (List.map fst (set_column cs name s)) -> In n (List.map fst cs) \/ n = name.
Proof.
  induction cs as [|[k s0] cs IH]; simpl.
  - intros [H|[]]. auto.
  - destruct (Py.str_eqb k name); simpl; intros [H|H]; auto.
    destruct (IH H); auto.
Qed.

Section Stable.
Context {I : world -> Prop}.

Lemma stable_ret {A} (a : A) : stable I (mret a).
Proof. intros w H. exact H. Qed.

Lemma stable_bind {A B} (m : M A) (k : A -> M B) :
  stable I m -> (forall a, stable I (k a)) -> stable I (m ≫= k).
Proof.
  intros Hm Hk w H. unfold mbind, M_bind.
  specialize (Hm w H). destruct (m w) as [a w'|e w']; simpl in *.
  - now apply Hk.
  - exact Hm.
Qed.

Lemma stable_lift {A} (r : result A) : stable I (lift r).
Proof. intros w H. unfold lift. now destruct r. Qed.

Lemma stable_raise {A} (e : exn) : stable I (@raise A e).
Proof. intros w H. exact H. Qed.

Lemma stable_read (df : ref) : stable I (read df).
Proof. intros w H. unfold read. now destruct (heap w !! df). Qed.

Lemma stable_has_column (df : ref) (name : Py.str) : stable I (has_column df name).
Proof. apply stable_bind; [apply stable_read|intro; apply stable_ret]. Qed.

Lemma stable_columns_where (df : ref) (p : Py.str -> bool) :
  stable I (columns_where df p).
Proof. apply stable_bind; [apply stable_read|intro; apply stable_ret]. Qed.

Lemma stable_getitem (df : ref) (name : Py.str) : stable I (getitem df name).
Proof.
  apply stable_bind; [apply stable_read|intros d].
  destruct (get_column (columns d) name); [apply stable_ret|apply stable_raise].
Qed.

Lemma stable_broadcast (df : ref) (v : cell) : stable I (broadcast df v).
Proof. apply stable_bind; [apply stable_read|intro; apply stable_ret]. Qed.

Lemma stable_when (b : bool) (m : M unit) : stable I m -> stable I (when b m).
Proof. intros H. destruct b; [exact H|apply stable_ret]. Qed.

Lemma stable_isna_mask (s : Series) : stable I (isna_mask s).
Proof. apply stable_ret. Qed.

Lemma stable_empty_mask (s : Series) : stable I (empty_mask s).
Proof. apply stable_bind; [apply stable_lift|intro; apply stable_ret]. Qed.

Variable df : ref.
Variable allowed : Py.str -> Prop.
Hypothesis HI : frame_inv df allowed I.

Lemma stable_setitem (name : Py.str) (s : Series) :
  allowed name -> stable I (setitem df name s).
Proof.
  intros Hname w H. unfold setitem, read, write, mbind, M_bind.
  destruct (heap w !! df) as [d|] eqn:E; simpl; [|exact H].
  apply (inv_setitem df allowed I HI); auto.
Qed.

Lemma stable_warning (f : field) : stable I (warning f).
Proof. intros w H. now apply (inv_warning df allowed I HI). Qed.

Lemma stable_assign_parsed (dst src : Py.str) (f : cell -> result cell) :
  allowed dst -> stable I (assign_parsed df dst src f).
Proof.
  intros Hdst. unfold assign_parsed.
  apply stable_bind; [apply stable_getitem|intro].
  apply stable_bind; [apply stable_lift|intro]. now apply stable_setitem.
Qed.

(** A column parsed in place: the name is that of a column read just
    before. *)
Lemma stable_assign_in_place (name : Py.str) (f : cell -> result cell) :
  stable I (assign_parsed df name name f).
Proof.
  intros w H.
  unfold assign_parsed, getitem, setitem, read, write, lift, raise, mbind, M_bind, mret, M_ret.
  destruct (heap w !! df) as [d|] eqn:E; simpl; [|exact H].
  destruct (get_column (columns d) name) as [s|] eqn:Es; simpl; [|exact H].
  destruct (apply f s) as [s'|e]; simpl; [|exact H].
  rewrite E. simpl.
  apply (inv_setitem df allowed I HI); auto.
  right. eapply get_column_Some_in. exact Es.
Qed.

Lemma stable_default (dst : Py.str) (v : cell) (fld : field) :
  allowed dst -> stable I (s ← broadcast df v; setitem df dst s;; warning fld).
Proof.
  intros Hdst.
  apply stable_bind; [apply stable_broadcast|intro].
  apply stable_bind; [now apply stable_setitem|intro]. apply stable_warning.
Qed.

Lemma stable_clean_price_columns (L : pylib) :
  allowed Names.price -> stable I (clean_price_columns L df).
Proof.
  intros Hp. unfold clean_price_columns.
  apply stable_bind; [apply stable_has_column|intro].
  apply stable_bind; [apply stable_when, stable_assign_in_place|intro].
  apply stable_bind; [apply stable_has_column|intro].
  apply stable_bind; [apply stable_when, stable_assign_in_place|intro].
  apply stable_bind; [apply stable_has_column|intros has_discount].
  apply stable_bind; [apply stable_has_column|intros has_original].
  destruct has_discount, has_original; simpl.
  - apply stable_bind; [apply stable_getitem|intro].
    apply stable_bind; [apply stable_getitem|intro]. now apply stable_setitem.
  - apply stable_bind; [apply stable_getitem|intro]. now apply stable_setitem.
  - apply stable_bind; [apply stable_getitem|intro]. now apply stable_setitem.
  - apply stable_bind; [apply stable_columns_where|intros [|c cs]].
    + now apply stable_default.
    + now apply stable_assign_parsed.
Qed.

Lemma stable_fill_from_basic (L : pylib) (dst basic : Py.str)
    (missing : Series -> M (list bool)) (f : cell -> result cell) :
  allowed dst -> (forall s, stable I (missing s)) ->
  stable I (fill_from_basic L df dst basic missing f).
Proof.
  intros Hdst Hmissing. unfold fill_from_basic.
  apply stable_bind; [apply stable_getitem|intro].
  apply stable_bind; [apply Hmissing|intro].
  apply stable_bind; [apply stable_getitem|intro].
  apply stable_bind; [apply stable_lift|intro].
  apply stable_bind; [apply stable_getitem|intro].
  apply stable_bind; [apply Hmissing|intro].
  destruct (loc_accepts L _ _ _); [now apply stable_setitem|apply stable_raise].
Qed.

Lemma stable_resolve_field (L : pylib) (dst detailed basic : Py.str) (synonym : Py.str -> bool)
    (missing : Series -> M (list bool)) (f : cell -> result cell)
    (default : cell) (fld : field) :
  allowed dst -> (forall s, stable I (missing s)) ->
  stable I (resolve_field L df dst detailed basic synonym missing f default fld).
Proof.
  intros Hdst Hmissing. unfold resolve_field.
  apply stable_bind; [apply stable_has_column|intro].
  apply stable_bind; [now apply stable_when, stable_assign_parsed|intro].
  apply stable_bind; [apply stable_has_column|intros has_basic].
  apply stable_bind; [apply stable_has_column|intros has_dst].
  destruct has_basic, has_dst; simpl;
    try (now apply stable_fill_from_basic); try (now apply stable_assign_parsed);
    (apply stable_bind; [apply stable_columns_where|intros [|c cs]];
     [now apply stable_default|now apply stable_assign_parsed]).
Qed.

Lemma stable_add_release_year :
  allowed Names.release_year -> stable I (add_release_year df).
Proof.
  intros Hy. unfold add_release_year.
  apply stable_bind; [apply stable_has_column|intro].
  apply stable_when.
  apply stable_bind; [apply stable_getitem|intro].
  apply stable_bind; [apply stable_lift|intro]. now apply stable_setitem.
Qed.
End Stable.

(** Everything [clean_data] does after the copy. *)
Lemma stable_clean_steps (I : world -> Prop) (df : ref) (L : pylib) :
  frame_inv df (fun _ => True) I ->
  stable I (clean_price_columns L df;; clean_rating_columns L df;;
            clean_tags_columns L df;; clean_date_columns L df;;
            add_release_year df;; mret df).
Proof.
  intros HI.
  apply stable_bind; [now apply (stable_clean_price_columns df _ HI)|intro].
  apply stable_bind;
    [apply (stable_resolve_field df _ HI); [exact Logic.I|apply stable_isna_mask]|intro].
  apply stable_bind;
    [apply (stable_resolve_field df _ HI); [exact Logic.I|apply stable_empty_mask]|intro].
  apply stable_bind;
    [apply (stable_resolve_field df _ HI); [exact Logic.I|apply stable_isna_mask]|intro].
  apply stable_bind; [now apply (stable_add_release_year df _ HI)|intro].
  apply stable_ret.
Qed.

Lemma keeps_frame_inv (n : nat) (h0 : list DataFrame) (df : ref) :
  (n <= df)%nat -> frame_inv df (fun _ => True) (keeps n h0).
Proof.
  intros Hdf. split.
  - intros w d name s [Hlen Hold] _ _. split; simpl.
    + now rewrite length_insert.
    + intros r Hr. rewrite list_lookup_insert_ne by lia. now apply Hold.
  - intros w f H. exact H.
Qed.

Lemma shaped_frame_inv (ix : list nat) (base : list Py.str) (df : ref) :
  frame_inv df (fun n => In n base) (shaped ix base df).
Proof.
  split.
  - intros w d name s (d' & Hd' & Hix & Hnames) Hd Hname.
    rewrite Hd in Hd'. injection Hd' as <-.
    eexists. split; [|split].
    + apply list_lookup_insert_eq. now apply lookup_lt_Some in Hd.
    + exact Hix.
    + intros n Hn. apply set_column_names in Hn as [Hn| ->]; [now apply Hnames|].
      destruct Hname as [H|H]; [exact H|now apply Hnames].
  - intros w f H. exact H.
Qed.

Lemma has_index_frame_inv (ix : list nat) (df : ref) :
  frame_inv df (fun _ => True) (has_index ix df).
Proof.
  split.
  - intros w d name s (d' & Hd' & Hix) Hd _. rewrite Hd in Hd'. injection Hd' as <-.
    eexists. split.
    + apply list_lookup_insert_eq. now apply lookup_lt_Some in Hd.
    + exact Hix.
  - intros w f H. exact H.
Qed.

Lemma bind_Done {A B} (m : M A) (k : A -> M B) (w w' : world) (b : B) :
  (m ≫= k) w = Done b w' -> exists a w1, m w = Done a w1 /\ k a w1 = Done b w'.
Proof.
  unfold mbind, M_bind. destruct (m w) as [a w1|e w1]; [eauto|discriminate].
Qed.

Lemma clean_data_unfold (L : pylib) (df0 : ref) (w : world) :
  clean_data L df0 w =
  match heap w !! df0 with
  | Some d =>
      let df := length (heap w) in
      (clean_price_columns L df;; clean_rating_columns L df;;
       clean_tags_columns L df;; clean_date_columns L df;;
       add_release_year df;; mret df)
        {| heap := heap w ++ [d]; notices := notices w |}
  | None => Raised KeyError w
  end.
Proof.
  unfold clean_data, copy. unfold mbind at 1. unfold M_bind at 1.
  now destruct (heap w !! df0).
Qed.

(** C10. [clean_data] works on a copy: whether it returns or raises, the
    frame it was given, and every other frame that existed before the
    call, is afterwards what it was before, column by column and cell by
    cell. *)
Theorem clean_data_leaves_input (L : pylib) (w : world) (df0 : ref) :
  heap (world_of (clean_data L df0 w)) !! df0 = heap w !! df0 /\
  firstn (length (heap w)) (heap (world_of (clean_data L df0 w))) = heap w.
Proof.
  assert (Hkeeps : keeps (length (heap w)) (heap w) (world_of (clean_data L df0 w))).
  { rewrite clean_data_unfold.
    destruct (heap w !! df0) as [d|] eqn:E; cbv zeta.
    - apply stable_clean_steps.
      + now apply keeps_frame_inv.
      + split; simpl.
        * rewrite length_app. lia.
        * intros r Hr. now apply lookup_app_l.
    - split; [simpl; lia|reflexivity]. }
  destruct Hkeeps as [Hlen Hold]. split.
  - destruct (heap w !! df0) as [d|] eqn:E.
    + rewrite <- E. apply Hold. now apply lookup_lt_Some in E.
    + rewrite clean_data_unfold, E. simpl. now rewrite E.
  - apply list_eq. intros i.
    destruct (Nat.lt_ge_cases i (length (heap w))) as [Hi|Hi].
    + rewrite lookup_take_lt by exact Hi. now apply Hold.
    + rewrite lookup_take_ge by exact Hi. symmetry. now apply lookup_ge_None_2.
Qed.

(** When [clean_data] returns, the frame it returns is a new one with
    the index of the input: the same rows, in the same order. *)
Lemma clean_data_keeps_index (L : pylib) (w w' : world) (df0 df : ref) (d : DataFrame) :
  heap w !! df0 = Some d ->
  clean_data L df0 w = Done df w' ->
  df = length (heap w) /\
  exists d', heap w' !! df = Some d' /\ index d' = index d /\ nrows d' = nrows d.
Proof.
  intros Hd Hrun. rewrite clean_data_unfold, Hd in Hrun. cbv zeta in Hrun.
  assert (Hst : has_index (index d) (length (heap w)) (world_of (Done df w'))).
  { rewrite <- Hrun.
    apply stable_clean_steps; [apply has_index_frame_inv|].
    exists d. split; [|reflexivity]. simpl.
    rewrite lookup_app_r by lia. now rewrite Nat.sub_diag. }
  simpl in Hst.
  assert (Hdf : df = length (heap w)).
  { repeat (apply bind_Done in Hrun as (? & ? & _ & Hrun)).
    unfold mret, M_ret in Hrun. congruence. }
  split; [exact Hdf|]. subst df.
  destruct Hst as (d' & Hd' & Hix).
  exists d'. unfold nrows. rewrite Hix. auto.
Qed.

(** ** Resolution failure *)

Lemma bind_run {A B} (m : M A) (k : A -> M B) (w w' : world) (a : A) :
  m w = Done a w' -> (m ≫= k) w = k a w'.
Proof. intros H. unfold mbind, M_bind. now rewrite H. Qed.

Lemma bind_raised {A B} (m : M A) (k : A -> M B) (w w' : world) (e : exn) :
  m w = Raised e w' -> (m ≫= k) w = Raised e w'.
Proof. intros H. unfold mbind, M_bind. now rewrite H. Qed.

Lemma get_column_set_column (cs : list (Py.str * Series)) (name : Py.str) (s : Series) :
  get_column (set_column cs name s) name = Some s.
Proof.
  induction cs as [|[n s0] cs IH]; simpl.
  - now rewrite (proj2 (str_eqb_eq name name) eq_refl).
  - destruct (Py.str_eqb n name) eqn:E; simpl; now rewrite E.
Qed.

Lemma has_set_column (cs : list (Py.str * Series)) (name : Py.str) (s : Series) :
  existsb (fun n => Py.str_eqb n name) (List.map fst (set_column cs name s)) = true.
Proof.
  induction cs as [|[n s0] cs IH]; simpl.
  - now rewrite (proj2 (str_eqb_eq name name) eq_refl).
  - destruct (Py.str_eqb n name) eqn:E; simpl; rewrite E; [reflexivity|exact IH].
Qed.

Lemma no_timestamp_in_default (n : nat) : datetimelike (repeat Null n) = false.
Proof.
  unfold datetimelike.
  assert (H : existsb is_timestamp (repeat Null n) = false) by (induction n; auto).
  now rewrite H.
Qed.

(** The accessor [.dt] fails on a time column without any timestamp,
    whatever else the frame holds. *)
Lemma add_release_year_raises (df : ref) (w : world) (d : DataFrame) (s : Series) :
  heap w !! df = Some d ->
  get_column (columns d) Names.release_time = Some s ->
  existsb is_timestamp s = false ->
  add_release_year df w = Raised AttributeError w.
Proof.
  intros Hd Hs Hno.
  assert (Hhas : existsb (fun n => Py.str_eqb n Names.release_time) (column_names d) = true).
  { apply existsb_exists. exists Names.release_time. split.
    - eapply get_column_Some_in. exact Hs.
    - now apply str_eqb_eq. }
  unfold add_release_year, has_column, getitem, setitem, read, when, lift, dt_year,
    datetimelike, mbind, M_bind, mret, M_ret.
  rewrite Hd. simpl. rewrite Hhas, Hd. simpl. rewrite Hs. simpl. now rewrite Hno.
Qed.

(** Without a detailed column, a basic column or a synonym, a field gets
    its default in every row and a warning is shown. *)
Lemma resolve_field_default (L : pylib) (df : ref) (dst detailed basic : Py.str)
    (synonym : Py.str -> bool) (missing : Series -> M (list bool))
    (f : cell -> result cell) (default : cell) (fld : field)
    (w : world) (d : DataFrame) :
  heap w !! df = Some d ->
  existsb (fun n => Py.str_eqb n detailed) (column_names d) = false ->
  existsb (fun n => Py.str_eqb n basic) (column_names d) = false ->
  List.filter synonym (column_names d) = [] ->
  resolve_field L df dst detailed basic synonym missing f default fld w =
  Done tt {| heap := <[df := {| index := index d;
                                columns := set_column (columns d) dst
                                             (repeat default (nrows d)) |}]> (heap w);
             notices := notices w ++ [fld] |}.
Proof.
  intros Hd Hdet Hbas Hsyn.
  unfold resolve_field, has_column, columns_where, broadcast, setitem, warning,
    read, write, when, mbind, M_bind, mret, M_ret.
  rewrite Hd. simpl. rewrite Hdet. simpl. rewrite Hd. simpl. rewrite Hbas. simpl.
  rewrite Hd. simpl. rewrite Hd. simpl. rewrite Hsyn. simpl.
  rewrite Hd. simpl. rewrite Hd. reflexivity.
Qed.

(** The same for the price, whose step is written apart. *)
Lemma clean_price_columns_default (L : pylib) (df : ref) (w : world) (d : DataFrame) :
  heap w !! df = Some d ->
  existsb (fun n => Py.str_eqb n Names.original_price) (column_names d) = false ->
  existsb (fun n => Py.str_eqb n Names.discount_price) (column_names d) = false ->
  List.filter price_synonym (column_names d) = [] ->
  clean_price_columns L df w =
  Done tt {| heap := <[df := {| index := index d;
                                columns := set_column (columns d) Names.price
                                             (repeat (Float 0) (nrows d)) |}]> (heap w);
             notices := notices w ++ [Price] |}.
Proof.
  intros Hd Ho Hdi Hsyn.
  unfold clean_price_columns, has_column, columns_where, broadcast, setitem, warning,
    read, write, when, mbind, M_bind, mret, M_ret.
  rewrite Hd. simpl. rewrite Ho. simpl. rewrite Hd. simpl. rewrite Hdi. simpl.
  rewrite Hd. simpl. rewrite Hdi. simpl. rewrite Hd. simpl. rewrite Ho. simpl.
  rewrite Hd. simpl. rewrite Hsyn. simpl.
  rewrite Hd. simpl. rewrite Hd. reflexivity.
Qed.

Lemma filter_nil_iff {A} (p : A -> bool) (l : list A) :
  List.filter p l = [] <-> forall x, In x l -> p x = false.
Proof.
  induction l as [|a l IH]; simpl.
  - split; [intros _ x []|reflexivity].
  - destruct (p a) eqn:E; split.
    + discriminate.
    + intros H. specialize (H a (or_introl eq_refl)). congruence.
    + intros H x [<-|Hx]; [exact E|]. now apply IH.
    + intros H. apply IH. intros x Hx. apply H. now right.
Qed.

Lemma unmatched_name_absent (p : Py.str -> bool) (ns : list Py.str) (name : Py.str) :
  p name = true -> List.filter p ns = [] ->
  existsb (fun n => Py.str_eqb n name) ns = false.
Proof.
  intros Hp Hnil. destruct (existsb _ ns) eqn:E; [|reflexivity].
  apply existsb_exists in E as (n & Hn & Heq). apply str_eqb_eq in Heq. subst n.
  rewrite (proj1 (filter_nil_iff p ns) Hnil name Hn) in Hp. discriminate.
Qed.

(** Without any column for the date, the date step fills [发布时间] with
    the missing value in every row and warns; the year step that follows
    then fails on that column. *)
Lemma missing_date_default_then_raise (L : pylib) (df : ref) (w : world) (d : DataFrame) :
  heap w !! df = Some d ->
  List.filter date_synonym (column_names d) = [] ->
  (clean_date_columns L df;; add_release_year df;; mret df) w =
  Raised AttributeError
    {| heap := <[df := {| index := index d;
                          columns := set_column (columns d) Names.release_time
                                       (repeat Null (nrows d)) |}]> (heap w);
       notices := notices w ++ [ReleaseDate] |}.
Proof.
  intros Hd Hsyn.
  erewrite bind_run; cycle 1.
  { unfold clean_date_columns. apply resolve_field_default; [exact Hd| | |exact Hsyn].
    - now apply (unmatched_name_absent date_synonym).
    - now apply (unmatched_name_absent date_synonym). }
  apply bind_raised. eapply add_release_year_raises.
  - simpl. apply list_lookup_insert_eq. now apply lookup_lt_Some in Hd.
  - simpl. apply get_column_set_column.
  - induction (nrows d); auto.
Qed.

(** The run of [clean_data] after the copy, cut after the tag step. *)
Lemma clean_steps_split (L : pylib) (df : ref) (w : world) :
  (clean_price_columns L df;; clean_rating_columns L df;; clean_tags_columns L df;;
   clean_date_columns L df;; add_release_year df;; mret df) w =
  match (clean_price_columns L df;; clean_rating_columns L df;;
         clean_tags_columns L df) w with
  | Done _ w' => (clean_date_columns L df;; add_release_year df;; mret df) w'
  | Raised e w' => Raised e w'
  end.
Proof.
  unfold mbind, M_bind.
  destruct (clean_price_columns L df w) as [[] w2|e w2]; [|reflexivity].
  destruct (clean_rating_columns L df w2) as [[] w3|e w3]; [|reflexivity].
  destruct (clean_tags_columns L df w3) as [[] w4|e w4]; reflexivity.
Qed.

(** The price, rating and tag steps add no column but [价格], [好评率]
    and [标签列表]. *)
Lemma first_steps_shape (L : pylib) (df : ref) (ix : list nat) (base : list Py.str) :
  In Names.price base -> In Names.rating base -> In Names.tag_list base ->
  stable (shaped ix base df)
    (clean_price_columns L df;; clean_rating_columns L df;; clean_tags_columns L df).
Proof.
  intros Hp Hr Ht. pose proof (shaped_frame_inv ix base df) as HI.
  apply stable_bind; [now apply (stable_clean_price_columns df _ HI)|intro].
  apply stable_bind.
  - apply (stable_resolve_field df _ HI); [exact Hr|apply stable_isna_mask].
  - intro. apply (stable_resolve_field df _ HI); [exact Ht|apply stable_empty_mask].
Qed.

(** C3 on the code, for the date. A record set without any column that
    matches the date field never comes out of [clean_data]. If the steps
    before the date step complete, the date is set to the missing value
    in every row, the warning for the date is shown, and then the year
    step raises [AttributeError]: the default that was just filled in is
    not a column of dates. *)
Theorem missing_date_column_is_fatal (L : pylib) (w : world) (df0 : ref) (d : DataFrame) :
  heap w !! df0 = Some d ->
  List.filter date_synonym (column_names d) = [] ->
  let df := length (heap w) in
  let copied := {| heap := heap w ++ [d]; notices := notices w |} in
  (exists e w', clean_data L df0 w = Raised e w') /\
  (forall w3 d3,
     (clean_price_columns L df;; clean_rating_columns L df;; clean_tags_columns L df) copied
       = Done tt w3 ->
     heap w3 !! df = Some d3 ->
     clean_data L df0 w =
     Raised AttributeError
       {| heap := <[df := {| index := index d3;
                             columns := set_column (columns d3) Names.release_time
                                          (repeat Null (nrows d3)) |}]> (heap w3);
          notices := notices w3 ++ [ReleaseDate] |}).
Proof.
  intros Hd Hsyn df copied. rewrite clean_data_unfold, Hd. cbv zeta.
  fold df. fold copied. rewrite clean_steps_split.
  set (base := column_names d ++ [Names.price; Names.rating; Names.tag_list]).
  assert (Hshape : shaped (index d) base df
            (world_of ((clean_price_columns L df;; clean_rating_columns L df;;
                        clean_tags_columns L df) copied))).
  { apply first_steps_shape; try (apply in_or_app; right; simpl; tauto).
    exists d. split; [|split; [reflexivity|]].
    - unfold copied, df. simpl. rewrite lookup_app_r by lia. now rewrite Nat.sub_diag.
    - intros n Hn. apply in_or_app. now left. }
  destruct ((clean_price_columns L df;; clean_rating_columns L df;;
             clean_tags_columns L df) copied) as [[] w4|e w4]; simpl in Hshape.
  - destruct Hshape as (d4 & Hd4 & _ & Hnames).
    assert (Hsyn4 : List.filter date_synonym (column_names d4) = []).
    { apply filter_nil_iff. intros n Hn. apply Hnames in Hn.
      apply in_app_or in Hn as [Hn|Hn].
      - now apply (proj1 (filter_nil_iff _ _) Hsyn).
      - simpl in Hn. destruct Hn as [<-|[<-|[<-|[]]]]; reflexivity. }
    rewrite (missing_date_default_then_raise L df w4 d4 Hd4 Hsyn4).
    split; [eauto|].
    intros w3 d3 Hw3 Hd3. injection Hw3 as <-.
    rewrite Hd4 in Hd3. injection Hd3 as <-. reflexivity.
  - split; [eauto|]. intros w3 d3 Hw3. discriminate.
Qed.

(** ** Runs of [clean_data] on concrete record sets *)

(** C1 on the code. Every cell of this record set is parsed to a typed
    value or to the default of its field, and no parser raises; all the
    same [clean_data] ends with [AttributeError], raised by the year step
    on the date column, which holds no date. *)
Theorem unknown_dates_are_fatal (L : pylib) :
  exists w',
    clean_data L 0 (start frame_unknown_dates) = Raised AttributeError w' /\
    column_at w' 1 Names.price = Some [Float (4999 # 100); Float 0] /\
    column_at w' 1 Names.rating = Some [Float 92; Null] /\
    column_at w' 1 Names.tag_list =
      Some [PyList [Py.lit "Action"; Py.lit "Indie"]; PyList []] /\
    column_at w' 1 Names.release_time = Some [Null; Null] /\
    column_at w' 1 Names.release_year = None.
Proof.
  eexists. split; [vm_compute; reflexivity|].
  repeat split.
Qed.

(** C3 on the code, at a record set without a date column: the three
    other fields are resolved, the date gets its default and its warning,
    and the run ends with [AttributeError]. *)
Lemma missing_date_column_is_fatal_witness :
  heap (start frame_without_dates) !! 0 = Some frame_without_dates /\
  List.filter date_synonym (column_names frame_without_dates) = [] /\
  (exists e w', clean_data Fragment.fragment 0 (start frame_without_dates) = Raised e w') /\
  exists w', clean_data Fragment.fragment 0 (start frame_without_dates)
               = Raised AttributeError w' /\
             notices w' = [ReleaseDate] /\
             column_at w' 1 Names.release_time = Some [Null; Null].
Proof.
  split; [reflexivity|]. split; [reflexivity|]. split.
  - apply (missing_date_column_is_fatal Fragment.fragment (start frame_without_dates)
             0 frame_without_dates); reflexivity.
  - eexists. split; [vm_compute; reflexivity|]. split; reflexivity.
Defined.

(** C5 on the code, at the empty record set: [clean_data] raises instead
    of returning an empty frame. *)
Theorem empty_input_is_fatal (L : pylib) :
  (exists w', clean_data L 0 (start empty_frame) = Raised AttributeError w') /\
  (exists w', clean_data L 0 (start header_only_frame) = Raised AttributeError w').
Proof. split; eexists; vm_compute; reflexivity. Qed.

(** A parsed price is never missing, so [fillna] has nothing to fill. *)
Lemma parsed_prices_are_never_filled (L : pylib) (raw parsed other : Series) :
  apply (clean_price L) raw = Ok parsed -> fillna parsed other = parsed.
Proof.
  revert parsed other. induction raw as [|c raw IH]; simpl; intros parsed other H.
  - injection H as <-. reflexivity.
  - unfold mbind, result_bind in H.
    destruct (clean_price L c) as [v|e] eqn:Ev; [|discriminate].
    destruct (apply (clean_price L) raw) as [vs|e] eqn:Evs; [|discriminate].
    injection H as <-. destruct other as [|o other]; [reflexivity|]. simpl.
    rewrite (IH vs other eq_refl).
    assert (Hv : is_null v = false).
    { unfold clean_price, mbind, result_bind in Ev.
      destruct (isna c); [|discriminate].
      destruct (_ || _ || _); [injection Ev as <-; reflexivity|].
      destruct (search_number _); injection Ev as <-; reflexivity. }
    now rewrite Hv.
Qed.

(** C2 on the code, for the price: the discount price is unknown, the
    original price of the same row is 49.99, and the price of the record
    is 0, not 49.99. *)
Theorem price_fallback_never_fires :
  exists w',
    clean_data Fragment.fragment 0 (start frame_unknown_discount) = Done 1 w' /\
    column_at w' 1 Names.discount_price = Some [Float 0] /\
    column_at w' 1 Names.original_price = Some [Float (4999 # 100)] /\
    column_at w' 1 Names.price = Some [Float 0].
Proof. eexists. split; [vm_compute; reflexivity|]. repeat split. Qed.

(** C6 on the code. A record set whose tags stand in a column named
    [标签列表] is normalised to lists of tags; normalising the result again
    raises [ValueError] on a list of two tags, and turns a list of one
    tag into the empty list. The example data of [main], which is
    canonical already, makes [clean_data] raise as well. *)
Theorem renormalisation_loses_tags :
  (exists w1,
     clean_data Fragment.fragment 0 (start (frame_canonical_names "['Action', 'Indie']"))
       = Done 1 w1 /\
     column_at w1 1 Names.tag_list = Some [PyList [Py.lit "Action"; Py.lit "Indie"]] /\
     exists w2, clean_data Fragment.fragment 1 w1 = Raised ValueError w2) /\
  (exists w1,
     clean_data Fragment.fragment 0 (start (frame_canonical_names "Action")) = Done 1 w1 /\
     column_at w1 1 Names.tag_list = Some [PyList [Py.lit "Action"]] /\
     exists w2, clean_data Fragment.fragment 1 w1 = Done 2 w2 /\
                column_at w2 2 Names.tag_list = Some [PyList []]) /\
  (exists w', clean_data Fragment.fragment 0 (start frame_example_data)
                = Raised ValueError w').
Proof.
  split; [|split].
  - eexists. split; [vm_compute; reflexivity|]. split; [reflexivity|].
    eexists. vm_compute. reflexivity.
  - eexists. split; [vm_compute; reflexivity|]. split; [reflexivity|].
    eexists. split; [vm_compute; reflexivity|]. reflexivity.
  - eexists. vm_compute. reflexivity.
Qed.

(** ** Row-wise fallback *)

(** The column that the masked assignment of the source leaves, when it
    is accepted, is that of the fallback. *)
Lemma loc_assign_is_row_wise (missing : cell -> bool) (f : cell -> result cell)
    (parsed basic : Series) :
  length parsed = length basic ->
  (values ← apply f (select (List.map missing parsed) basic);
   Ok (loc_assign (List.map missing parsed) parsed values))
  = row_wise_fallback missing f parsed basic.
Proof.
  revert basic. induction parsed as [|p ps IH]; intros [|b bs] Hlen;
    simpl in *; try discriminate; [reflexivity|].
  injection Hlen as Hlen. specialize (IH bs Hlen).
  unfold fallback_row. unfold mbind, result_bind in *.
  destruct (missing p); simpl.
  - destruct (f b) as [v|e]; [|reflexivity].
    destruct (apply f (select (List.map missing ps) bs)) as [vs|e];
      rewrite <- IH; reflexivity.
  - destruct (apply f (select (List.map missing ps) bs)) as [vs|e];
      rewrite <- IH; reflexivity.
Qed.

Lemma get_column_set_column_ne (cs : list (Py.str * Series)) (name other : Py.str) (s : Series) :
  name <> other -> get_column (set_column cs name s) other = get_column cs other.
Proof.
  intros Hne. induction cs as [|[n s0] cs IH]; simpl.
  - apply str_eqb_neq in Hne. now rewrite Hne.
  - destruct (Py.str_eqb n name) eqn:E; simpl.
    + apply str_eqb_eq in E. subst n.
      apply str_eqb_neq in Hne. now rewrite Hne.
    + destruct (Py.str_eqb n other); [reflexivity|exact IH].
Qed.

Lemma set_column_twice (cs : list (Py.str * Series)) (name : Py.str) (s s' : Series) :
  set_column (set_column cs name s) name s' = set_column cs name s'.
Proof.
  induction cs as [|[n s0] cs IH]; simpl.
  - now rewrite (proj2 (str_eqb_eq name name) eq_refl).
  - destruct (Py.str_eqb n name) eqn:E; simpl; rewrite E; [reflexivity|].
    now rewrite IH.
Qed.

Lemma has_column_of_get (cs : list (Py.str * Series)) (name : Py.str) (s : Series) :
  get_column cs name = Some s ->
  existsb (fun n => Py.str_eqb n name) (List.map fst cs) = true.
Proof.
  intros H. apply existsb_exists. exists name. split.
  - eapply get_column_Some_in. exact H.
  - now apply str_eqb_eq.
Qed.

(** With both the detailed and the basic column present, the parsed
    detailed column is written first. Then, when the column takes the
    parsed basic cells of its missing rows, the field gets the row-wise
    fallback; when it does not, the step ends in [TypeError] and the
    column stays as parsed from the detailed one. [miss] is the test on
    a parsed cell that the mask of the source computes. *)
Lemma resolve_field_both (L : pylib) (df : ref) (dst detailed basic : Py.str)
    (synonym : Py.str -> bool) (missing : Series -> M (list bool)) (miss : cell -> bool)
    (f : cell -> result cell) (default : cell) (fld : field)
    (w : world) (d : DataFrame) (sd sb parsed values filled : Series) :
  heap w !! df = Some d ->
  dst <> basic ->
  get_column (columns d) detailed = Some sd ->
  get_column (columns d) basic = Some sb ->
  length sd = length sb ->
  apply f sd = Ok parsed ->
  (forall w', missing parsed w' = Done (List.map miss parsed) w') ->
  apply f (select (List.map miss parsed) sb) = Ok values ->
  row_wise_fallback miss f parsed sb = Ok filled ->
  resolve_field L df dst detailed basic synonym missing f default fld w =
  if loc_accepts L parsed (List.map miss parsed) values
  then Done tt {| heap := <[df := {| index := index d;
                                     columns := set_column (columns d) dst filled |}]>
                            (heap w);
                  notices := notices w |}
  else Raised TypeError
         {| heap := <[df := {| index := index d;
                               columns := set_column (columns d) dst parsed |}]> (heap w);
            notices := notices w |}.
Proof.
  intros Hd Hne Hsd Hsb Hlen Hparsed Hmask Ev Hfilled.
  assert (Hlt : (df < length (heap w))%nat) by now apply lookup_lt_Some in Hd.
  assert (Hplen : length parsed = length sb).
  { rewrite <- Hlen. clear -Hparsed. revert parsed Hparsed.
    induction sd as [|c sd IH]; simpl; intros parsed H.
    - now injection H as <-.
    - unfold mbind, result_bind in H. destruct (f c); [|discriminate].
      destruct (apply f sd); [|discriminate]. injection H as <-.
      simpl. f_equal. now apply IH. }
  rewrite <- (loc_assign_is_row_wise miss f parsed sb Hplen) in Hfilled.
  unfold mbind, result_bind in Hfilled. rewrite Ev in Hfilled.
  injection Hfilled as <-.
  unfold resolve_field, fill_from_basic, assign_parsed, has_column, getitem, setitem,
    column_names, read, write, when, lift, raise, mbind, M_bind, mret, M_ret.
  rewrite Hd. simpl. rewrite (has_column_of_get _ _ _ Hsd). simpl.
  rewrite Hd. simpl. rewrite Hsd. simpl. rewrite Hparsed. simpl. rewrite Hd. simpl.
  assert (Hb : get_column (set_column (columns d) dst parsed) basic = Some sb).
  { now rewrite get_column_set_column_ne. }
  repeat first
    [ rewrite list_lookup_insert_eq by exact Hlt
    | rewrite has_set_column
    | rewrite (has_column_of_get _ _ _ Hb)
    | rewrite get_column_set_column
    | rewrite Hmask
    | rewrite Hb
    | rewrite Ev
    | progress simpl ].
  destruct (loc_accepts L parsed (List.map miss parsed) values); [|reflexivity].
  repeat first
    [ rewrite list_lookup_insert_eq by exact Hlt
    | progress simpl ].
  rewrite list_insert_insert_eq, set_column_twice. reflexivity.
Qed.

(** When the assignment is accepted, the rating of a record is the
    parse of its detailed cell or, when that is missing, the parse of
    its basic cell. *)
Lemma rating_fallback_is_row_wise (L : pylib) (df : ref) (w : world) (d : DataFrame)
    (sd sb parsed values filled : Series) :
  heap w !! df = Some d ->
  get_column (columns d) Names.detailed_rating = Some sd ->
  get_column (columns d) Names.basic_rating = Some sb ->
  length sd = length sb ->
  apply clean_rating sd = Ok parsed ->
  apply clean_rating (select (List.map is_null parsed) sb) = Ok values ->
  row_wise_fallback is_null clean_rating parsed sb = Ok filled ->
  clean_rating_columns L df w =
  if loc_accepts L parsed (List.map is_null parsed) values
  then Done tt {| heap := <[df := {| index := index d;
                                     columns := set_column (columns d) Names.rating
                                                  filled |}]>
                            (heap w);
                  notices := notices w |}
  else Raised TypeError
         {| heap := <[df := {| index := index d;
                               columns := set_column (columns d) Names.rating
                                            parsed |}]> (heap w);
            notices := notices w |}.
Proof.
  intros Hd Hsd Hsb Hlen Hp Hv Hf. unfold clean_rating_columns.
  eapply resolve_field_both; eauto; try discriminate; intros w'; reflexivity.
Qed.

(** The same for the date. Here the parsed detailed column and the
    parsed basic cells often differ in type (no date among the detailed
    ones, or a basic date that does not parse), and the step then ends
    in [TypeError]. *)
Lemma date_fallback_is_row_wise (L : pylib) (df : ref) (w : world) (d : DataFrame)
    (sd sb parsed values filled : Series) :
  heap w !! df = Some d ->
  get_column (columns d) Names.detailed_date = Some sd ->
  get_column (columns d) Names.basic_date = Some sb ->
  length sd = length sb ->
  apply (clean_date L) sd = Ok parsed ->
  apply (clean_date L) (select (List.map is_null parsed) sb) = Ok values ->
  row_wise_fallback is_null (clean_date L) parsed sb = Ok filled ->
  clean_date_columns L df w =
  if loc_accepts L parsed (List.map is_null parsed) values
  then Done tt {| heap := <[df := {| index := index d;
                                     columns := set_column (columns d) Names.release_time
                                                  filled |}]>
                            (heap w);
                  notices := notices w |}
  else Raised TypeError
         {| heap := <[df := {| index := index d;
                               columns := set_column (columns d) Names.release_time
                                            parsed |}]> (heap w);
            notices := notices w |}.
Proof.
  intros Hd Hsd Hsb Hlen Hp Hv Hf. unfold clean_date_columns.
  eapply resolve_field_both; eauto; try discriminate; intros w'; reflexivity.
Qed.

(** Two runs in which the date step ends in [TypeError]: timestamps do
    not go into a column of missing values, which is a column of floats,
    and a missing value, a float, does not go into a column of
    timestamps. *)
Example date_fallback_type_error :
  (exists w', clean_date_columns Fragment.fragment 0 (start frame_basic_dates)
              = Raised TypeError w') /\
  (exists w', clean_date_columns Fragment.fragment 0 (start frame_one_date)
              = Raised TypeError w').
Proof. split; eexists; vm_compute; reflexivity. Qed.

(** A parsed tag cell is a list, so the mask of the source marks the
    empty lists. *)
Lemma empty_mask_of_parsed_tags (raw parsed : Series) (w : world) :
  apply clean_tags raw = Ok parsed ->
  empty_mask parsed w = Done (List.map is_empty_list parsed) w.
Proof.
  intros Hp.
  assert (Hlists : List.Forall (fun c => exists l, c = PyList l) parsed).
  { revert parsed Hp. induction raw as [|c raw IH]; simpl; intros parsed H.
    - injection H as <-. constructor.
    - unfold mbind, result_bind in H.
      destruct (clean_tags c) as [v|e] eqn:Ev; [|discriminate].
      destruct (apply clean_tags raw) as [vs|e]; [|discriminate].
      injection H as <-. constructor; [|now apply IH].
      unfold clean_tags, mbind, result_bind in Ev.
      destruct (isna c); [|discriminate].
      destruct (_ || _ || _); [injection Ev as <-; eauto|].
      destruct c; try (injection Ev as <-; eauto).
      destruct (without_delimiters s); injection Ev as <-; eauto. }
  unfold empty_mask, lift, mbind, M_bind, mret, M_ret.
  assert (Hm : apply len_is_zero parsed = Ok (List.map (fun c => Bool (is_empty_list c)) parsed)).
  { clear Hp. induction Hlists as [|c cs [l ->] _ IH]; simpl; [reflexivity|].
    unfold mbind, result_bind. rewrite IH. now destruct l. }
  rewrite Hm. rewrite List.map_map. reflexivity.
Qed.

(** The same for the tags, where missing means the empty list. *)
Lemma tags_fallback_is_row_wise (L : pylib) (df : ref) (w : world) (d : DataFrame)
    (sd sb parsed values filled : Series) :
  heap w !! df = Some d ->
  get_column (columns d) Names.detailed_tags = Some sd ->
  get_column (columns d) Names.basic_tags = Some sb ->
  length sd = length sb ->
  apply clean_tags sd = Ok parsed ->
  apply clean_tags (select (List.map is_empty_list parsed) sb) = Ok values ->
  row_wise_fallback is_empty_list clean_tags parsed sb = Ok filled ->
  clean_tags_columns L df w =
  if loc_accepts L parsed (List.map is_empty_list parsed) values
  then Done tt {| heap := <[df := {| index := index d;
                                     columns := set_column (columns d) Names.tag_list
                                                  filled |}]>
                            (heap w);
                  notices := notices w |}
  else Raised TypeError
         {| heap := <[df := {| index := index d;
                               columns := set_column (columns d) Names.tag_list
                                            parsed |}]> (heap w);
            notices := notices w |}.
Proof.
  intros Hd Hsd Hsb Hlen Hp Hv Hf. unfold clean_tags_columns.
  eapply resolve_field_both; eauto; try discriminate.
  intros w'. eapply empty_mask_of_parsed_tags. exact Hp.
Qed.

(** * Further properties of the parsers *)

Lemma span_digits_app (ds rest : Py.str) :
  all_digits ds -> ends_digits rest -> Py.span_digits (ds ++ rest) = (ds, rest).
Proof.
  unfold all_digits. induction ds as [|c ds IH]; simpl; intros Hd Hr.
  - destruct rest as [|r rest]; simpl in *; [reflexivity|]. now rewrite Hr.
  - apply andb_prop in Hd as [Hc Hds]. rewrite Hc. now rewrite IH.
Qed.

Lemma search_number_skip (p s : Py.str) :
  no_digit p -> search_number (p ++ s) = search_number s.
Proof.
  unfold no_digit. induction p as [|c p IH]; simpl; intros H; [reflexivity|].
  apply andb_prop in H as [Hc Hp]. apply negb_true_iff in Hc. rewrite Hc. now apply IH.
Qed.

Lemma search_number_digits (d : Py.char) (ds rest : Py.str) :
  all_digits (d :: ds) -> ends_digits rest ->
  search_number ((d :: ds) ++ rest) = Some (search_number_result rest (d :: ds)).
Proof.
  unfold search_number_result.
  intros Hd Hr. pose proof (span_digits_app (d :: ds) rest Hd Hr) as Hspan.
  unfold all_digits in Hd. simpl in Hd. apply andb_prop in Hd as [Hc _].
  change ((d :: ds) ++ rest) with (d :: (ds ++ rest)) in *.
  cbn [search_number]. rewrite Hc. rewrite Hspan.
  destruct rest as [|c rest']; [reflexivity|]. now destruct (N.eqb c 46).
Qed.

Lemma marker_free_of_digits (s : Py.str) (c : Py.char) :
  In c s -> Py.isdigit c = true ->
  Py.str_eqb s Names.unknown = false /\ Py.str_eqb s Names.free = false.
Proof.
  intros Hin Hc. split; apply str_eqb_neq; intros ->;
    simpl in Hin; repeat (destruct Hin as [<-|Hin]; [discriminate Hc|]); exact Hin.
Qed.

Lemma search_number_first (before ds rest : Py.str) :
  no_digit before -> ds <> [] -> all_digits ds ->
  match rest with
  | [] => True
  | c :: _ => Py.isdigit c = false /\ c <> 46%N
  end ->
  search_number (before ++ ds ++ rest) = Some (ds, false, []).
Proof.
  intros Hb Hne Hd Hr. destruct ds as [|d ds]; [contradiction|].
  rewrite search_number_skip by exact Hb.
  rewrite search_number_digits; [|exact Hd|destruct rest; [exact I|tauto]].
  unfold search_number_result. destruct rest as [|c rest']; [reflexivity|].
  destruct Hr as [_ Hc]. apply N.eqb_neq in Hc. now rewrite Hc.
Qed.

Lemma float_of_match_integer (ds : Py.str) :
  (float_of_match (ds, false, []) == Z.of_N (Py.int_of_digits ds) # 1)%Q.
Proof.
  unfold float_of_match. rewrite Qred_correct. simpl. unfold Qeq. simpl. lia.
Qed.

Lemma float_of_match_nonneg (m : Py.str * bool * Py.str) : (0 <= float_of_match m)%Q.
Proof.
  destruct m as [[ds b] fs]. unfold float_of_match. rewrite Qred_correct.
  unfold Qle, Qplus. simpl. nia.
Qed.

Lemma search_number_fraction (before ds fs rest : Py.str) :
  no_digit before -> ds <> [] -> all_digits ds -> all_digits fs -> ends_digits rest ->
  search_number (before ++ ds ++ 46%N :: fs ++ rest) = Some (ds, true, fs).
Proof.
  intros Hb Hne Hd Hf Hr. destruct ds as [|d ds]; [contradiction|].
  rewrite search_number_skip by exact Hb.
  rewrite search_number_digits; [|exact Hd|reflexivity].
  unfold search_number_result. cbn [N.eqb Pos.eqb].
  now rewrite (span_digits_app fs rest Hf Hr).
Qed.

Lemma clean_price_of_match (L : pylib) (s : Py.str) (m : Py.str * bool * Py.str)
    (d : Py.char) :
  In d s -> Py.isdigit d = true -> search_number s = Some m ->
  clean_price L (Str s) = Ok (Float (float_of_match m)).
Proof.
  intros Hin Hd Hm. destruct (marker_free_of_digits s d Hin Hd) as [Hu Hf].
  unfold clean_price, py_str, eq_str, isna. cbn [mbind result_bind orb].
  now rewrite Hu, Hf, Hm.
Qed.

(** X1. Only the first number of a price string counts. Whatever stands
    before its first digit (a currency sign, a minus sign, words) is
    skipped. The number is the first run of digits and, when a point
    follows it directly, the point and the digits after it; it ends at
    the first other character, so that a thousands separator cuts the
    price short and a second point ends it. *)
Theorem price_is_first_number (L : pylib) (before ds fs rest : Py.str) :
  no_digit before ->
  ds <> [] -> all_digits ds -> all_digits fs -> ends_digits rest ->
  (exists q, clean_price L (Str (before ++ ds ++ 46%N :: fs ++ rest)) = Ok (Float q) /\
             (q == (Z.of_N (Py.int_of_digits ds) # 1) +
                   (Z.of_N (Py.int_of_digits fs) # Pos.of_nat (10 ^ length fs)))%Q) /\
  (match rest with
   | [] => True
   | c :: _ => c <> 46%N
   end ->
   exists q, clean_price L (Str (before ++ ds ++ rest)) = Ok (Float q) /\
             (q == Z.of_N (Py.int_of_digits ds) # 1)%Q).
Proof.
  intros Hb Hne Hd Hf Hr.
  assert (Hdig : exists d, In d ds /\ Py.isdigit d = true).
  { destruct ds as [|d ds]; [contradiction|]. exists d. split; [now left|].
    unfold all_digits in Hd. simpl in Hd. now apply andb_prop in Hd as [H _]. }
  destruct Hdig as (d & Hin & Hd0).
  split.
  - eexists. split.
    + eapply (clean_price_of_match L _ _ d); [|exact Hd0|].
      * apply in_or_app; right. apply in_or_app; left. exact Hin.
      * now apply search_number_fraction.
    + unfold float_of_match. apply Qred_correct.
  - intros Hpoint. eexists. split.
    + eapply (clean_price_of_match L _ _ d); [|exact Hd0|].
      * apply in_or_app; right. apply in_or_app; left. exact Hin.
      * apply search_number_first; try assumption.
        destruct rest as [|c rest']; [exact I|]. split; [exact Hr|exact Hpoint].
    + apply float_of_match_integer.
Qed.

Lemma price_is_first_number_witness :
  (exists q, clean_price Fragment.fragment (Str (Py.lit "49.99" ++ [20803%N])) = Ok (Float q) /\
             (q == 4999 # 100)%Q) /\
  (exists q, clean_price Fragment.fragment (yen "1,299.00") = Ok (Float q) /\ (q == 1)%Q).
Proof.
  split.
  - destruct (price_is_first_number Fragment.fragment [] (Py.lit "49") (Py.lit "99")
                [20803%N]) as [(q & Hq & Hv) _]; try reflexivity; [discriminate|].
    exists q. split; [exact Hq|]. rewrite Hv. reflexivity.
  - destruct (price_is_first_number Fragment.fragment [165%N] (Py.lit "1") []
                (Py.lit ",299.00")) as [_ H]; try reflexivity; [discriminate|].
    destruct H as (q & Hq & Hv); [discriminate|].
    exists q. split; [exact Hq|exact Hv].
Defined.

(** X2. A price is never negative and never missing: whenever the price
    parser returns, it returns a float that is zero or more.  A minus
    sign in front of the number is not part of what is read. *)
Theorem clean_price_never_negative (L : pylib) (v c : cell) :
  clean_price L v = Ok c -> exists q, c = Float q /\ (0 <= q)%Q.
Proof.
  unfold clean_price. destruct (isna v) as [na|e]; [|discriminate].
  cbn [mbind result_bind].
  destruct (na || eq_str v Names.unknown || eq_str v Names.free).
  - intros [= <-]. exists 0%Q. split; [reflexivity|apply Qle_refl].
  - destruct (search_number (py_str L v)) as [m|].
    + intros [= <-]. eexists. split; [reflexivity|apply float_of_match_nonneg].
    + intros [= <-]. exists 0%Q. split; [reflexivity|apply Qle_refl].
Qed.

Lemma clean_price_never_negative_witness :
  exists q, Float (5 # 1) = Float q /\ (0 <= q)%Q.
Proof.
  apply (clean_price_never_negative Fragment.fragment (Str (Py.lit "-5"))).
  vm_compute. reflexivity.
Defined.

Lemma zero_of_ascii (m : N) : (m < 10)%N -> Py.zero_of (48 + m)%N = Some 48%N.
Proof.
  intros Hm. unfold Py.zero_of, Py.decimal_zeros. cbn [List.find].
  replace ((48 <=? 48 + m)%N && (48 + m <? 48 + 10)%N) with true; [reflexivity|].
  symmetry. apply andb_true_intro. split; [apply N.leb_le|apply N.ltb_lt]; lia.
Qed.

Lemma ascii_digit (m : N) :
  (m < 10)%N -> Py.isdigit (48 + m)%N = true /\ Py.digit_val (48 + m)%N = m.
Proof.
  intros Hm. unfold Py.isdigit, Py.digit_val. rewrite (zero_of_ascii m Hm).
  split; [reflexivity|lia].
Qed.

Lemma mod_ten_digit (n : N) :
  Py.isdigit (48 + n mod 10)%N = true /\ Py.digit_val (48 + n mod 10)%N = (n mod 10)%N.
Proof.
  apply ascii_digit. apply N.mod_upper_bound. discriminate.
Qed.

Lemma digits_fuel_value (fuel : nat) (n : N) (acc : Py.str) :
  (n < 2 ^ N.of_nat fuel)%N ->
  fold_left (fun a c => (10 * a + Py.digit_val c)%N) (Py.digits_fuel fuel n acc) 0%N =
  fold_left (fun a c => (10 * a + Py.digit_val c)%N) acc n.
Proof.
  revert n acc. induction fuel as [|f IH]; intros n acc Hn.
  - simpl in *. assert (n = 0%N) by lia. now subst.
  - cbn [Py.digits_fuel].
    assert (Hv : Py.digit_val (48 + n mod 10)%N = (n mod 10)%N) by apply mod_ten_digit.
    destruct (N.eqb_spec (n / 10)%N 0%N) as [Hz|Hnz].
    + cbn [fold_left]. rewrite Hv. f_equal.
      pose proof (N.Div0.div_mod n 10). lia.
    + rewrite IH.
      * cbn [fold_left]. rewrite Hv. f_equal.
        pose proof (N.Div0.div_mod n 10). lia.
      * rewrite Nat2N.inj_succ, N.pow_succ_r' in Hn.
        apply N.Div0.div_lt_upper_bound. lia.
Qed.

Lemma int_of_str_of_N (n : N) : Py.int_of_digits (Py.str_of_N n) = n.
Proof.
  unfold Py.int_of_digits, Py.str_of_N. rewrite digits_fuel_value; [reflexivity|].
  rewrite Nat2N.inj_succ, N2Nat.id.
  destruct n as [|p]; [reflexivity|].
  apply N.log2_spec. reflexivity.
Qed.

Lemma digits_fuel_digits (fuel : nat) (n : N) (acc : Py.str) :
  all_digits acc -> all_digits (Py.digits_fuel fuel n acc).
Proof.
  unfold all_digits. revert n acc. induction fuel as [|f IH]; intros n acc Hacc; [exact Hacc|].
  cbn [Py.digits_fuel].
  assert (Hd : forallb Py.isdigit ((48 + n mod 10)%N :: acc) = true).
  { cbn [forallb]. rewrite Hacc, andb_true_r. apply mod_ten_digit. }
  destruct (N.eqb (n / 10)%N 0%N); [exact Hd|]. now apply IH.
Qed.

Lemma digits_fuel_not_nil (fuel : nat) (n : N) (acc : Py.str) :
  acc <> [] -> Py.digits_fuel fuel n acc <> [].
Proof.
  revert n acc. induction fuel as [|f IH]; intros n acc Hacc; [exact Hacc|].
  cbn [Py.digits_fuel]. destruct (N.eqb (n / 10)%N 0%N); [discriminate|].
  apply IH. discriminate.
Qed.

Lemma str_of_N_digits (n : N) : all_digits (Py.str_of_N n) /\ Py.str_of_N n <> [].
Proof.
  unfold Py.str_of_N. split.
  - apply digits_fuel_digits. reflexivity.
  - cbn [Py.digits_fuel]. destruct (N.eqb (n / 10)%N 0%N); [discriminate|].
    apply digits_fuel_not_nil. discriminate.
Qed.

(** X3. A price cell that holds an integer loses its sign: the parser reads
    the digits of its decimal representation, so -15 becomes 15.0. *)
Theorem integer_price_loses_sign (L : pylib) (z : Z) :
  exists q, clean_price L (Int z) = Ok (Float q) /\ (q == Z.abs z # 1)%Q.
Proof.
  unfold clean_price, py_str, eq_str, isna. cbn [mbind result_bind orb].
  destruct (str_of_N_digits (Z.to_N (Z.abs z))) as [Hd Hne].
  assert (Hs : exists sign, no_digit sign /\
                 Py.str_of_Z z = sign ++ Py.str_of_N (Z.to_N (Z.abs z)) ++ []).
  { destruct z as [|p|p].
    - exists []. split; [reflexivity|]. now rewrite app_nil_r.
    - exists []. split; [reflexivity|]. now rewrite app_nil_r.
    - exists [45%N]. split; [reflexivity|]. simpl. now rewrite app_nil_r. }
  destruct Hs as (sign & Hsign & ->).
  rewrite search_number_first by (try assumption; exact I).
  eexists. split; [reflexivity|].
  rewrite float_of_match_integer, int_of_str_of_N.
  rewrite Z2N.id by lia. reflexivity.
Qed.

Lemma contains_char (c : Py.char) (s : Py.str) :
  Py.contains [c] s = true <-> In c s.
Proof.
  induction s as [|d s IH]; simpl.
  - split; [discriminate|intros []].
  - rewrite andb_true_r. rewrite orb_true_iff, IH, N.eqb_eq. intuition congruence.
Qed.

Lemma search_percent_without (run s : Py.str) :
  ~ In 37%N s -> search_percent_from run s = None.
Proof.
  revert run. induction s as [|c s IH]; intros run Hin; simpl; [reflexivity|].
  destruct (Py.isdigit c).
  - apply IH. intros H. apply Hin. now right.
  - destruct (N.eqb_spec c 37) as [->|Hne]; [exfalso; apply Hin; now left|].
    simpl. apply IH. intros H. apply Hin. now right.
Qed.

Lemma search_percent_digits (run ds post : Py.str) :
  all_digits ds -> run ++ ds <> [] ->
  search_percent_from run (ds ++ 37%N :: post) = Some (rev run ++ ds).
Proof.
  unfold all_digits. revert run. induction ds as [|d ds IH]; intros run Hd Hne.
  - rewrite app_nil_r in *. simpl.
    destruct run as [|r run]; [contradiction|]. reflexivity.
  - simpl in Hd. apply andb_prop in Hd as [Hd0 Hd]. simpl. rewrite Hd0.
    rewrite IH; [|exact Hd|discriminate].
    simpl. now rewrite <- app_assoc.
Qed.

Lemma search_percent_skip (before s : Py.str) (run : Py.str) :
  ~ In 37%N before -> ends_digits (rev before) -> (before = [] -> run = []) ->
  search_percent_from run (before ++ s) = search_percent_from [] s.
Proof.
  revert run. induction before as [|c before IH]; intros run Hin Hend Hrun.
  - now rewrite Hrun.
  - simpl.
    assert (Hin' : ~ In 37%N before) by (intros H; apply Hin; now right).
    assert (Hc : c <> 37%N) by (intros ->; apply Hin; now left).
    destruct before as [|b before].
    + simpl in Hend. rewrite Hend. apply N.eqb_neq in Hc. rewrite Hc. reflexivity.
    + assert (Hend' : ends_digits (rev (b :: before))).
      { unfold ends_digits in *. simpl in *.
        destruct (rev before ++ [b]) eqn:E; [destruct (rev before); discriminate|exact Hend]. }
      destruct (Py.isdigit c).
      * apply IH; [exact Hin'|exact Hend'|discriminate].
      * apply N.eqb_neq in Hc. rewrite Hc. simpl.
        apply IH; [exact Hin'|exact Hend'|discriminate].
Qed.

(** X4. The rating read from a string is the digit run that stands directly
    before the first percent sign, and nothing else of the string: a
    decimal rating such as 92.5% is read as 5.0, and the result is not
    held to the range 0 to 100. *)
Theorem rating_is_digits_before_percent (before ds after : Py.str) :
  ~ In 37%N before -> ends_digits (rev before) ->
  ds <> [] -> all_digits ds ->
  clean_rating (Str (before ++ ds ++ 37%N :: after)) =
  Ok (Float (Z.of_N (Py.int_of_digits ds) # 1)).
Proof.
  intros Hin Hend Hne Hd.
  assert (Hp : In 37%N (before ++ ds ++ 37%N :: after)).
  { apply in_or_app; right. apply in_or_app; right. now left. }
  assert (Hu : Py.str_eqb (before ++ ds ++ 37%N :: after) Names.unknown = false).
  { apply str_eqb_neq. intros E. rewrite E in Hp. simpl in Hp.
    destruct Hp as [H|[H|[]]]; discriminate. }
  unfold clean_rating, eq_str, isna. cbn [mbind result_bind orb].
  rewrite Hu. change (Py.lit "%") with [37%N].
  destruct (Py.contains [37%N] _) eqn:Hc;
    [|apply contains_char in Hp; exfalso;
      assert (Habs : true = false) by (rewrite <- Hp; exact Hc); discriminate Habs].
  unfold search_percent. rewrite search_percent_skip; [|exact Hin|exact Hend|reflexivity].
  rewrite search_percent_digits; [reflexivity|exact Hd|].
  simpl. exact Hne.
Qed.

Lemma rating_is_digits_before_percent_witness :
  clean_rating (Str (Names.rating_word ++ Py.lit " 92.5% (1,000)")) = Ok (Float 5).
Proof.
  apply (rating_is_digits_before_percent (Names.rating_word ++ Py.lit " 92.") (Py.lit "5")
           (Py.lit " (1,000)")); try reflexivity; [|discriminate].
  intros H. simpl in H. repeat (destruct H as [H|H]; [discriminate|]). exact H.
Defined.

(** X5. A rating string without a percent sign gives no rating, whatever
    digits it holds. *)
Theorem rating_needs_percent_sign (s : Py.str) :
  ~ In 37%N s -> clean_rating (Str s) = Ok Null.
Proof.
  intros Hin. unfold clean_rating, eq_str, isna. cbn [mbind result_bind orb].
  destruct (Py.str_eqb s Names.unknown); [reflexivity|].
  change (Py.lit "%") with [37%N].
  destruct (Py.contains [37%N] s) eqn:E; [|reflexivity].
  apply contains_char in E. contradiction.
Qed.

Lemma rating_needs_percent_sign_witness : clean_rating (Str (Py.lit "92")) = Ok Null.
Proof.
  apply rating_needs_percent_sign.
  intros H. simpl in H. repeat (destruct H as [H|H]; [discriminate|]). exact H.
Defined.

Lemma in_remove_char (c d : Py.char) (s : Py.str) :
  In d (Py.remove_char c s) <-> In d s /\ d <> c.
Proof.
  unfold Py.remove_char. rewrite List.filter_In, negb_true_iff, N.eqb_neq. tauto.
Qed.

Lemma in_piece_in_join (sep : Py.str) (l : list Py.str) (p : Py.str) (c : Py.char) :
  In p l -> In c p -> In c (Py.join sep l).
Proof.
  induction l as [|q l IH]; intros Hp Hc; [destruct Hp|].
  destruct Hp as [->|Hp].
  - destruct l; simpl; [exact Hc|]. apply in_or_app. now left.
  - destruct l as [|q' l]; [destruct Hp|].
    change (Py.join sep (q :: q' :: l)) with (q ++ sep ++ Py.join sep (q' :: l)).
    apply in_or_app; right. apply in_or_app; right. now apply IH.
Qed.

Lemma in_strip (s : Py.str) (c : Py.char) : In c (Py.strip s) -> In c s.
Proof.
  destruct (strip_spec s) as (before & after & Hs & _).
  intros H. rewrite Hs. apply in_or_app; right. apply in_or_app. now left.
Qed.

Lemma strip_ends (s : Py.str) :
  match Py.strip s with
  | c :: _ => Py.isspace c = false /\ Py.isspace (List.last (Py.strip s) c) = false
  | [] => True
  end.
Proof. destruct (strip_spec s) as (before & after & _ & _ & _ & H). exact H. Qed.

(** X6. What a tag can look like: none of the two brackets, the two quote
    characters and the comma occurs in it, and it neither starts nor
    ends with white space. *)
Theorem tags_are_clean (v : cell) (l : list Py.str) (t : Py.str) :
  clean_tags v = Ok (PyList l) -> In t l ->
  (forall c, In c t -> ~ In c [91; 93; 39; 34; 44]%N) /\
  match t with
  | c :: _ => Py.isspace c = false /\ Py.isspace (List.last t c) = false
  | [] => True
  end.
Proof.
  unfold clean_tags. destruct (isna v) as [na|e]; [|discriminate].
  cbn [mbind result_bind].
  destruct (na || eq_str v Names.unknown || eq_str v (Py.lit "[]")).
  { intros [= <-] []. }
  destruct v as [| | | |s| |]; try (intros [= <-] []).
  destruct (without_delimiters s) as [|c0 s'] eqn:E; [intros [= <-] []|].
  rewrite <- E. intros [= <-] Hin.
  apply in_map_iff in Hin as (p & <- & Hp). split; [|apply strip_ends].
  intros c Hc. apply in_strip in Hc.
  assert (Hsep : c <> 44%N).
  { pose proof (split_pieces_free 44%N (without_delimiters s)) as Hfree.
    rewrite List.Forall_forall in Hfree. intros ->. exact (Hfree p Hp Hc). }
  assert (Hw : In c (without_delimiters s)).
  { rewrite <- (join_split 44%N (without_delimiters s)).
    eapply in_piece_in_join; eassumption. }
  unfold without_delimiters in Hw.
  repeat (apply in_remove_char in Hw as [Hw ?]).
  simpl. intuition congruence.
Qed.

Lemma tags_are_clean_witness :
  (forall c, In c (Py.lit "Open World") -> ~ In c [91; 93; 39; 34; 44]%N) /\
  Py.isspace 79%N = false /\ Py.isspace 100%N = false.
Proof.
  apply (tags_are_clean (Str (Py.lit "['Action', ' Open World ']"))
           [Py.lit "Action"; Py.lit "Open World"] (Py.lit "Open World")).
  - reflexivity.
  - right. left. reflexivity.
Defined.

(** ** Dates *)

Lemma search_year_sound (s y : Py.str) :
  search_year s = Some y ->
  length y = 4%nat /\ all_digits y /\ exists before after, s = before ++ y ++ after.
Proof.
  induction s as [|a s IH]; [discriminate|].
  cbn [search_year]. destruct s as [|b [|c [|d r]]]; try discriminate.
  destruct (Py.isdigit a && Py.isdigit b && Py.isdigit c && Py.isdigit d) eqn:E.
  - intros [= <-]. split; [reflexivity|]. split.
    + unfold all_digits. simpl. now rewrite andb_true_r, !andb_assoc.
    + exists [], r. reflexivity.
  - intros H. destruct (IH H) as (Hl & Hd & before & after & Hs).
    split; [exact Hl|]. split; [exact Hd|].
    exists (a :: before), after. simpl. now rewrite Hs.
Qed.

(** The match of the year pattern is the first place of the string where
    four digits stand in a row. *)
Lemma search_year_first (s y : Py.str) :
  search_year s = Some y ->
  exists before after,
    s = before ++ y ++ after /\
    forall p z q, s = p ++ z ++ q -> length z = 4%nat -> all_digits z ->
                  (length before <= length p)%nat.
Proof.
  induction s as [|a s IH]; [discriminate|].
  cbn [search_year]. destruct s as [|b [|c [|d r]]]; try discriminate.
  destruct (Py.isdigit a && Py.isdigit b && Py.isdigit c && Py.isdigit d) eqn:E.
  - intros [= <-]. exists [], r. split; [reflexivity|]. intros. simpl. lia.
  - intros H. destruct (IH H) as (before & after & Hs & Hfirst).
    exists (a :: before), after. split; [simpl; now rewrite Hs|].
    intros p z q Hpzq Hlen Hz. destruct p as [|a' p].
    + exfalso. destruct z as [|z1 [|z2 [|z3 [|z4 [|z5 z]]]]]; try discriminate Hlen.
      simpl in Hpzq. injection Hpzq as -> -> -> -> _.
      unfold all_digits in Hz. simpl in Hz. rewrite andb_true_r, !andb_assoc in Hz.
      rewrite Hz in E. discriminate E.
    + simpl in Hpzq. injection Hpzq as _ Hpzq. simpl.
      apply le_n_S. exact (Hfirst p z q Hpzq Hlen Hz).
Qed.

(** X7. Of a date that does not begin in the form year-month-day only the
    year is read: the first four digits in a row, whatever stands around
    them, so that the date is the one the four digits alone give. *)
Theorem date_keeps_only_year (L : pylib) (s y : Py.str) :
  match_ymd s = false ->
  search_year s = Some y ->
  clean_date L (Str s) = clean_date L (Str y) /\
  length y = 4%nat /\ all_digits y /\
  exists before after,
    s = before ++ y ++ after /\
    forall p z q, s = p ++ z ++ q -> length z = 4%nat -> all_digits z ->
                  (length before <= length p)%nat.
Proof.
  intros Hymd Hy.
  split; [|destruct (search_year_sound s y Hy) as (Hl & Hd & _);
           split; [exact Hl|split; [exact Hd|now apply search_year_first]]].
  destruct (search_year_sound s y Hy) as (Hl & Hd & _).
  destruct y as [|a [|b [|c [|d [|e y]]]]]; try discriminate Hl.
  assert (Hu : Py.str_eqb s Names.unknown = false).
  { apply str_eqb_neq. intros ->. discriminate Hy. }
  unfold clean_date, py_str, eq_str, isna. cbn [mbind result_bind orb].
  rewrite Hu, Hymd, Hy.
  replace (Py.str_eqb [a; b; c; d] Names.unknown) with false
    by (symmetry; apply str_eqb_neq; discriminate).
  cbn [match_ymd search_year].
  unfold all_digits in Hd. simpl in Hd. rewrite andb_true_r, !andb_assoc in Hd.
  now rewrite Hd.
Qed.

Lemma date_keeps_only_year_witness :
  clean_date Fragment.fragment
    (Str (Py.lit "2021" ++ [24180%N] ++ Py.lit "3" ++ [26376%N] ++ Py.lit "15" ++ [26085%N])) =
  Ok (Timestamp {| ts_year := 2021; ts_month := 1; ts_day := 1 |}).
Proof.
  destruct (date_keeps_only_year Fragment.fragment
              (Py.lit "2021" ++ [24180%N] ++ Py.lit "3" ++ [26376%N] ++ Py.lit "15"
                 ++ [26085%N])
              (Py.lit "2021") eq_refl eq_refl) as [H _].
  rewrite H. reflexivity.
Defined.

(** * Further properties of [clean_data] *)

(** ** Columns written, warnings shown *)

Section Writes.
Context {I : world -> Prop}.
Variable df : ref.
Variable T : Py.str -> Prop.
Variable F : field -> Prop.
Hypothesis HI : write_inv df T F I.

Lemma writes_setitem (name : Py.str) (s : Series) :
  T name -> stable I (setitem df name s).
Proof.
  intros Hname w H. unfold setitem, read, write, mbind, M_bind.
  destruct (heap w !! df) as [d|] eqn:E; simpl; [|exact H].
  now apply (winv_setitem df T F I HI).
Qed.

Lemma writes_warning (f : field) : F f -> stable I (warning f).
Proof. intros Hf w H. now apply (winv_warning df T F I HI). Qed.

Lemma writes_assign_parsed (dst src : Py.str) (f : cell -> result cell) :
  T dst -> stable I (assign_parsed df dst src f).
Proof.
  intros Hdst. unfold assign_parsed.
  apply stable_bind; [apply stable_getitem|intro].
  apply stable_bind; [apply stable_lift|intro]. now apply writes_setitem.
Qed.

Lemma writes_default (dst : Py.str) (v : cell) (fld : field) :
  T dst -> F fld -> stable I (s ← broadcast df v; setitem df dst s;; warning fld).
Proof.
  intros Hdst Hfld.
  apply stable_bind; [apply stable_broadcast|intro].
  apply stable_bind; [now apply writes_setitem|intro]. now apply writes_warning.
Qed.

Lemma writes_clean_price_columns (L : pylib) :
  T Names.original_price -> T Names.discount_price -> T Names.price -> F Price ->
  stable I (clean_price_columns L df).
Proof.
  intros Ho Hd Hp Hf. unfold clean_price_columns.
  apply stable_bind; [apply stable_has_column|intro].
  apply stable_bind; [now apply stable_when, writes_assign_parsed|intro].
  apply stable_bind; [apply stable_has_column|intro].
  apply stable_bind; [now apply stable_when, writes_assign_parsed|intro].
  apply stable_bind; [apply stable_has_column|intros has_discount].
  apply stable_bind; [apply stable_has_column|intros has_original].
  destruct has_discount, has_original; simpl.
  - apply stable_bind; [apply stable_getitem|intro].
    apply stable_bind; [apply stable_getitem|intro]. now apply writes_setitem.
  - apply stable_bind; [apply stable_getitem|intro]. now apply writes_setitem.
  - apply stable_bind; [apply stable_getitem|intro]. now apply writes_setitem.
  - apply stable_bind; [apply stable_columns_where|intros [|c cs]].
    + now apply writes_default.
    + now apply writes_assign_parsed.
Qed.

Lemma writes_fill_from_basic (L : pylib) (dst basic : Py.str)
    (missing : Series -> M (list bool)) (f : cell -> result cell) :
  T dst -> (forall s, stable I (missing s)) ->
  stable I (fill_from_basic L df dst basic missing f).
Proof.
  intros Hdst Hmissing. unfold fill_from_basic.
  apply stable_bind; [apply stable_getitem|intro].
  apply stable_bind; [apply Hmissing|intro].
  apply stable_bind; [apply stable_getitem|intro].
  apply stable_bind; [apply stable_lift|intro].
  apply stable_bind; [apply stable_getitem|intro].
  apply stable_bind; [apply Hmissing|intro].
  destruct (loc_accepts L _ _ _); [now apply writes_setitem|apply stable_raise].
Qed.

Lemma writes_resolve_field (L : pylib) (dst detailed basic : Py.str) (synonym : Py.str -> bool)
    (missing : Series -> M (list bool)) (f : cell -> result cell)
    (default : cell) (fld : field) :
  T dst -> F fld -> (forall s, stable I (missing s)) ->
  stable I (resolve_field L df dst detailed basic synonym missing f default fld).
Proof.
  intros Hdst Hfld Hmissing. unfold resolve_field.
  apply stable_bind; [apply stable_has_column|intro].
  apply stable_bind; [now apply stable_when, writes_assign_parsed|intro].
  apply stable_bind; [apply stable_has_column|intros has_basic].
  apply stable_bind; [apply stable_has_column|intros has_dst].
  destruct has_basic, has_dst; simpl;
    try (now apply writes_fill_from_basic); try (now apply writes_assign_parsed);
    (apply stable_bind; [apply stable_columns_where|intros [|c cs]];
     [now apply writes_default|now apply writes_assign_parsed]).
Qed.

Lemma writes_add_release_year :
  T Names.release_year -> stable I (add_release_year df).
Proof.
  intros Hy. unfold add_release_year.
  apply stable_bind; [apply stable_has_column|intro].
  apply stable_when.
  apply stable_bind; [apply stable_getitem|intro].
  apply stable_bind; [apply stable_lift|intro]. now apply writes_setitem.
Qed.
End Writes.

Lemma writes_clean_steps (I : world -> Prop) (df : ref) (L : pylib) :
  write_inv df (fun n => In n written_names) (fun _ => True) I ->
  stable I (clean_price_columns L df;; clean_rating_columns L df;;
            clean_tags_columns L df;; clean_date_columns L df;;
            add_release_year df;; mret df).
Proof.
  intros HI.
  apply stable_bind;
    [apply (writes_clean_price_columns df _ _ HI); simpl; tauto|intro].
  apply stable_bind;
    [apply (writes_resolve_field df _ _ HI);
       [simpl; tauto|exact Logic.I|apply stable_isna_mask]|intro].
  apply stable_bind;
    [apply (writes_resolve_field df _ _ HI);
       [simpl; tauto|exact Logic.I|apply stable_empty_mask]|intro].
  apply stable_bind;
    [apply (writes_resolve_field df _ _ HI);
       [simpl; tauto|exact Logic.I|apply stable_isna_mask]|intro].
  apply stable_bind;
    [apply (writes_add_release_year df _ _ HI); simpl; tauto|intro].
  apply stable_ret.
Qed.

(** The steps that follow the price step, and those that follow the
    rating step. *)
Lemma writes_after_rating (I : world -> Prop) (df : ref) (L : pylib)
    (T : Py.str -> Prop) (F : field -> Prop) :
  write_inv df T F I ->
  T Names.tag_list -> T Names.release_time -> T Names.release_year ->
  F Tags -> F ReleaseDate ->
  stable I (clean_tags_columns L df;; clean_date_columns L df;;
            add_release_year df;; mret df).
Proof.
  intros HI Ht Hd Hy Ft Fd.
  apply stable_bind;
    [apply (writes_resolve_field df _ _ HI); [exact Ht|exact Ft|apply stable_empty_mask]
    |intro].
  apply stable_bind;
    [apply (writes_resolve_field df _ _ HI); [exact Hd|exact Fd|apply stable_isna_mask]
    |intro].
  apply stable_bind; [now apply (writes_add_release_year df _ _ HI)|intro].
  apply stable_ret.
Qed.

Lemma writes_after_price (I : world -> Prop) (df : ref) (L : pylib)
    (T : Py.str -> Prop) (F : field -> Prop) :
  write_inv df T F I ->
  T Names.rating -> T Names.tag_list -> T Names.release_time -> T Names.release_year ->
  F Rating -> F Tags -> F ReleaseDate ->
  stable I (clean_rating_columns L df;; clean_tags_columns L df;; clean_date_columns L df;;
            add_release_year df;; mret df).
Proof.
  intros HI Hr Ht Hd Hy Fr Ft Fd.
  apply stable_bind;
    [apply (writes_resolve_field df _ _ HI); [exact Hr|exact Fr|apply stable_isna_mask]
    |intro].
  now apply (writes_after_rating I df L T F).
Qed.

Lemma column_kept_inv (df : ref) (name : Py.str) (v : option Series) :
  write_inv df (fun n => n <> name) (fun _ => True)
    (fun w => column_at w df name = v).
Proof.
  split.
  - intros w d n s H Hd Hn. unfold column_at in *. rewrite Hd in H. simpl.
    rewrite list_lookup_insert_eq by (now apply lookup_lt_Some in Hd).
    simpl. now rewrite get_column_set_column_ne.
  - intros w f H _. exact H.
Qed.

(** X8. [clean_data] assigns to seven columns of the copy and to no other:
    every other column of the input is in the copy as it was, cell by
    cell, whether the run returns or raises, and no column under another
    name appears. *)
Theorem other_columns_are_kept (L : pylib) (w : world) (df0 : ref) (d : DataFrame)
    (name : Py.str) :
  heap w !! df0 = Some d ->
  ~ In name written_names ->
  column_at (world_of (clean_data L df0 w)) (length (heap w)) name =
  get_column (columns d) name.
Proof.
  intros Hd Hname. rewrite clean_data_unfold, Hd. cbv zeta.
  apply (writes_clean_steps (fun w' => column_at w' (length (heap w)) name = _)).
  - pose proof (column_kept_inv (length (heap w)) name (get_column (columns d) name)) as H.
    split.
    + intros w0 d0 n s H0 Hd0 Hn. apply (winv_setitem _ _ _ _ H); auto.
      intros ->. contradiction.
    + intros w0 f H0 _. exact H0.
  - unfold column_at. simpl. rewrite lookup_app_r by lia. now rewrite Nat.sub_diag.
Qed.

Lemma other_columns_are_kept_witness :
  column_at (world_of (clean_data Fragment.fragment 0 (start frame_three_games))) 1
    Names.game_name = Some [Str (Py.lit "A"); Str (Py.lit "B"); Str (Py.lit "C")].
Proof.
  apply (other_columns_are_kept Fragment.fragment (start frame_three_games) 0
           frame_three_games Names.game_name); [reflexivity|].
  intros H. simpl in H. repeat (destruct H as [H|H]; [discriminate|]). exact H.
Defined.

Lemma notices_inv (df : ref) (ns : list field) :
  write_inv df (fun _ => True) (fun _ => False) (fun w => notices w = ns).
Proof. split; [intros w d name s H _ _; exact H|intros w f _ []]. Qed.

Lemma quiet_of_stable {A} (m : M A) :
  (forall ns, stable (fun w => notices w = ns) m) -> quiet m.
Proof. intros H w. now apply (H (notices w)). Qed.

Lemma quiet_ret {A} (a : A) : quiet (mret a : M A).
Proof. intros w. reflexivity. Qed.

Lemma quiet_has_column (df : ref) (name : Py.str) : quiet (has_column df name).
Proof. apply quiet_of_stable. intros ns. apply stable_has_column. Qed.

Lemma quiet_columns_where (df : ref) (p : Py.str -> bool) : quiet (columns_where df p).
Proof. apply quiet_of_stable. intros ns. apply stable_columns_where. Qed.

Lemma quiet_getitem (df : ref) (name : Py.str) : quiet (getitem df name).
Proof. apply quiet_of_stable. intros ns. apply stable_getitem. Qed.

Lemma quiet_broadcast (df : ref) (v : cell) : quiet (broadcast df v).
Proof. apply quiet_of_stable. intros ns. apply stable_broadcast. Qed.

Lemma quiet_setitem (df : ref) (name : Py.str) (s : Series) : quiet (setitem df name s).
Proof.
  apply quiet_of_stable. intros ns.
  now apply (writes_setitem df _ _ (notices_inv df ns)).
Qed.

Lemma quiet_assign_parsed (df : ref) (dst src : Py.str) (f : cell -> result cell) :
  quiet (assign_parsed df dst src f).
Proof.
  apply quiet_of_stable. intros ns.
  now apply (writes_assign_parsed df _ _ (notices_inv df ns)).
Qed.

Lemma quiet_when (b : bool) (m : M unit) : quiet m -> quiet (when b m).
Proof. intros H. destruct b; [exact H|apply quiet_ret]. Qed.

Lemma quiet_isna_mask (s : Series) : quiet (isna_mask s).
Proof. apply quiet_ret. Qed.

Lemma quiet_empty_mask (s : Series) : quiet (empty_mask s).
Proof. apply quiet_of_stable. intros ns. apply stable_empty_mask. Qed.

Lemma quiet_fill_from_basic (L : pylib) (df : ref) (dst basic : Py.str)
    (missing : Series -> M (list bool)) (f : cell -> result cell) :
  (forall s, quiet (missing s)) -> quiet (fill_from_basic L df dst basic missing f).
Proof.
  intros Hm. apply quiet_of_stable. intros ns.
  apply (writes_fill_from_basic df _ _ (notices_inv df ns)); [exact Logic.I|].
  intros s w Hw. now rewrite Hm.
Qed.

Lemma quiet_add_release_year (df : ref) : quiet (add_release_year df).
Proof.
  apply quiet_of_stable. intros ns.
  now apply (writes_add_release_year df _ _ (notices_inv df ns)).
Qed.

Lemma quiet_or_quiet {A} (Q : list field -> world -> Prop) (m : M A) :
  quiet m -> quiet_or Q m.
Proof. intros H w. left. apply H. Qed.

Lemma quiet_or_bind {A B} (Q : list field -> world -> Prop) (m : M A) (k : A -> M B) :
  quiet m -> (forall a, quiet_or Q (k a)) -> quiet_or Q (m ≫= k).
Proof.
  intros Hm Hk w. unfold mbind, M_bind. specialize (Hm w).
  destruct (m w) as [a w1|e w1]; simpl in *.
  - rewrite <- Hm. apply Hk.
  - now left.
Qed.

Lemma default_is_defaulted (df : ref) (dst : Py.str) (default : cell) (fld : field) :
  quiet_or (defaulted df dst default fld)
    (s ← broadcast df default; setitem df dst s;; warning fld).
Proof.
  intros w.
  unfold broadcast, setitem, warning, read, write, mbind, M_bind, mret, M_ret.
  destruct (heap w !! df) as [d|] eqn:Hd; simpl; [|now left].
  rewrite Hd. simpl. right. split; [reflexivity|].
  eexists. split.
  - simpl. apply list_lookup_insert_eq. now apply lookup_lt_Some in Hd.
  - simpl. apply get_column_set_column.
Qed.

(** A field step shows no warning unless it ends with the default in
    the column and the warning shown last. *)
Lemma resolve_field_quiet_or_default (L : pylib) (df : ref) (dst detailed basic : Py.str)
    (synonym : Py.str -> bool) (missing : Series -> M (list bool))
    (f : cell -> result cell) (default : cell) (fld : field) :
  (forall s, quiet (missing s)) ->
  quiet_or (defaulted df dst default fld)
    (resolve_field L df dst detailed basic synonym missing f default fld).
Proof.
  intros Hm. unfold resolve_field.
  apply quiet_or_bind; [apply quiet_has_column|intro].
  apply quiet_or_bind; [apply quiet_when, quiet_assign_parsed|intro].
  apply quiet_or_bind; [apply quiet_has_column|intros has_basic].
  apply quiet_or_bind; [apply quiet_has_column|intros has_dst].
  destruct has_basic, has_dst; simpl;
    try (apply quiet_or_quiet; now apply quiet_fill_from_basic);
    try (apply quiet_or_quiet; now apply quiet_assign_parsed);
    (apply quiet_or_bind; [apply quiet_columns_where|intros [|c cs]];
     [apply default_is_defaulted|apply quiet_or_quiet, quiet_assign_parsed]).
Qed.

Lemma clean_price_columns_warns (L : pylib) (df : ref) :
  warns_at_most Price (clean_price_columns L df).
Proof.
  unfold warns_at_most, clean_price_columns.
  apply quiet_or_bind; [apply quiet_has_column|intro].
  apply quiet_or_bind; [apply quiet_when, quiet_assign_parsed|intro].
  apply quiet_or_bind; [apply quiet_has_column|intro].
  apply quiet_or_bind; [apply quiet_when, quiet_assign_parsed|intro].
  apply quiet_or_bind; [apply quiet_has_column|intros has_discount].
  apply quiet_or_bind; [apply quiet_has_column|intros has_original].
  destruct has_discount, has_original; simpl.
  - apply quiet_or_bind; [apply quiet_getitem|intro].
    apply quiet_or_bind; [apply quiet_getitem|intro].
    apply quiet_or_quiet, quiet_setitem.
  - apply quiet_or_bind; [apply quiet_getitem|intro]. apply quiet_or_quiet, quiet_setitem.
  - apply quiet_or_bind; [apply quiet_getitem|intro]. apply quiet_or_quiet, quiet_setitem.
  - apply quiet_or_bind; [apply quiet_columns_where|intros [|c cs]].
    + intros w. destruct (default_is_defaulted df Names.price (Float 0) Price w) as [H|[H _]];
        [now left|now right].
    + apply quiet_or_quiet, quiet_assign_parsed.
Qed.

Lemma shows_within_one {A} (fld : field) (m : M A) :
  quiet_or (fun ns w' => notices w' = ns ++ [fld]) m -> shows_within [fld] m.
Proof.
  intros H w. destruct (H w) as [E|E].
  - exists []. rewrite app_nil_r. split; [exact E|apply sublist_nil_l].
  - exists [fld]. split; [exact E|reflexivity].
Qed.

Lemma shows_within_defaulted {A} (df : ref) (dst : Py.str) (default : cell)
    (fld : field) (m : M A) :
  quiet_or (defaulted df dst default fld) m -> shows_within [fld] m.
Proof.
  intros H. apply shows_within_one. intros w. destruct (H w) as [E|[E _]]; auto.
Qed.

Lemma shows_within_quiet {A} (m : M A) : quiet m -> shows_within [] m.
Proof. intros H w. exists []. rewrite app_nil_r. split; [apply H|constructor]. Qed.

Lemma shows_within_bind {A B} (l1 l2 : list field) (m : M A) (k : A -> M B) :
  shows_within l1 m -> (forall a, shows_within l2 (k a)) ->
  shows_within (l1 ++ l2) (m ≫= k).
Proof.
  intros Hm Hk w. unfold mbind, M_bind. destruct (Hm w) as (e1 & E1 & S1).
  destruct (m w) as [a w1|e w1]; simpl in *.
  - destruct (Hk a w1) as (e2 & E2 & S2). exists (e1 ++ e2). split.
    + rewrite E2, E1. now rewrite app_assoc.
    + now apply sublist_app.
  - exists e1. split; [exact E1|now apply sublist_inserts_r].
Qed.

Lemma first_steps_warnings (L : pylib) (df : ref) :
  shows_within [Price; Rating; Tags]
    (clean_price_columns L df;; clean_rating_columns L df;; clean_tags_columns L df).
Proof.
  apply (shows_within_bind [Price] [Rating; Tags]);
    [apply shows_within_one, clean_price_columns_warns|intro].
  apply (shows_within_bind [Rating] [Tags]).
  - eapply shows_within_defaulted, resolve_field_quiet_or_default. apply quiet_isna_mask.
  - intro. eapply shows_within_defaulted, resolve_field_quiet_or_default.
    apply quiet_empty_mask.
Qed.

Lemma without_date_warning (e : list field) :
  sublist e [Price; Rating; Tags] -> sublist e [Price; Rating; Tags; ReleaseDate].
Proof. intros H. now apply (sublist_inserts_r [ReleaseDate]) in H. Qed.

Lemma with_date_warning (e : list field) :
  sublist e [Price; Rating; Tags] ->
  sublist (e ++ [ReleaseDate]) [Price; Rating; Tags; ReleaseDate].
Proof. intros H. now apply (sublist_app e _ [ReleaseDate] [ReleaseDate]) in H. Qed.

(** X9. The warnings of one run, in the order shown, are some of: price,
    rating, tags, date, each at most once. A run that returns has not
    shown the warning for the date: that warning is only ever followed
    by the failure of the year step. *)
Theorem warnings_of_clean_data (L : pylib) (w : world) (df0 : ref) :
  (exists e, notices (world_of (clean_data L df0 w)) = notices w ++ e /\
             sublist e [Price; Rating; Tags; ReleaseDate]) /\
  (forall df w', clean_data L df0 w = Done df w' ->
     exists e, notices w' = notices w ++ e /\ sublist e [Price; Rating; Tags]).
Proof.
  rewrite clean_data_unfold.
  destruct (heap w !! df0) as [d|] eqn:Hd; cbv zeta.
  2:{ split; [|discriminate]. exists []. rewrite app_nil_r. split; [reflexivity|].
      apply sublist_nil_l. }
  set (df := length (heap w)). set (w0 := {| heap := heap w ++ [d]; notices := notices w |}).
  rewrite clean_steps_split.
  destruct (first_steps_warnings L df w0) as (e & E & S).
  destruct ((clean_price_columns L df;; clean_rating_columns L df;;
             clean_tags_columns L df) w0) as [[] w3|ex w3]; simpl in E.
  2:{ split; [|discriminate]. exists e. split; [exact E|].
      now apply without_date_warning. }
  assert (Hdate := resolve_field_quiet_or_default L df Names.release_time
                     Names.detailed_date Names.basic_date date_synonym isna_mask
                     (clean_date L) Null ReleaseDate quiet_isna_mask w3).
  fold (clean_date_columns L df) in Hdate.
  change ((clean_date_columns L df;; add_release_year df;; mret df) w3)
    with (match clean_date_columns L df w3 with
          | Done _ w4 => (add_release_year df;; mret df) w4
          | Raised ex w4 => Raised ex w4
          end).
  destruct (clean_date_columns L df w3) as [[] w4|ex w4]; simpl in Hdate.
  2:{ split; [|intros ? ? [=]]. destruct Hdate as [E4|[E4 _]].
      - exists e. split; [simpl; congruence|now apply without_date_warning].
      - exists (e ++ [ReleaseDate]). split; [|now apply with_date_warning].
        simpl. rewrite E4, E. now rewrite app_assoc. }
  destruct Hdate as [E4|[E4 (d4 & Hd4 & Hcol)]].
  - assert (Hq : notices (world_of ((add_release_year df;; mret df) w4)) = notices w4).
    { unfold mbind, M_bind. pose proof (quiet_add_release_year df w4) as Hy.
      destruct (add_release_year df w4); exact Hy. }
    split.
    + exists e. split; [rewrite Hq; congruence|now apply without_date_warning].
    + intros df' w' Hrun. exists e. split; [|exact S].
      rewrite Hrun in Hq. simpl in Hq. congruence.
  - erewrite bind_raised; cycle 1.
    { eapply add_release_year_raises; [exact Hd4|exact Hcol|].
      clear. induction (nrows d4) as [|n IH]; [reflexivity|exact IH]. }
    split; [|discriminate].
    exists (e ++ [ReleaseDate]). split.
    + simpl. rewrite E4, E. now rewrite app_assoc.
    + now apply with_date_warning.
Qed.

Lemma warnings_of_clean_data_witness :
  exists w', clean_data Fragment.fragment 0 (start frame_unknown_discount) = Done 1 w' /\
             notices w' = [Rating; Tags] /\
             exists e, notices w' = [] ++ e /\ sublist e [Price; Rating; Tags].
Proof.
  eexists. split; [vm_compute; reflexivity|]. split; [reflexivity|].
  apply (proj2 (warnings_of_clean_data Fragment.fragment (start frame_unknown_discount) 0) 1).
  vm_compute. reflexivity.
Defined.

(** ** What a run that returns has produced *)

Lemma returns_in_bind {A B} (P : world -> Prop) (m : M A) (k : A -> M B) :
  (forall a, returns_in P (k a)) -> returns_in P (m ≫= k).
Proof.
  intros Hk w b w' H. apply bind_Done in H as (a & w1 & _ & H). exact (Hk a w1 b w' H).
Qed.

Lemma returns_in_setitem (df : ref) (name : Py.str) (s : Series) :
  returns_in (has_col df name) (setitem df name s).
Proof.
  intros w [] w'. unfold setitem, read, write, mbind, M_bind.
  destruct (heap w !! df) as [d|] eqn:Hd; [|discriminate].
  intros [= <-]. exists s. unfold column_at. simpl.
  rewrite list_lookup_insert_eq by (now apply lookup_lt_Some in Hd).
  simpl. apply get_column_set_column.
Qed.

Lemma returns_in_assign_parsed (df : ref) (dst src : Py.str) (f : cell -> result cell) :
  returns_in (has_col df dst) (assign_parsed df dst src f).
Proof.
  unfold assign_parsed. apply returns_in_bind. intro.
  apply returns_in_bind. intro. apply returns_in_setitem.
Qed.

Lemma returns_in_fill_from_basic (L : pylib) (df : ref) (dst basic : Py.str)
    (missing : Series -> M (list bool)) (f : cell -> result cell) :
  returns_in (has_col df dst) (fill_from_basic L df dst basic missing f).
Proof.
  unfold fill_from_basic. do 6 (apply returns_in_bind; intro).
  destruct (loc_accepts L _ _ _); [apply returns_in_setitem|].
  intros w b w' H. discriminate H.
Qed.

Lemma returns_in_default (df : ref) (dst : Py.str) (default : cell) (fld : field) :
  returns_in (has_col df dst) (s ← broadcast df default; setitem df dst s;; warning fld).
Proof.
  apply returns_in_bind. intros s w [] w' H.
  apply bind_Done in H as ([] & w1 & H1 & H2).
  apply returns_in_setitem in H1. unfold warning in H2. injection H2 as <-. exact H1.
Qed.

(** A field step that returns leaves its column in the frame. *)
Lemma resolve_field_sets_column (L : pylib) (df : ref) (dst detailed basic : Py.str)
    (synonym : Py.str -> bool) (missing : Series -> M (list bool))
    (f : cell -> result cell) (default : cell) (fld : field) :
  returns_in (has_col df dst)
    (resolve_field L df dst detailed basic synonym missing f default fld).
Proof.
  unfold resolve_field.
  apply returns_in_bind; intro. apply returns_in_bind; intro.
  apply returns_in_bind; intros has_basic. apply returns_in_bind; intros has_dst.
  destruct has_basic, has_dst; simpl;
    try apply returns_in_fill_from_basic; try apply returns_in_assign_parsed;
    (apply returns_in_bind; intros [|c cs];
     [apply returns_in_default|apply returns_in_assign_parsed]).
Qed.

(** X10. Whenever [clean_data] returns on a record set read from a file, the
    date column of the result holds at least one date and nothing but
    dates and missing values, and the year column holds the year of each
    date: a record set in which no date can be read never comes out. *)
Theorem returned_frame_has_dates (L : pylib) (w w' : world) (df0 df : ref)
    (d : DataFrame) :
  heap w !! df0 = Some d -> raw_frame d ->
  clean_data L df0 w = Done df w' ->
  exists s,
    column_at w' df Names.release_time = Some s /\
    existsb is_timestamp s = true /\
    forallb (fun c => is_timestamp c || is_null c) s = true /\
    column_at w' df Names.release_year =
      Some (List.map (year_cell (existsb is_null s)) s).
Proof.
  intros Hd _ Hrun. rewrite clean_data_unfold, Hd in Hrun. cbv zeta in Hrun.
  apply bind_Done in Hrun as ([] & w1 & _ & Hrun).
  apply bind_Done in Hrun as ([] & w2 & _ & Hrun).
  apply bind_Done in Hrun as ([] & w3 & _ & Hrun).
  apply bind_Done in Hrun as ([] & w4 & Hdate & Hrun).
  apply bind_Done in Hrun as ([] & w5 & Hyear & Hrun).
  injection Hrun as <- <-.
  apply resolve_field_sets_column in Hdate as (s & Hs).
  unfold column_at in Hs.
  destruct (heap w4 !! length (heap w)) as [d4|] eqn:Hd4; [|discriminate].
  assert (Hhas : existsb (fun n => Py.str_eqb n Names.release_time) (column_names d4) = true)
    by (eapply has_column_of_get; exact Hs).
  unfold add_release_year, has_column, getitem, setitem, read, write, when, lift, dt_year,
    mbind, M_bind, mret, M_ret in Hyear.
  rewrite Hd4 in Hyear. simpl in Hyear. rewrite Hhas, Hd4 in Hyear. simpl in Hyear.
  rewrite Hs in Hyear. simpl in Hyear.
  destruct (datetimelike s) eqn:Hdt; simpl in Hyear; [|discriminate].
  rewrite Hd4 in Hyear. injection Hyear as <-.
  unfold datetimelike in Hdt. apply andb_prop in Hdt as [Hex Hall].
  exists s. unfold column_at. simpl.
  rewrite list_lookup_insert_eq by (now apply lookup_lt_Some in Hd4). simpl.
  split; [|split; [exact Hex|split; [exact Hall|apply get_column_set_column]]].
  rewrite get_column_set_column_ne by discriminate. exact Hs.
Qed.

Lemma returned_frame_has_dates_witness :
  exists w', clean_data Fragment.fragment 0 (start frame_three_games) = Done 1 w' /\
  exists s,
    column_at w' 1 Names.release_time = Some s /\
    existsb is_timestamp s = true /\
    forallb (fun c => is_timestamp c || is_null c) s = true /\
    column_at w' 1 Names.release_year =
      Some (List.map (year_cell (existsb is_null s)) s).
Proof.
  eexists. split; [vm_compute; reflexivity|].
  apply (returned_frame_has_dates Fragment.fragment (start frame_three_games) _ 0 1
           frame_three_games); [reflexivity| |vm_compute; reflexivity].
  repeat constructor.
Defined.

(** ** Which column a field is read from *)

Lemma set_column_fst (cs : list (Py.str * Series)) (name : Py.str) (s : Series) :
  List.map fst (set_column cs name s) =
  if existsb (fun n => Py.str_eqb n name) (List.map fst cs) then List.map fst cs
  else List.map fst cs ++ [name].
Proof.
  induction cs as [|[n s0] cs IH]; simpl; [reflexivity|].
  destruct (Py.str_eqb n name); simpl; [reflexivity|].
  rewrite IH. now destruct (existsb _ (List.map fst cs)).
Qed.

Lemma has_other_set_column (cs : list (Py.str * Series)) (name other : Py.str) (s : Series) :
  name <> other ->
  existsb (fun n => Py.str_eqb n other) (List.map fst (set_column cs name s)) =
  existsb (fun n => Py.str_eqb n other) (List.map fst cs).
Proof.
  intros Hne. rewrite set_column_fst.
  destruct (existsb _ (List.map fst cs)); [reflexivity|].
  rewrite existsb_app. simpl. apply str_eqb_neq in Hne. rewrite Hne.
  now rewrite !orb_false_r.
Qed.

Lemma first_match_set_column (p : Py.str -> bool) (cs : list (Py.str * Series))
    (name c : Py.str) (rest : list Py.str) (s : Series) :
  List.filter p (List.map fst cs) = c :: rest ->
  exists rest', List.filter p (List.map fst (set_column cs name s)) = c :: rest'.
Proof.
  intros H. rewrite set_column_fst.
  destruct (existsb _ (List.map fst cs)); [eauto|].
  rewrite List.filter_app, H. simpl. eauto.
Qed.

Ltac run_frame Hlt :=
  repeat first
    [ rewrite list_lookup_insert_eq by exact Hlt
    | rewrite list_insert_insert_eq
    | rewrite has_set_column
    | rewrite get_column_set_column
    | rewrite set_column_twice
    | progress simpl ].

(** X13. Rule for a record set with the basic column, without the
    detailed column and without a column of the canonical name: the
    field is the parse of the basic column, and no warning is shown. *)
Theorem field_from_basic_column (L : pylib) (df : ref) (dst detailed basic : Py.str)
    (synonym : Py.str -> bool) (missing : Series -> M (list bool))
    (f : cell -> result cell) (default : cell) (fld : field)
    (w : world) (d : DataFrame) (sb parsed : Series) :
  heap w !! df = Some d ->
  existsb (fun n => Py.str_eqb n detailed) (column_names d) = false ->
  existsb (fun n => Py.str_eqb n dst) (column_names d) = false ->
  get_column (columns d) basic = Some sb ->
  apply f sb = Ok parsed ->
  resolve_field L df dst detailed basic synonym missing f default fld w =
  Done tt {| heap := <[df := {| index := index d;
                                columns := set_column (columns d) dst parsed |}]> (heap w);
             notices := notices w |}.
Proof.
  intros Hd Hdet Hdst Hsb Hp.
  unfold resolve_field, assign_parsed, has_column, getitem, setitem,
    read, write, when, lift, mbind, M_bind, mret, M_ret.
  rewrite Hd. simpl. rewrite Hdet. simpl. rewrite Hd. simpl.
  unfold column_names in *. rewrite (has_column_of_get _ _ _ Hsb). simpl.
  rewrite Hd. simpl. rewrite Hdst. simpl. rewrite Hd. simpl. rewrite Hsb. simpl.
  rewrite Hp. simpl. rewrite Hd. reflexivity.
Qed.

Lemma field_from_basic_column_witness :
  clean_rating_columns Fragment.fragment 0 (start frame_basic_rating) =
  Done tt {| heap := [ {| index := [0];
                          columns := [(Names.basic_rating, [Str (Py.lit "80%")]);
                                      (Names.rating, [Float 80])] |} ];
             notices := [] |}.
Proof.
  unfold clean_rating_columns.
  rewrite (field_from_basic_column Fragment.fragment 0 Names.rating Names.detailed_rating Names.basic_rating
             rating_synonym isna_mask clean_rating Null Rating
             (start frame_basic_rating) frame_basic_rating
             [Str (Py.lit "80%")] [Float 80]); reflexivity.
Defined.

(** X14. Rule for a record set with neither the detailed nor the basic
    column: the field is the parse of the first column, in the order of
    the columns, whose name passes the synonym test, and no warning is
    shown. *)
Theorem field_from_first_synonym (L : pylib) (df : ref) (dst detailed basic : Py.str)
    (synonym : Py.str -> bool) (missing : Series -> M (list bool))
    (f : cell -> result cell) (default : cell) (fld : field)
    (w : world) (d : DataFrame) (c : Py.str) (rest : list Py.str) (sc parsed : Series) :
  heap w !! df = Some d ->
  existsb (fun n => Py.str_eqb n detailed) (column_names d) = false ->
  existsb (fun n => Py.str_eqb n basic) (column_names d) = false ->
  List.filter synonym (column_names d) = c :: rest ->
  get_column (columns d) c = Some sc ->
  apply f sc = Ok parsed ->
  resolve_field L df dst detailed basic synonym missing f default fld w =
  Done tt {| heap := <[df := {| index := index d;
                                columns := set_column (columns d) dst parsed |}]> (heap w);
             notices := notices w |}.
Proof.
  intros Hd Hdet Hbas Hsyn Hsc Hp.
  unfold resolve_field, assign_parsed, has_column, columns_where, getitem, setitem,
    read, write, when, lift, mbind, M_bind, mret, M_ret.
  rewrite Hd. simpl. rewrite Hdet. simpl. rewrite Hd. simpl. rewrite Hbas. simpl.
  rewrite Hd. simpl. rewrite Hd. simpl. rewrite Hsyn. simpl.
  rewrite Hd. simpl. rewrite Hsc. simpl. rewrite Hp. simpl. rewrite Hd. reflexivity.
Qed.

Lemma field_from_first_synonym_witness :
  clean_rating_columns Fragment.fragment 0 (start frame_english) =
  Done tt {| heap := [ {| index := [0];
                          columns := columns frame_english ++
                                     [(Names.rating, [Float 92])] |} ];
             notices := [] |}.
Proof.
  unfold clean_rating_columns.
  rewrite (field_from_first_synonym Fragment.fragment 0 Names.rating Names.detailed_rating Names.basic_rating
             rating_synonym isna_mask clean_rating Null Rating
             (start frame_english) frame_english
             (Py.lit "User Rating") [Py.lit "rating_count"]
             [Str (Py.lit "92%")] [Float 92]); reflexivity.
Defined.

(** X15. With the detailed column and no basic column the column scan runs
    all the same, after the detailed column was parsed, and the field is
    read again from the first column whose name passes the synonym test.
    That is the detailed column only if no other such column stands
    before it. *)
Theorem detailed_column_is_rescanned (L : pylib) (df : ref) (dst detailed basic : Py.str)
    (synonym : Py.str -> bool) (missing : Series -> M (list bool))
    (f : cell -> result cell) (default : cell) (fld : field)
    (w : world) (d : DataFrame) (c : Py.str) (rest : list Py.str)
    (sd pd sc parsed : Series) :
  heap w !! df = Some d ->
  dst <> basic -> dst <> c ->
  get_column (columns d) detailed = Some sd ->
  apply f sd = Ok pd ->
  existsb (fun n => Py.str_eqb n basic) (column_names d) = false ->
  List.filter synonym (column_names d) = c :: rest ->
  get_column (columns d) c = Some sc ->
  apply f sc = Ok parsed ->
  resolve_field L df dst detailed basic synonym missing f default fld w =
  Done tt {| heap := <[df := {| index := index d;
                                columns := set_column (columns d) dst parsed |}]> (heap w);
             notices := notices w |}.
Proof.
  intros Hd Hdb Hdc Hsd Hpd Hbas Hsyn Hsc Hp.
  assert (Hlt : (df < length (heap w))%nat) by now apply lookup_lt_Some in Hd.
  unfold column_names in *.
  destruct (first_match_set_column synonym (columns d) dst c rest pd Hsyn) as (rest' & Hsyn').
  unfold resolve_field, assign_parsed, has_column, columns_where, getitem, setitem,
    column_names, read, write, when, lift, mbind, M_bind, mret, M_ret.
  rewrite Hd. simpl. rewrite (has_column_of_get _ _ _ Hsd). simpl.
  rewrite Hd. simpl. rewrite Hsd. simpl. rewrite Hpd. simpl. rewrite Hd. simpl.
  run_frame Hlt.
  rewrite (has_other_set_column _ _ _ _ Hdb), Hbas. run_frame Hlt.
  rewrite Hsyn'. run_frame Hlt.
  rewrite (get_column_set_column_ne _ _ _ _ Hdc), Hsc. run_frame Hlt.
  rewrite Hp. run_frame Hlt. reflexivity.
Qed.

Lemma detailed_column_is_rescanned_witness :
  clean_rating_columns Fragment.fragment 0 (start frame_rating_count) =
  Done tt {| heap := [ {| index := [0];
                          columns := columns frame_rating_count ++
                                     [(Names.rating, [Float 1000])] |} ];
             notices := [] |}.
Proof.
  unfold clean_rating_columns.
  rewrite (detailed_column_is_rescanned Fragment.fragment 0 Names.rating Names.detailed_rating
             Names.basic_rating rating_synonym isna_mask clean_rating Null Rating
             (start frame_rating_count) frame_rating_count
             (Names.rating_word ++ [25968%N]) [Names.detailed_rating]
             [Str (Py.lit "92%")] [Float 92] [Int 1000] [Float 1000]);
    try reflexivity; discriminate.
Defined.

(** X16. With a basic column, no detailed column and a column of the
    canonical name already in the input, the cells of that column are
    not parsed. The parsed basic cells of the rows that count as missing
    are assigned through [df.loc]. When the column does not take them
    the step ends with [TypeError] and the frame is as it was. When it
    does, each cell stays as it is unless it counts as missing, and only
    then the parse of the basic cell takes its place. *)
Theorem existing_column_is_not_parsed (L : pylib) (df : ref) (dst detailed basic : Py.str)
    (synonym : Py.str -> bool) (missing : Series -> M (list bool)) (miss : cell -> bool)
    (f : cell -> result cell) (default : cell) (fld : field)
    (w : world) (d : DataFrame) (raw sb values filled : Series) :
  heap w !! df = Some d ->
  existsb (fun n => Py.str_eqb n detailed) (column_names d) = false ->
  get_column (columns d) dst = Some raw ->
  get_column (columns d) basic = Some sb ->
  length raw = length sb ->
  (forall w', missing raw w' = Done (List.map miss raw) w') ->
  apply f (select (List.map miss raw) sb) = Ok values ->
  row_wise_fallback miss f raw sb = Ok filled ->
  resolve_field L df dst detailed basic synonym missing f default fld w =
  if loc_accepts L raw (List.map miss raw) values
  then Done tt {| heap := <[df := {| index := index d;
                                     columns := set_column (columns d) dst filled |}]>
                            (heap w);
                  notices := notices w |}
  else Raised TypeError w.
Proof.
  intros Hd Hdet Hraw Hsb Hlen Hmask Ev Hfilled.
  rewrite <- (loc_assign_is_row_wise miss f raw sb Hlen) in Hfilled.
  unfold mbind, result_bind in Hfilled. rewrite Ev in Hfilled.
  injection Hfilled as <-.
  unfold resolve_field, fill_from_basic, has_column, getitem, setitem,
    read, write, when, lift, raise, mbind, M_bind, mret, M_ret.
  rewrite Hd. simpl. rewrite Hdet. simpl. rewrite Hd. simpl.
  unfold column_names. rewrite (has_column_of_get _ _ _ Hsb). simpl.
  rewrite Hd. simpl. rewrite (has_column_of_get _ _ _ Hraw). simpl.
  rewrite Hd. simpl. rewrite Hraw. simpl. rewrite Hmask. simpl.
  rewrite Hd. simpl. rewrite Hsb. simpl. rewrite Ev. simpl.
  rewrite Hd. simpl. rewrite Hraw. simpl. rewrite Hmask. simpl.
  destruct (loc_accepts L raw (List.map miss raw) values); [|reflexivity].
  simpl. rewrite Hd. reflexivity.
Qed.

Lemma existing_column_is_not_parsed_witness :
  clean_rating_columns Fragment.fragment 0 (start frame_raw_rating) =
  Raised TypeError (start frame_raw_rating) /\
  clean_rating_columns Fragment.fragment 0 (start frame_number_rating) =
  Done tt {| heap := [ {| index := [0; 1];
                          columns :=
                            [(Names.rating, [Float 92; Float 75]);
                             (Names.basic_rating,
                              [Str (Py.lit "80%"); Str (Py.lit "75%")])] |} ];
             notices := [] |}.
Proof.
  unfold clean_rating_columns. split.
  - rewrite (existing_column_is_not_parsed Fragment.fragment 0 Names.rating
               Names.detailed_rating Names.basic_rating rating_synonym isna_mask is_null
               clean_rating Null Rating
               (start frame_raw_rating) frame_raw_rating
               [Str (Py.lit "92%"); Null] [Str (Py.lit "80%"); Str (Py.lit "75%")]
               [Float 75] [Str (Py.lit "92%"); Float 75]); reflexivity.
  - rewrite (existing_column_is_not_parsed Fragment.fragment 0 Names.rating
               Names.detailed_rating Names.basic_rating rating_synonym isna_mask is_null
               clean_rating Null Rating
               (start frame_number_rating) frame_number_rating
               [Float 92; Null] [Str (Py.lit "80%"); Str (Py.lit "75%")]
               [Float 75] [Float 92; Float 75]); reflexivity.
Defined.

Lemma apply_len_unsized (s : Series) :
  existsb unsized s = true -> apply len_is_zero s = Err TypeError.
Proof.
  induction s as [|c s IH]; simpl; [discriminate|].
  destruct c; simpl; intros H; try reflexivity; unfold mbind, result_bind;
    now rewrite (IH H).
Qed.

(** X17. For the tags the same input fails when the existing column has a
    cell that is neither a string nor a list, such as a missing value:
    the test for an empty tag list takes the length of every cell, and
    the step ends with [TypeError] before anything is written. *)
Theorem existing_tag_column_with_gap (L : pylib) (df : ref) (w : world) (d : DataFrame)
    (raw sb : Series) :
  heap w !! df = Some d ->
  existsb (fun n => Py.str_eqb n Names.detailed_tags) (column_names d) = false ->
  get_column (columns d) Names.tag_list = Some raw ->
  get_column (columns d) Names.basic_tags = Some sb ->
  existsb unsized raw = true ->
  clean_tags_columns L df w = Raised TypeError w.
Proof.
  intros Hd Hdet Hraw Hsb Hgap.
  unfold clean_tags_columns, resolve_field, fill_from_basic, empty_mask, has_column,
    getitem, setitem, read, write, when, lift, mbind, M_bind, mret, M_ret.
  rewrite Hd. simpl. rewrite Hdet. simpl. rewrite Hd. simpl.
  unfold column_names. rewrite (has_column_of_get _ _ _ Hsb). simpl.
  rewrite Hd. simpl. rewrite (has_column_of_get _ _ _ Hraw). simpl.
  rewrite Hd. simpl. rewrite Hraw. simpl.
  now rewrite (apply_len_unsized raw Hgap).
Qed.

Lemma existing_tag_column_with_gap_witness :
  clean_tags_columns Fragment.fragment 0 (start frame_raw_tags) =
  Raised TypeError (start frame_raw_tags).
Proof.
  apply (existing_tag_column_with_gap Fragment.fragment 0 (start frame_raw_tags) frame_raw_tags
           [Str (Py.lit "Action"); Null] [Str (Py.lit "Indie"); Str (Py.lit "RPG")]);
    reflexivity.
Defined.

(** ** The price *)

(** X12. With both price columns in the input the price of every record is
    its parsed discount price, also where that is 0 for an unknown or
    free discount price; the original price is parsed in its column and
    takes no part in the price. *)
Theorem price_is_discount_price (L : pylib) (df : ref) (w : world) (d : DataFrame)
    (so sd po pd : Series) :
  heap w !! df = Some d ->
  get_column (columns d) Names.original_price = Some so ->
  get_column (columns d) Names.discount_price = Some sd ->
  apply (clean_price L) so = Ok po ->
  apply (clean_price L) sd = Ok pd ->
  clean_price_columns L df w =
  Done tt {| heap := <[df := {| index := index d;
                                columns :=
                                  set_column
                                    (set_column
                                       (set_column (columns d) Names.original_price po)
                                       Names.discount_price pd)
                                    Names.price pd |}]> (heap w);
             notices := notices w |}.
Proof.
  intros Hd Hso Hsd Hpo Hpd.
  assert (Hlt : (df < length (heap w))%nat) by now apply lookup_lt_Some in Hd.
  assert (Hne : Names.original_price <> Names.discount_price) by discriminate.
  assert (Hne' : Names.discount_price <> Names.original_price) by discriminate.
  assert (H1 : get_column (set_column (columns d) Names.original_price po)
                 Names.discount_price = Some sd)
    by now rewrite get_column_set_column_ne.
  assert (H2 : get_column (set_column (set_column (columns d) Names.original_price po)
                             Names.discount_price pd) Names.original_price = Some po).
  { rewrite get_column_set_column_ne by exact Hne'. apply get_column_set_column. }
  unfold clean_price_columns, assign_parsed, has_column, getitem, setitem,
    column_names, read, write, when, lift, mbind, M_bind, mret, M_ret.
  rewrite Hd. simpl. rewrite (has_column_of_get _ _ _ Hso). simpl.
  rewrite Hd. simpl. rewrite Hso. simpl. rewrite Hpo. simpl. rewrite Hd. simpl.
  run_frame Hlt.
  rewrite (has_column_of_get _ _ _ H1). run_frame Hlt.
  rewrite H1. run_frame Hlt. rewrite Hpd. run_frame Hlt.
  rewrite (has_column_of_get _ _ _ H2). run_frame Hlt.
  rewrite H2. run_frame Hlt.
  now rewrite (parsed_prices_are_never_filled L sd pd po Hpd).
Qed.

Lemma price_is_discount_price_witness :
  exists w', clean_price_columns Fragment.fragment 0 (start frame_two_prices) = Done tt w' /\
             column_at w' 0 Names.original_price = Some [Float 100; Float 60] /\
             column_at w' 0 Names.discount_price = Some [Float 80; Float 0] /\
             column_at w' 0 Names.price = Some [Float 80; Float 0].
Proof.
  eexists. split.
  - apply (price_is_discount_price Fragment.fragment 0 (start frame_two_prices)
             frame_two_prices [yen "100"; yen "60"] [yen "80"; Str Names.unknown]
             [Float 100; Float 60] [Float 80; Float 0]); reflexivity.
  - repeat split.
Defined.

(** ** The price column of the result *)

Lemma apply_clean_price_prices (L : pylib) (s parsed : Series) :
  apply (clean_price L) s = Ok parsed -> Forall is_price parsed.
Proof.
  revert parsed. induction s as [|c s IH]; simpl; intros parsed H.
  - injection H as <-. constructor.
  - unfold mbind, result_bind in H.
    destruct (clean_price L c) as [v|e] eqn:Ev; [|discriminate].
    destruct (apply (clean_price L) s) as [vs|e]; [|discriminate].
    injection H as <-. constructor; [|now apply IH].
    unfold is_price, clean_price, mbind, result_bind in *.
    destruct (isna c); [|discriminate].
    destruct (_ || _ || _).
    + injection Ev as <-. exists 0%Q. split; [reflexivity|apply Qle_refl].
    + destruct (search_number _) as [m|]; injection Ev as <-.
      * eexists. split; [reflexivity|apply float_of_match_nonneg].
      * exists 0%Q. split; [reflexivity|apply Qle_refl].
Qed.

Lemma fillna_prices (a b : Series) : Forall is_price a -> fillna a b = a.
Proof.
  revert b. induction a as [|c a IH]; intros [|d b] H; try reflexivity.
  apply Forall_cons in H as [(q & -> & _) Ha]. simpl. now rewrite IH.
Qed.

Lemma repeat_zero_prices (n : nat) : Forall is_price (repeat (Float 0) n).
Proof.
  induction n; simpl; constructor; [|assumption].
  exists 0%Q. split; [reflexivity|apply Qle_refl].
Qed.

Lemma has_column_Done (df : ref) (name : Py.str) (w w' : world) (b : bool) :
  has_column df name w = Done b w' ->
  w' = w /\ exists d, heap w !! df = Some d /\
                      b = existsb (fun n => Py.str_eqb n name) (column_names d).
Proof.
  unfold has_column, read, mbind, M_bind, mret, M_ret.
  destruct (heap w !! df) as [d|]; [|discriminate]. intros [= <- <-]. eauto.
Qed.

Lemma getitem_Done (df : ref) (name : Py.str) (w w' : world) (s : Series) :
  getitem df name w = Done s w' -> w' = w /\ column_at w df name = Some s.
Proof.
  unfold getitem, read, raise, column_at, mbind, M_bind, mret, M_ret.
  destruct (heap w !! df) as [d|]; [|discriminate].
  destruct (get_column (columns d) name); [|discriminate]. intros [= <- <-]. auto.
Qed.

Lemma setitem_Done (df : ref) (name : Py.str) (s : Series) (w w' : world) :
  setitem df name s w = Done tt w' ->
  column_at w' df name = Some s /\
  forall other, name <> other -> column_at w' df other = column_at w df other.
Proof.
  unfold setitem, read, write, column_at, mbind, M_bind.
  destruct (heap w !! df) as [d|] eqn:Hd; [|discriminate]. intros [= <-]. simpl.
  rewrite list_lookup_insert_eq by (now apply lookup_lt_Some in Hd). simpl.
  split; [apply get_column_set_column|].
  intros other Hne. now apply get_column_set_column_ne.
Qed.

Lemma assign_parsed_Done (df : ref) (dst src : Py.str) (f : cell -> result cell)
    (w w' : world) :
  assign_parsed df dst src f w = Done tt w' ->
  (exists s p, column_at w df src = Some s /\ apply f s = Ok p /\
               column_at w' df dst = Some p) /\
  forall other, dst <> other -> column_at w' df other = column_at w df other.
Proof.
  unfold assign_parsed. intros H.
  apply bind_Done in H as (s & w1 & Hget & H). apply getitem_Done in Hget as [-> Hs].
  apply bind_Done in H as (p & w2 & Hp & H).
  unfold lift in Hp. destruct (apply f s) as [p'|e] eqn:Ep; [|discriminate].
  injection Hp as <- <-. apply setitem_Done in H as [Hdst Hother].
  split; [exists s, p'; auto|exact Hother].
Qed.

Lemma absent_column (df : ref) (name : Py.str) (w : world) (d : DataFrame) :
  heap w !! df = Some d ->
  existsb (fun n => Py.str_eqb n name) (column_names d) = false ->
  column_at w df name = None.
Proof.
  intros Hd Hex. unfold column_at. rewrite Hd.
  destruct (get_column (columns d) name) as [s|] eqn:E; [|reflexivity].
  apply has_column_of_get in E. unfold column_names in Hex. congruence.
Qed.

(** A price column that is in the frame is parsed in place. *)
Lemma parse_in_place (L : pylib) (df : ref) (name : Py.str) (has : bool)
    (w w1 w' : world) :
  has_column df name w = Done has w1 ->
  when has (assign_parsed df name name (clean_price L)) w1 = Done tt w' ->
  priced_if_present df name w' /\
  forall other, name <> other -> column_at w' df other = column_at w df other.
Proof.
  intros Hhas H.
  apply has_column_Done in Hhas as (-> & d & Hd & ->).
  destruct (existsb _ (column_names d)) eqn:Hex; simpl in H.
  - apply assign_parsed_Done in H as [(s & p & _ & Hp & Hcol) Hother].
    split; [|exact Hother]. intros s' Hs'. rewrite Hcol in Hs'. injection Hs' as <-.
    eapply apply_clean_price_prices. exact Hp.
  - injection H as <-. split; [|reflexivity].
    intros s Hs. rewrite (absent_column _ _ _ _ Hd Hex) in Hs. discriminate.
Qed.

Lemma clean_price_columns_Done (L : pylib) (df : ref) (w w' : world) :
  clean_price_columns L df w = Done tt w' ->
  exists s, column_at w' df Names.price = Some s /\ Forall is_price s.
Proof.
  unfold clean_price_columns. intros H.
  apply bind_Done in H as (ho0 & w0 & Hho0 & H).
  apply bind_Done in H as ([] & w1 & Ho & H).
  apply bind_Done in H as (hd0 & w1' & Hhd0 & H).
  apply bind_Done in H as ([] & w2 & Hd & H).
  destruct (parse_in_place L df _ _ _ _ _ Hho0 Ho) as [Ho1 _].
  destruct (parse_in_place L df _ _ _ _ _ Hhd0 Hd) as [Hd2 Hkeep].
  assert (Ho2 : priced_if_present df Names.original_price w2).
  { intros s Hs. rewrite Hkeep in Hs by discriminate. now apply Ho1. }
  clear Ho1 Hkeep Hho0 Ho Hhd0 Hd w w0 w1 w1' ho0 hd0.
  rename Hd2 into Hd.
  apply bind_Done in H as (hd & w3 & Hhd & H). apply has_column_Done in Hhd as (-> & _).
  apply bind_Done in H as (ho & w3 & Hho & H). apply has_column_Done in Hho as (-> & _).
  destruct hd, ho; simpl in H.
  - apply bind_Done in H as (d & w3 & Hgd & H). apply getitem_Done in Hgd as [-> Hgd].
    apply bind_Done in H as (o & w3 & Hgo & H). apply getitem_Done in Hgo as [-> Hgo].
    apply setitem_Done in H as [H _]. rewrite (fillna_prices d o (Hd d Hgd)) in H. eauto.
  - apply bind_Done in H as (d & w3 & Hgd & H). apply getitem_Done in Hgd as [-> Hgd].
    apply setitem_Done in H as [H _]. eauto.
  - apply bind_Done in H as (o & w3 & Hgo & H). apply getitem_Done in Hgo as [-> Hgo].
    apply setitem_Done in H as [H _]. eauto.
  - apply bind_Done in H as (cs & w3 & _ & H). destruct cs as [|c cs].
    + apply bind_Done in H as (s & w4 & Hb & H).
      unfold broadcast, read, mbind, M_bind, mret, M_ret in Hb.
      destruct (heap w3 !! df) as [d3|]; [|discriminate]. injection Hb as <- <-.
      apply bind_Done in H as ([] & w5 & Hset & H). apply setitem_Done in Hset as [Hset _].
      unfold warning in H. injection H as <-.
      exists (repeat (Float 0) (nrows d3)). split; [exact Hset|apply repeat_zero_prices].
    + apply assign_parsed_Done in H as [(s & p & _ & Hp & Hcol) _].
      exists p. split; [exact Hcol|]. eapply apply_clean_price_prices. exact Hp.
Qed.

(** X11. In the frame [clean_data] returns every record has a price, and
    each price is a number that is 0 or more: the price column has no
    missing cell, whatever the input held. *)
Theorem returned_prices_are_numbers (L : pylib) (w w' : world) (df0 df : ref) :
  clean_data L df0 w = Done df w' ->
  exists s, column_at w' df Names.price = Some s /\ Forall is_price s.
Proof.
  intros Hrun. rewrite clean_data_unfold in Hrun.
  destruct (heap w !! df0) as [d|]; [|discriminate]. cbv zeta in Hrun.
  apply bind_Done in Hrun as ([] & w1 & Hprice & Hrun).
  apply clean_price_columns_Done in Hprice as (s & Hs & Hprices).
  exists s. split; [|exact Hprices].
  assert (Hkept : column_at (world_of (Done df w')) (length (heap w)) Names.price = Some s).
  { rewrite <- Hrun.
    apply (writes_after_price (fun w0 => column_at w0 (length (heap w)) Names.price = Some s)
             _ L _ _ (column_kept_inv (length (heap w)) Names.price (Some s)));
      try discriminate; try exact Logic.I. exact Hs. }
  simpl in Hkept.
  repeat (apply bind_Done in Hrun as (? & ? & _ & Hrun)).
  unfold mret, M_ret in Hrun. injection Hrun as <- <-. exact Hkept.
Qed.

Lemma returned_prices_are_numbers_witness :
  exists w', clean_data Fragment.fragment 0 (start frame_three_games) = Done 1 w' /\
             exists s, column_at w' 1 Names.price = Some s /\ Forall is_price s.
Proof.
  eexists. split; [vm_compute; reflexivity|].
  apply (returned_prices_are_numbers Fragment.fragment (start frame_three_games) _ 0 1).
  vm_compute. reflexivity.
Defined.

(** * Further properties of the analytics and of [main] *)

Lemma Qle_bool_total (a b : Q) : Qle_bool a b = false -> Qle_bool b a = true.
Proof.
  intros H. apply Qle_bool_iff. apply Qlt_le_weak. apply Qnot_le_lt.
  intros Hle. apply Qle_bool_iff in Hle. congruence.
Qed.

Lemma Qmin_of_le (a b : Q) : (Qmin_of a b <= a)%Q /\ (Qmin_of a b <= b)%Q.
Proof.
  unfold Qmin_of. destruct (Qle_bool a b) eqn:E.
  - apply Qle_bool_iff in E. split; [apply Qle_refl|exact E].
  - apply Qle_bool_total, Qle_bool_iff in E. split; [exact E|apply Qle_refl].
Qed.

Lemma Qmax_of_ge (a b : Q) : (a <= Qmax_of a b)%Q /\ (b <= Qmax_of a b)%Q.
Proof.
  unfold Qmax_of. destruct (Qle_bool a b) eqn:E.
  - apply Qle_bool_iff in E. split; [exact E|apply Qle_refl].
  - apply Qle_bool_total, Qle_bool_iff in E. split; [apply Qle_refl|exact E].
Qed.

Lemma fold_min_le (qs : list Q) (q x : Q) :
  In x (q :: qs) -> (fold_left Qmin_of qs q <= x)%Q.
Proof.
  revert q x. induction qs as [|a qs IH]; intros q x Hin; simpl.
  - destruct Hin as [<-|[]]. apply Qle_refl.
  - destruct (Qmin_of_le q a) as [Hq Ha].
    destruct Hin as [<-|[<-|Hin]].
    + eapply Qle_trans; [apply IH; now left|exact Hq].
    + eapply Qle_trans; [apply IH; now left|exact Ha].
    + apply IH. now right.
Qed.

Lemma fold_max_ge (qs : list Q) (q x : Q) :
  In x (q :: qs) -> (x <= fold_left Qmax_of qs q)%Q.
Proof.
  revert q x. induction qs as [|a qs IH]; intros q x Hin; simpl.
  - destruct Hin as [<-|[]]. apply Qle_refl.
  - destruct (Qmax_of_ge q a) as [Hq Ha].
    destruct Hin as [<-|[<-|Hin]].
    + eapply Qle_trans; [exact Hq|apply IH; now left].
    + eapply Qle_trans; [exact Ha|apply IH; now left].
    + apply IH. now right.
Qed.

Lemma in_numbers (s : list pyfloat) (q : Q) : In (Fin q) s -> In q (numbers s).
Proof.
  induction s as [|[|p] s IH]; simpl; [tauto| |].
  - intros [H|H]; [discriminate|auto].
  - intros [[= ->]|H]; auto.
Qed.

Lemma within_min_max (s : list pyfloat) (q : Q) :
  In (Fin q) s -> fle (Series_min s) (Fin q) = true /\ fle (Fin q) (Series_max s) = true.
Proof.
  intros Hin. apply in_numbers in Hin. unfold Series_min, Series_max.
  destruct (numbers s) as [|q0 qs]; [destruct Hin|]. simpl.
  split; apply Qle_bool_iff; [now apply fold_min_le|now apply fold_max_ge].
Qed.

Lemma fle_notna (a b : pyfloat) : fle a b = true -> notna a = true /\ notna b = true.
Proof. destruct a, b; simpl; auto; discriminate. Qed.

Lemma filter_after_filter {A} (p q : A -> bool) (l : list A) :
  List.filter p (List.filter q l) = List.filter (fun x => q x && p x) l.
Proof.
  induction l as [|a l IH]; simpl; [reflexivity|].
  destruct (q a); simpl; [destruct (p a)|]; now rewrite IH.
Qed.

(** X18. The filter of [main] keeps no record without a price or without a
    rating, whatever the two ranges are; and with the ranges the sliders
    start with it keeps every other record. Before any slider is moved,
    the views are those of the records that have both a price and a
    rating. *)
Theorem filter_keeps_rated_games (df : list game) :
  (forall price_range rating_range,
     filter_games price_range rating_range df =
     filter_games price_range rating_range (dropna df)) /\
  filter_games (initial_price_range df) (initial_rating_range df) df = dropna df.
Proof.
  split.
  - intros pr rr. unfold filter_games, dropna.
    rewrite filter_after_filter. apply List.filter_ext. intros g.
    destruct (price g), (rating g), (fst pr), (snd pr), (fst rr), (snd rr); simpl;
      rewrite ?andb_false_r, ?andb_false_l, ?andb_true_r; reflexivity.
  - unfold filter_games, dropna. apply List.filter_ext_in. intros g Hg.
    destruct (price g) as [|p] eqn:Hp.
    { destruct (fst (initial_price_range df)); reflexivity. }
    destruct (rating g) as [|r] eqn:Hr.
    { destruct (fst (initial_rating_range df)); simpl;
        rewrite ?andb_false_r; reflexivity. }
    assert (Hpin : In (Fin p) (List.map price df)).
    { rewrite <- Hp. now apply in_map. }
    assert (Hrin : In (Fin r) (List.map rating df)).
    { rewrite <- Hr. now apply in_map. }
    destruct (within_min_max _ _ Hpin) as [Hp1 Hp2].
    destruct (within_min_max _ _ Hrin) as [Hr1 Hr2].
    unfold initial_price_range, initial_rating_range. cbn [fst snd].
    rewrite Hp1, Hp2. simpl.
    destruct (fle_notna _ _ Hr1) as [Hn1 _]. destruct (fle_notna _ _ Hr2) as [_ Hn2].
    destruct (Series_min (List.map rating df)); [discriminate|].
    destruct (Series_max (List.map rating df)); [discriminate|].
    simpl in *. now rewrite Hr1, Hr2.
Qed.



Lemma map_eq_nil_iff {A B} (f : A -> B) (l : list A) : List.map f l = [] <-> l = [].
Proof. destruct l; simpl; split; congruence. Qed.

Lemma single_valued_iff (s : list pyfloat) :
  fle (Series_max s) (Series_min s) = true <-> single_valued s.
Proof.
  unfold Series_max, Series_min, single_valued.
  destruct (numbers s) as [|q qs]; simpl.
  - split; [discriminate|intros [H _]; now destruct H].
  - rewrite Qle_bool_iff. split.
    + intros H. split; [discriminate|]. intros a b Ha Hb.
      assert (Hlo : forall x, In x (q :: qs) -> (fold_left Qmin_of qs q <= x)%Q)
        by (intros x; apply fold_min_le).
      assert (Hhi : forall x, In x (q :: qs) -> (x <= fold_left Qmax_of qs q)%Q)
        by (intros x; apply fold_max_ge).
      apply Qle_antisym.
      * eapply Qle_trans; [apply (Hhi a Ha)|]. eapply Qle_trans; [exact H|apply (Hlo b Hb)].
      * eapply Qle_trans; [apply (Hhi b Hb)|]. eapply Qle_trans; [exact H|apply (Hlo a Ha)].
    + intros [_ H].
      assert (Hmax : exists x, In x (q :: qs) /\ (fold_left Qmax_of qs q == x)%Q).
      { clear H. revert q. induction qs as [|a qs IH]; intros q; simpl.
        - exists q. split; [now left|reflexivity].
        - destruct (IH (Qmax_of q a)) as (x & [<-|Hx] & E).
          + unfold Qmax_of in *. destruct (Qle_bool q a); eauto.
          + eauto. }
      assert (Hmin : exists x, In x (q :: qs) /\ (fold_left Qmin_of qs q == x)%Q).
      { clear H Hmax. revert q. induction qs as [|a qs IH]; intros q; simpl.
        - exists q. split; [now left|reflexivity].
        - destruct (IH (Qmin_of q a)) as (x & [<-|Hx] & E).
          + unfold Qmin_of in *. destruct (Qle_bool q a); eauto.
          + eauto. }
      destruct Hmax as (x & Hx & Ex). destruct Hmin as (y & Hy & Ey).
      rewrite Ex, Ey. rewrite (H x y Hx Hy). apply Qle_refl.
Qed.

Lemma rating_bounds_single (df : list game) :
  fle (snd (initial_rating_range df)) (fst (initial_rating_range df)) = true <->
  single_valued (List.map rating df).
Proof.
  rewrite <- single_valued_iff. unfold initial_rating_range. cbn [fst snd].
  unfold Series_min, Series_max.
  destruct (numbers (List.map rating df)); simpl; [|reflexivity].
  split; discriminate.
Qed.

(** [main] up to the tabs: the two sliders. *)
Lemma main_views_sliders (srt : list game -> list game) (corr : list Q -> list Q -> pyfloat)
    (has_name : bool) (price_range rating_range : pyfloat * pyfloat) (df : list game) :
  (single_valued (List.map price df) \/ single_valued (List.map rating df) ->
   main_views srt corr has_name price_range rating_range df
   = Err StreamlitInvalidMinMaxError) /\
  (~ (single_valued (List.map price df) \/ single_valued (List.map rating df)) ->
   main_views srt corr has_name price_range rating_range df
   = tabs srt corr has_name (filter_games price_range rating_range df)).
Proof.
  unfold main_views, slider, mbind, result_bind.
  pose proof (single_valued_iff (List.map price df)) as Hp.
  pose proof (rating_bounds_single df) as Hr.
  unfold initial_price_range in *. cbn [fst snd] in *.
  destruct (fle (Series_max (List.map price df)) (Series_min (List.map price df))).
  - split; [reflexivity|]. intros H. destruct H. left. now apply Hp.
  - destruct (fle _ _).
    + split; [reflexivity|]. intros H. destruct H. right. now apply Hr.
    + split; [|reflexivity]. intros [H|H]; [apply Hp in H|apply Hr in H]; discriminate.
Qed.














(** * From [clean_data] to [main] *)

Lemma unrated_games_are_filtered_out (pr rr : pyfloat * pyfloat) (df : list game) :
  (forall g, In g df -> rating g = NaN) -> filter_games pr rr df = [].
Proof.
  intros H. unfold filter_games. apply filter_nil_iff. intros g Hg.
  rewrite (H g Hg). simpl. destruct (fst rr); simpl; now rewrite !andb_false_r.
Qed.

Lemma zip_games_ratings (ix : list nat) (ps rs ts : Series) (gs : list game) :
  zip_games ix ps rs ts = Some gs ->
  Forall (fun c => c = Null) rs -> forall g, In g gs -> rating g = NaN.
Proof.
  revert ps rs ts gs.
  induction ix as [|i ix IH]; intros [|p ps] [|r rs] [|t ts] gs H Hnull; try discriminate.
  - injection H as <-. intros g [].
  - simpl in H. apply Forall_cons in Hnull as [-> Hnull].
    destruct (as_float p) as [p'|]; [|discriminate]. simpl in H.
    destruct (as_tags t) as [t'|]; [|discriminate].
    destruct (zip_games ix ps rs ts) as [gs'|] eqn:E; [|discriminate].
    injection H as <-. intros g [<-|Hg]; [reflexivity|].
    exact (IH ps rs ts gs' E Hnull g Hg).
Qed.

(** X22. A record set without any rating column comes out of [clean_data]
    with the warning and a rating column of missing values; [main] then
    shows nothing of it. The rating slider runs from 0 to 100. When all
    records have the same price, the price slider ends [main] with
    [StreamlitInvalidMinMaxError]. Otherwise, wherever the sliders
    stand, the filter leaves no record and the first tab ends with
    [TypeError]. *)
Theorem missing_ratings_stop_main (L : pylib) (w w' : world) (df0 df : ref)
    (d d' : DataFrame) (gs : list game)
    (srt : list game -> list game) (corr : list Q -> list Q -> pyfloat)
    (has_name : bool) (price_range rating_range : pyfloat * pyfloat) :
  heap w !! df0 = Some d ->
  List.filter rating_synonym (column_names d) = [] ->
  clean_data L df0 w = Done df w' ->
  heap w' !! df = Some d' ->
  games_of d' = Some gs ->
  In Rating (notices w') /\
  initial_rating_range gs = (Fin 0, Fin (100 # 1)) /\
  filter_games price_range rating_range gs = [] /\
  (single_valued (List.map price gs) ->
   main_views srt corr has_name price_range rating_range gs
   = Err StreamlitInvalidMinMaxError) /\
  (~ single_valued (List.map price gs) ->
   main_views srt corr has_name price_range rating_range gs = Err TypeError).
Proof.
  intros Hd Hsyn Hrun Hd' Hgs.
  rewrite clean_data_unfold, Hd in Hrun. cbv zeta in Hrun.
  set (r := length (heap w)) in *.
  set (w0 := {| heap := heap w ++ [d]; notices := notices w |}) in *.
  assert (Hshape : shaped (index d) (column_names d ++ [Names.price]) r
                     (world_of (clean_price_columns L r w0))).
  { apply (stable_clean_price_columns r _ (shaped_frame_inv _ _ r)).
    - apply in_or_app. right. now left.
    - exists d. split; [|split; [reflexivity|]].
      + unfold w0, r. simpl. rewrite lookup_app_r by lia. now rewrite Nat.sub_diag.
      + intros n Hn. apply in_or_app. now left. }
  apply bind_Done in Hrun as ([] & w1 & Hprice & Hrun). rewrite Hprice in Hshape.
  simpl in Hshape. destruct Hshape as (d1 & Hd1 & _ & Hnames).
  assert (Hsyn1 : List.filter rating_synonym (column_names d1) = []).
  { apply filter_nil_iff. intros n Hn. apply Hnames in Hn.
    apply in_app_or in Hn as [Hn|[<-|[]]]; [|reflexivity].
    now apply (proj1 (filter_nil_iff _ _) Hsyn). }
  apply bind_Done in Hrun as ([] & w2 & Hrating & Hrun).
  unfold clean_rating_columns in Hrating.
  rewrite (resolve_field_default _ r _ _ _ _ _ _ _ _ w1 d1 Hd1) in Hrating;
    [|now apply (unmatched_name_absent rating_synonym)
     |now apply (unmatched_name_absent rating_synonym)|exact Hsyn1].
  injection Hrating as <-.
  set (w2 := {| heap := _; notices := notices w1 ++ [Rating] |}) in Hrun.
  assert (Hlt : (r < length (heap w1))%nat) by now apply lookup_lt_Some in Hd1.
  assert (Hcol : column_at (world_of (Done df w')) r Names.rating
                 = Some (repeat Null (nrows d1))).
  { rewrite <- Hrun.
    apply (writes_after_rating
             (fun w0 => column_at w0 r Names.rating = Some (repeat Null (nrows d1)))
             _ L _ _ (column_kept_inv r Names.rating (Some (repeat Null (nrows d1)))));
      try discriminate; try exact Logic.I.
    unfold column_at, w2. simpl. rewrite list_lookup_insert_eq by exact Hlt.
    simpl. apply get_column_set_column. }
  assert (Hnote : In Rating (notices (world_of (Done df w')))).
  { rewrite <- Hrun.
    apply (writes_after_rating (fun w0 => In Rating (notices w0)) _ L
             (fun _ => True) (fun _ => True)); try exact Logic.I.
    - split; [intros ? ? ? ? H _ _; exact H|].
      intros w3 f H _. simpl. apply in_or_app. now left.
    - unfold w2. simpl. apply in_or_app. right. now left. }
  simpl in Hcol, Hnote.
  assert (Hdf : df = r).
  { repeat (apply bind_Done in Hrun as (? & ? & _ & Hrun)).
    unfold mret, M_ret in Hrun. congruence. }
  subst df. unfold column_at in Hcol. rewrite Hd' in Hcol.
  assert (Hnan : forall g, In g gs -> rating g = NaN).
  { unfold games_of in Hgs. rewrite Hcol in Hgs.
    destruct (get_column (columns d') Names.price) as [ps|]; [|discriminate].
    destruct (get_column (columns d') Names.tag_list) as [ts|]; [|discriminate].
    apply (zip_games_ratings _ _ _ _ _ Hgs).
    clear. induction (nrows d1); simpl; constructor; auto. }
  split; [exact Hnote|].
  pose proof (unrated_games_are_filtered_out price_range rating_range gs Hnan) as Hnil.
  assert (Hnone : numbers (List.map rating gs) = []).
  { clear -Hnan. induction gs as [|g gs IH]; [reflexivity|]. simpl.
    rewrite (Hnan g (or_introl eq_refl)). apply IH. intros h Hh. apply Hnan. now right. }
  split.
  { unfold initial_rating_range, Series_min, Series_max. now rewrite Hnone. }
  split; [exact Hnil|].
  destruct (main_views_sliders srt corr has_name price_range rating_range gs)
    as [Hstop Hgo].
  split.
  - intros Hsingle. apply Hstop. now left.
  - intros Hmany. rewrite Hgo.
    + rewrite Hnil. reflexivity.
    + intros [H|[H _]]; [now apply Hmany|now apply H].
Qed.

Lemma missing_ratings_stop_main_witness :
  exists w' d' gs,
    clean_data Fragment.fragment 0 (start frame_without_ratings) = Done 1 w' /\
    heap w' !! 1%nat = Some d' /\
    games_of d' = Some gs /\
    In Rating (notices w') /\
    main_views (insertion_sort_desc true) (fun _ _ => NaN) true
      (initial_price_range gs) (initial_rating_range gs) gs = Err TypeError.
Proof.
  eassert (Hrun : clean_data Fragment.fragment 0 (start frame_without_ratings) = Done 1 _)
    by (vm_compute; reflexivity).
  match type of Hrun with
  | _ = Done _ ?w => eassert (Hd' : heap w !! 1%nat = Some _) by reflexivity
  end.
  match type of Hd' with
  | _ = Some ?d => eassert (Hgs : games_of d = Some _) by (vm_compute; reflexivity)
  end.
  eexists. eexists. eexists.
  split; [exact Hrun|]. split; [exact Hd'|]. split; [exact Hgs|].
  match type of Hgs with
  | _ = Some ?gs =>
      destruct (missing_ratings_stop_main Fragment.fragment (start frame_without_ratings) _
                  0 1 frame_without_ratings _ _ (insertion_sort_desc true)
                  (fun _ _ => NaN) true (initial_price_range gs) (initial_rating_range gs)
                  eq_refl eq_refl Hrun Hd' Hgs) as (H1 & _ & _ & _ & H3)
  end.
  split; [exact H1|]. apply H3.
  intros [_ H]. specialize (H (10 # 1)%Q (60 # 1)%Q). simpl in H.
  assert (E : (10 # 1 == 60 # 1)%Q) by (apply H; auto). discriminate E.
Defined.
